(** * The unified TickTick API: routing facade and its test double

    A shallow embedding of [ticktick_mcp/unified/api.py] (the class
    [UnifiedTickTickAPI]) and of the in-memory double [MockUnifiedAPI] of
    [tests/conftest.py], followed by the properties of the routing layer:
    lifecycle guard, primary/fallback routing, read-after-write on creates,
    error aggregation at start-up, and the cascades of the tag and folder
    operations.

    Python exceptions are values of [exn]; a coroutine of the facade is a
    function from the state of the outside world (and the log of upstream
    calls made so far) to an outcome and a new state. *)

From Stdlib Require Import ZArith Ascii String.
From Stdlib Require HexadecimalString HexadecimalNat.
From stdpp Require Import base option list strings gmap.

Local Open Scope string_scope.

(** ** Python values that cross the client boundary *)

(** The wire data the two clients return and accept: JSON-like mappings,
    lists and scalars.  A mapping keeps its insertion order, as a Python
    dict does. *)
#[local] Unset Elimination Schemes.
Inductive raw : Type :=
| RNone
| RBool (b : bool)
| RInt (n : Z)
| RStr (s : string)
| RList (l : list raw)
| RDict (kv : list (string * raw)).
#[local] Set Elimination Schemes.

(** [datetime] and [date] objects, as a number of seconds. *)
Definition datetime : Type := Z.

Definition opt_raw {A} (f : A → raw) (o : option A) : raw :=
  match o with Some a => f a | None => RNone end.

(** Truthiness of a [str | None] value: [None] and the empty string are
    falsy. *)
Definition truthy (o : option string) : bool :=
  match o with
  | Some s => negb (String.eqb s "")
  | None => false
  end.

Fixpoint assoc {A} (k : string) (kv : list (string * A)) : option A :=
  match kv with
  | [] => None
  | (k', v) :: rest => if String.eqb k k' then Some v else assoc k rest
  end.

(** ** Exceptions *)

(** An exception object: its class, its message ([str(e)]) and, for
    [TickTickAPIUnavailableError], the [operation] it was built with. *)
Record exn : Type := Exn {
  exn_class : string;
  exn_msg : string;
  exn_operation : option string
}.

Definition TickTickConfigurationError (msg : string) : exn :=
  Exn "TickTickConfigurationError" msg None.

Definition TickTickAPIUnavailableError (msg operation : string) : exn :=
  Exn "TickTickAPIUnavailableError" msg (Some operation).

Definition TickTickNotFoundError (msg : string) : exn :=
  Exn "TickTickNotFoundError" msg None.

(** What Python itself raises on [None.method(...)] or [x.get] on a value
    that is no mapping. *)
Definition AttributeError (msg : string) : exn := Exn "AttributeError" msg None.
Definition TypeError (msg : string) : exn := Exn "TypeError" msg None.

Inductive res (A : Type) : Type :=
| Ok (a : A)
| Raise (e : exn).
Arguments Ok {A} a.
Arguments Raise {A} e.

Definition is_ok {A} (r : res A) : bool :=
  match r with Ok _ => true | Raise _ => false end.

(** [d.get(k, default)] on a wire value. *)
Definition dict_get (d : raw) (k : string) (dflt : raw) : res raw :=
  match d with
  | RDict kv => Ok (from_option id dflt (assoc k kv))
  | _ => Raise (AttributeError "object has no attribute 'get'")
  end.

(** [d.keys()], then [next(iter(...), None)]: the first key, if any. *)
Definition first_key (d : raw) : res (option string) :=
  match d with
  | RDict kv => Ok (head (map fst kv))
  | _ => Raise (AttributeError "object has no attribute 'keys'")
  end.

(** Iterating over a wire value in a [for] loop or a comprehension. *)
Definition iterate (v : raw) : res (list raw) :=
  match v with
  | RList l => Ok l
  | RDict kv => Ok (map (λ p, RStr (fst p)) kv)
  | RStr s => Ok (map (λ c, RStr (String c "")) (String.list_ascii_of_string s))
  | _ => Raise (TypeError "object is not iterable")
  end.

(** [v == s] for a string [s]: only an equal string compares equal. *)
Definition raw_eq_str (v : raw) (s : string) : bool :=
  match v with RStr s' => String.eqb s' s | _ => false end.

(** ** The canonical models, as far as the facade and its double use them *)

Inductive TaskStatus : Type := ACTIVE | COMPLETED | ABANDONED.

Global Instance TaskStatus_eq_dec : EqDecision TaskStatus.
Proof. solve_decision. Defined.

Record TaskReminder : Type := { trigger : string }.

Record ChecklistItem : Type := {
  item_id : string;
  item_title : string;
  item_status : Z;
  item_sort_order : Z
}.

Module Task.
Record t : Type := {
  id : string;
  project_id : string;
  title : string;
  content : option string;
  desc : option string;
  status : TaskStatus;
  priority : Z;
  start_date : option datetime;
  due_date : option datetime;
  completed_time : option datetime;
  tags : list string;
  items : list ChecklistItem;
  parent_id : option string;
  child_ids : list string;
  time_zone : option string;
  is_all_day : option bool;
  reminders : list TaskReminder;
  repeat_flag : option string;
  created_time : option datetime;
  modified_time : option datetime;
  sort_order : option Z
}.

(** [task.tags = new_tags] *)
Definition with_tags (new_tags : list string) (task : t) : t :=
  {| id := id task; project_id := project_id task; title := title task;
     content := content task; desc := desc task; status := status task;
     priority := priority task; start_date := start_date task;
     due_date := due_date task; completed_time := completed_time task;
     tags := new_tags; items := items task; parent_id := parent_id task;
     child_ids := child_ids task; time_zone := time_zone task;
     is_all_day := is_all_day task; reminders := reminders task;
     repeat_flag := repeat_flag task; created_time := created_time task;
     modified_time := modified_time task; sort_order := sort_order task |}.

(** [task.status = s; task.completed_time = moment] *)
Definition with_completion (s : TaskStatus) (moment : option datetime)
    (task : t) : t :=
  {| id := id task; project_id := project_id task; title := title task;
     content := content task; desc := desc task; status := s;
     priority := priority task; start_date := start_date task;
     due_date := due_date task; completed_time := moment;
     tags := tags task; items := items task; parent_id := parent_id task;
     child_ids := child_ids task; time_zone := time_zone task;
     is_all_day := is_all_day task; reminders := reminders task;
     repeat_flag := repeat_flag task; created_time := created_time task;
     modified_time := modified_time task; sort_order := sort_order task |}.

(** [task.modified_time = moment] *)
Definition with_modified_time (moment : option datetime) (task : t) : t :=
  {| id := id task; project_id := project_id task; title := title task;
     content := content task; desc := desc task; status := status task;
     priority := priority task; start_date := start_date task;
     due_date := due_date task; completed_time := completed_time task;
     tags := tags task; items := items task; parent_id := parent_id task;
     child_ids := child_ids task; time_zone := time_zone task;
     is_all_day := is_all_day task; reminders := reminders task;
     repeat_flag := repeat_flag task; created_time := created_time task;
     modified_time := moment; sort_order := sort_order task |}.

(** [task.project_id = p] *)
Definition with_project_id (p : string) (task : t) : t :=
  {| id := id task; project_id := p; title := title task;
     content := content task; desc := desc task; status := status task;
     priority := priority task; start_date := start_date task;
     due_date := due_date task; completed_time := completed_time task;
     tags := tags task; items := items task; parent_id := parent_id task;
     child_ids := child_ids task; time_zone := time_zone task;
     is_all_day := is_all_day task; reminders := reminders task;
     repeat_flag := repeat_flag task; created_time := created_time task;
     modified_time := modified_time task; sort_order := sort_order task |}.

(** [task.parent_id = p] *)
Definition with_parent_id (p : option string) (task : t) : t :=
  {| id := id task; project_id := project_id task; title := title task;
     content := content task; desc := desc task; status := status task;
     priority := priority task; start_date := start_date task;
     due_date := due_date task; completed_time := completed_time task;
     tags := tags task; items := items task; parent_id := p;
     child_ids := child_ids task; time_zone := time_zone task;
     is_all_day := is_all_day task; reminders := reminders task;
     repeat_flag := repeat_flag task; created_time := created_time task;
     modified_time := modified_time task; sort_order := sort_order task |}.

(** [task.child_ids = ids], after an append *)
Definition with_child_ids (ids : list string) (task : t) : t :=
  {| id := id task; project_id := project_id task; title := title task;
     content := content task; desc := desc task; status := status task;
     priority := priority task; start_date := start_date task;
     due_date := due_date task; completed_time := completed_time task;
     tags := tags task; items := items task; parent_id := parent_id task;
     child_ids := ids; time_zone := time_zone task;
     is_all_day := is_all_day task; reminders := reminders task;
     repeat_flag := repeat_flag task; created_time := created_time task;
     modified_time := modified_time task; sort_order := sort_order task |}.
End Task.

Module Project.
Record t : Type := {
  id : string;
  name : string;
  color : option string;
  kind : string;
  view_mode : string;
  group_id : option string;
  closed : bool;
  sort_order : Z
}.

(** [project.group_id = g] *)
Definition with_group_id (g : option string) (project : t) : t :=
  {| id := id project; name := name project; color := color project;
     kind := kind project; view_mode := view_mode project; group_id := g;
     closed := closed project; sort_order := sort_order project |}.
End Project.

Module ProjectGroup.
Record t : Type := {
  id : string;
  name : string;
  sort_order : Z
}.
End ProjectGroup.

Module Tag.
Record t : Type := {
  name : string;
  label : string;
  color : option string;
  parent : option string;
  sort_order : Z
}.

(** [tag.name = n; tag.label = l] *)
Definition renamed (n l : string) (tag : t) : t :=
  {| name := n; label := l; color := color tag; parent := parent tag;
     sort_order := sort_order tag |}.
End Tag.

(** ** The two upstream clients and the router *)

Inductive upstream : Type := V1 | V2.

Global Instance upstream_eq_dec : EqDecision upstream.
Proof. solve_decision. Defined.

(** One call on a client: which client, which method, with which positional
    and keyword arguments.  The constructor of a client is the method
    [__init__]. *)
Record call : Type := Call {
  target : upstream;
  method : string;
  args : list raw;
  kwargs : list (string * raw)
}.

(** Modelled from the spec: the client classes [TickTickV1Client] and
    [TickTickV2Client] and the router [APIRouter] are not among the sources.
    A client handle records what the router asks of it: the session-based
    client (B, here V2) whether its authentication succeeded. *)
Inductive TickTickV1Client : Type := V1Handle.
Record TickTickV2Client : Type := { is_authenticated : bool }.

(** Modelled from the spec: [has_a]/[has_b] hold iff the respective client
    was constructed successfully and, for the session-based client,
    authentication succeeded; [is_fully_configured] iff both are usable. *)
Record APIRouter : Type := {
  v1_client : option TickTickV1Client;
  v2_client : option TickTickV2Client
}.

Definition has_v1 (r : APIRouter) : bool := bool_decide (is_Some (v1_client r)).

Definition has_v2 (r : APIRouter) : bool :=
  match v2_client r with
  | Some c => is_authenticated c
  | None => false
  end.

Definition is_fully_configured (r : APIRouter) : bool := has_v1 r && has_v2 r.

Definition usable (r : APIRouter) (u : upstream) : bool :=
  match u with V1 => has_v1 r | V2 => has_v2 r end.

(** What the facade consumes and the sources do not define: the behaviour of
    the remote services behind the two clients, the clock, the class
    hierarchy below [TickTickAPIError], the router's health check and the
    conversions of the model layer. *)
Class Collaborators : Type := {
  (** the state of everything outside the facade *)
  World : Type;
  (** one awaited call on a client: it returns or raises, and the world
      moves on *)
  perform : call → World → res raw * World;
  (** [APIRouter.verify_clients()]: a per-client boolean, keyed v1 and v2 *)
  verify_clients : APIRouter → World → res (list (string * bool)) * World;
  (** [datetime.now()] *)
  now : World → datetime;
  (** [isinstance(e, TickTickAPIError)] *)
  isinstance_TickTickAPIError : exn → bool;
  (** the attribute [inbox_id] of the session [authenticate] returns *)
  session_inbox_id : raw → option string;
  (** [TaskStatus.X] as the integer sent on the wire *)
  TaskStatus_value : TaskStatus → Z;
  (** [Task.format_datetime(dt, version)] *)
  format_datetime : option datetime → string → option string;
  Task_from_v1 : raw → res Task.t;
  Task_from_v2 : raw → res Task.t;
  Task_to_v2_dict : Task.t → raw;
  Project_from_v1 : raw → res Project.t;
  Project_from_v2 : raw → res Project.t;
  ProjectGroup_from_v2 : raw → res ProjectGroup.t;
  ProjectGroup_default_sort_order : Z;
  Tag_from_v2 : raw → res Tag.t;
  Tag_create : string → option string → option string → res Tag.t;
  ProjectData : Type;
  ProjectData_from_v1 : raw → res ProjectData;
  User : Type;
  User_from_v2 : raw → res User;
  UserStatus : Type;
  UserStatus_from_v2 : raw → res UserStatus;
  UserStatistics : Type;
  UserStatistics_from_v2 : raw → res UserStatistics
}.

(** ** Coroutines of the facade *)

Section Coroutines.
Context `{E : Collaborators}.

(** The outside world and the log of the upstream calls made so far, in
    order. *)
Definition env : Type := World * list call.

Definition M (A : Type) : Type := env → res A * env.

Definition ret {A} (a : A) : M A := λ s, (Ok a, s).

Definition raise {A} (e : exn) : M A := λ s, (Raise e, s).

Definition bind {A B} (c : M A) (k : A → M B) : M B :=
  λ s, match c s with
       | (Ok a, s') => k a s'
       | (Raise e, s') => (Raise e, s')
       end.

(** A pure step that may raise (a conversion of the model layer). *)
Definition lift {A} (r : res A) : M A := λ s, (r, s).

(** [try: body / except <class>: handler] *)
Definition try_except {A} (body : M A) (catches : exn → bool)
    (handler : M A) : M A :=
  λ s, match body s with
       | (Raise e, s') => if catches e then handler s' else (Raise e, s')
       | done => done
       end.

(** [await client.method(...)]: the call is logged, then performed. *)
Definition await (c : call) : M raw :=
  λ '(w, log), let '(r, w') := perform c w in (r, (w', (log ++ [c])%list)).

Definition read_clock : M datetime := λ '(w, log), (Ok (now w), (w, log)).

(** [[f(x) for x in xs]] for a conversion [f] that may raise. *)
Fixpoint for_each {A B} (f : A → res B) (xs : list A) : res (list B) :=
  match xs with
  | [] => Ok []
  | x :: rest =>
      match f x with
      | Ok y =>
          match for_each f rest with
          | Ok ys => Ok (y :: ys)
          | Raise e => Raise e
          end
      | Raise e => Raise e
      end
  end.
End Coroutines.

Declare Scope coroutine_scope.
Delimit Scope coroutine_scope with M.
Notation "x <- c1 ;; c2" := (bind c1 (λ x, c2))
  (at level 100, c1 at next level, right associativity) : coroutine_scope.
Notation "c1 ;;; c2" := (bind c1 (λ _, c2))
  (at level 100, right associativity) : coroutine_scope.

(** ** [UnifiedTickTickAPI] *)

Record V1Credentials : Type := {
  client_id : string;
  client_secret : string;
  redirect_uri : string;
  access_token : option string;
  v1_timeout : Z
}.

Record V2Credentials : Type := {
  username : option string;
  password : option string;
  device_id : option string;
  v2_timeout : Z
}.

Module CreateTaskArgs.
Record t : Type := {
  title : string;
  project_id : option string;
  content : option string;
  desc : option string;
  priority : option Z;
  start_date : option datetime;
  due_date : option datetime;
  time_zone : option string;
  is_all_day : option bool;
  reminders : option (list string);
  repeat_flag : option string;
  tags : option (list string);
  parent_id : option string
}.
End CreateTaskArgs.

Module CreateProjectArgs.
Record t : Type := {
  name : string;
  color : option string;
  kind : option string;
  view_mode : option string;
  group_id : option string
}.
End CreateProjectArgs.

(** The public operations of the facade with their arguments
    ([initialize] and [close] are the lifecycle, not operations). *)
Module Operation.
Inductive t : Type :=
| sync_all
| list_all_tasks
| get_task (task_id : string) (project_id : option string)
| create_task (a : CreateTaskArgs.t)
| update_task (task : Task.t)
| complete_task (task_id project_id : string)
| delete_task (task_id project_id : string)
| list_completed_tasks (from_date to_date : datetime) (limit : Z)
| move_task (task_id from_project_id to_project_id : string)
| set_task_parent (task_id project_id parent_id : string)
| list_projects
| get_project (project_id : string)
| get_project_with_data (project_id : string)
| create_project (a : CreateProjectArgs.t)
| delete_project (project_id : string)
| list_project_groups
| create_project_group (name : string)
| delete_project_group (group_id : string)
| list_tags
| create_tag (label : string) (color parent : option string)
| delete_tag (name : string)
| rename_tag (old_name new_label : string)
| merge_tags (source_name target_name : string)
| get_user_profile
| get_user_status
| get_user_statistics
| get_focus_heatmap (start_date end_date : datetime)
| get_focus_by_tag (start_date end_date : datetime).

(** The name of the method. *)
Definition name (op : t) : string :=
  match op with
  | sync_all => "sync_all"
  | list_all_tasks => "list_all_tasks"
  | get_task _ _ => "get_task"
  | create_task _ => "create_task"
  | update_task _ => "update_task"
  | complete_task _ _ => "complete_task"
  | delete_task _ _ => "delete_task"
  | list_completed_tasks _ _ _ => "list_completed_tasks"
  | move_task _ _ _ => "move_task"
  | set_task_parent _ _ _ => "set_task_parent"
  | list_projects => "list_projects"
  | get_project _ => "get_project"
  | get_project_with_data _ => "get_project_with_data"
  | create_project _ => "create_project"
  | delete_project _ => "delete_project"
  | list_project_groups => "list_project_groups"
  | create_project_group _ => "create_project_group"
  | delete_project_group _ => "delete_project_group"
  | list_tags => "list_tags"
  | create_tag _ _ _ => "create_tag"
  | delete_tag _ => "delete_tag"
  | rename_tag _ _ => "rename_tag"
  | merge_tags _ _ => "merge_tags"
  | get_user_profile => "get_user_profile"
  | get_user_status => "get_user_status"
  | get_user_statistics => "get_user_statistics"
  | get_focus_heatmap _ _ => "get_focus_heatmap"
  | get_focus_by_tag _ _ => "get_focus_by_tag"
  end.
End Operation.

Module UnifiedTickTickAPI.

(** The attributes of the object. *)
Record t : Type := {
  _v1_credentials : V1Credentials;
  _v2_credentials : V2Credentials;
  _v1_client : option TickTickV1Client;
  _v2_client : option TickTickV2Client;
  _router : option APIRouter;
  _initialized : bool;
  _inbox_id : option string
}.

Definition set_v1_client (c : option TickTickV1Client) (self : t) : t :=
  {| _v1_credentials := _v1_credentials self;
     _v2_credentials := _v2_credentials self;
     _v1_client := c;
     _v2_client := _v2_client self;
     _router := _router self;
     _initialized := _initialized self;
     _inbox_id := _inbox_id self |}.

Definition set_v2_client (c : option TickTickV2Client) (self : t) : t :=
  {| _v1_credentials := _v1_credentials self;
     _v2_credentials := _v2_credentials self;
     _v1_client := _v1_client self;
     _v2_client := c;
     _router := _router self;
     _initialized := _initialized self;
     _inbox_id := _inbox_id self |}.

Definition set_router (r : option APIRouter) (self : t) : t :=
  {| _v1_credentials := _v1_credentials self;
     _v2_credentials := _v2_credentials self;
     _v1_client := _v1_client self;
     _v2_client := _v2_client self;
     _router := r;
     _initialized := _initialized self;
     _inbox_id := _inbox_id self |}.

Definition set_initialized (b : bool) (self : t) : t :=
  {| _v1_credentials := _v1_credentials self;
     _v2_credentials := _v2_credentials self;
     _v1_client := _v1_client self;
     _v2_client := _v2_client self;
     _router := _router self;
     _initialized := b;
     _inbox_id := _inbox_id self |}.

Definition set_inbox_id (i : option string) (self : t) : t :=
  {| _v1_credentials := _v1_credentials self;
     _v2_credentials := _v2_credentials self;
     _v1_client := _v1_client self;
     _v2_client := _v2_client self;
     _router := _router self;
     _initialized := _initialized self;
     _inbox_id := i |}.

(** [__init__]: credentials are stored, nothing is constructed yet. *)
Definition __init__ (v1 : V1Credentials) (v2 : V2Credentials) : t :=
  {| _v1_credentials := v1;
     _v2_credentials := v2;
     _v1_client := None;
     _v2_client := None;
     _router := None;
     _initialized := false;
     _inbox_id := None |}.

Definition not_initialized_message : string :=
  "API not initialized. Use 'await api.initialize()' or async context manager.".

Definition required_prefix : string := "Both V1 and V2 APIs are required. ".

Definition v1_init_call (c : V1Credentials) : call :=
  Call V1 "__init__" []
    [("client_id", RStr (client_id c));
     ("client_secret", RStr (client_secret c));
     ("redirect_uri", RStr (redirect_uri c));
     ("access_token", opt_raw RStr (access_token c));
     ("timeout", RInt (v1_timeout c))].

Definition v2_init_call (c : V2Credentials) : call :=
  Call V2 "__init__" []
    [("device_id", opt_raw RStr (device_id c));
     ("timeout", RInt (v2_timeout c))].

Definition v2_authenticate_call (c : V2Credentials) : call :=
  Call V2 "authenticate"
    [opt_raw RStr (username c); opt_raw RStr (password c)] [].

(** [not verification.get(k)] *)
Definition verification_failed (verification : list (string * bool))
    (k : string) : bool :=
  negb (default false (assoc k verification)).

Section Methods.
Context `{E : Collaborators}.
Local Open Scope coroutine_scope.

(** The errors the two construction blocks of [initialize] collect, with
    the object as they leave it. *)
Definition construct_v1 (self : t) (s : env) : t * list string * env :=
  match await (v1_init_call (_v1_credentials self)) s with
  | (Ok _, s1) => (set_v1_client (Some V1Handle) self, [], s1)
  | (Raise e, s1) =>
      (self, ["V1 initialization failed: " +:+ exn_msg e], s1)
  end.

Definition construct_v2 (self : t) (s : env) : t * list string * env :=
  let creds := _v2_credentials self in
  match await (v2_init_call creds) s with
  | (Raise e, s1) =>
      (self, ["V2 initialization failed: " +:+ exn_msg e], s1)
  | (Ok _, s1) =>
      let self1 := set_v2_client (Some {| is_authenticated := false |}) self in
      if truthy (username creds) && truthy (password creds) then
        match await (v2_authenticate_call creds) s1 with
        | (Ok session, s2) =>
            (set_inbox_id (session_inbox_id session)
               (set_v2_client (Some {| is_authenticated := true |}) self1),
             [], s2)
        | (Raise e, s2) =>
            (self1, ["V2 initialization failed: " +:+ exn_msg e], s2)
        end
      else (self1, ["V2 credentials not provided"], s1)
  end.

Definition verification_errors (verification : list (string * bool))
    : list string :=
  ((if verification_failed verification "v1"
    then ["V1 authentication verification failed"] else []) ++
   (if verification_failed verification "v2"
    then ["V2 authentication verification failed"] else []))%list.

(** [initialize]: the outcome, the object afterwards, the world
    afterwards. *)
Definition initialize (self : t) (s : env) : res unit * t * env :=
  if _initialized self then (Ok tt, self, s)
  else
    let '(self1, errors1, s1) := construct_v1 self s in
    let '(self2, errors2, s2) := construct_v2 self1 s1 in
    let router := {| v1_client := _v1_client self2;
                     v2_client := _v2_client self2 |} in
    let self3 := set_router (Some router) self2 in
    match verify_clients router (fst s2) with
    | (Raise e, w) => (Raise e, self3, (w, snd s2))
    | (Ok verification, w) =>
        let errors :=
          (errors1 ++ errors2 ++ verification_errors verification)%list in
        if negb (is_fully_configured router) then
          (Raise (TickTickConfigurationError
                    (required_prefix +:+ String.concat "; " errors)),
           self3, (w, snd s2))
        else (Ok tt, set_initialized true self3, (w, snd s2))
    end.

Definition v1_close_call : call := Call V1 "close" [] [].
Definition v2_close_call : call := Call V2 "close" [] [].

Definition close (self : t) (s : env) : res unit * t * env :=
  let step (present : bool) (c : call) : M unit :=
    if present then (_ <- await c ;; ret tt) else ret tt in
  match (step (bool_decide (is_Some (_v1_client self))) v1_close_call ;;;
         step (bool_decide (is_Some (_v2_client self))) v2_close_call) s with
  | (Ok _, s') => (Ok tt, set_initialized false self, s')
  | (Raise e, s') => (Raise e, self, s')
  end.

Definition _ensure_initialized (self : t) : M unit :=
  if _initialized self then ret tt
  else raise (TickTickConfigurationError not_initialized_message).

Definition inbox_id (self : t) : option string := _inbox_id self.

Definition router (self : t) : M (option APIRouter) :=
  _ensure_initialized self ;;; ret (_router self).

(** [self._router.has_v1] and [self._router.has_v2]. *)
Definition router_flag (self : t) (flag : APIRouter → bool) : M bool :=
  match _router self with
  | Some r => ret (flag r)
  | None => raise (AttributeError "'NoneType' object has no attribute")
  end.

(** [await self._v1_client.m(...)] and [await self._v2_client.m(...)]. *)
Definition on_v1 (self : t) (c : call) : M raw :=
  match _v1_client self with
  | Some _ => await c
  | None => raise (AttributeError "'NoneType' object has no attribute")
  end.

Definition on_v2 (self : t) (c : call) : M raw :=
  match _v2_client self with
  | Some _ => await c
  | None => raise (AttributeError "'NoneType' object has no attribute")
  end.

(** *** The calls the task operations make *)

Definition v2_sync_call : call := Call V2 "sync" [] [].

Definition v2_get_task_call (task_id : string) : call :=
  Call V2 "get_task" [RStr task_id] [].

Definition v1_get_task_call (project_id task_id : string) : call :=
  Call V1 "get_task" [RStr project_id; RStr task_id] [].

Definition v2_create_task_call (a : CreateTaskArgs.t) (project_id : string)
    (start_str due_str : option string) : call :=
  Call V2 "create_task" []
    [("title", RStr (CreateTaskArgs.title a));
     ("project_id", RStr project_id);
     ("content", opt_raw RStr (CreateTaskArgs.content a));
     ("desc", opt_raw RStr (CreateTaskArgs.desc a));
     ("priority", opt_raw RInt (CreateTaskArgs.priority a));
     ("start_date", opt_raw RStr start_str);
     ("due_date", opt_raw RStr due_str);
     ("time_zone", opt_raw RStr (CreateTaskArgs.time_zone a));
     ("is_all_day", opt_raw RBool (CreateTaskArgs.is_all_day a));
     ("reminders",
      match CreateTaskArgs.reminders a with
      | Some (r :: rs) =>
          RList (map (λ r, RDict [("trigger", RStr r)]) (r :: rs))
      | _ => RNone
      end);
     ("repeat_flag", opt_raw RStr (CreateTaskArgs.repeat_flag a));
     ("tags", opt_raw (λ l, RList (map RStr l)) (CreateTaskArgs.tags a));
     ("parent_id", opt_raw RStr (CreateTaskArgs.parent_id a))].

Definition v1_create_task_call (a : CreateTaskArgs.t) (project_id : string)
    (start_str due_str : option string) : call :=
  Call V1 "create_task" []
    [("title", RStr (CreateTaskArgs.title a));
     ("project_id", RStr project_id);
     ("content", opt_raw RStr (CreateTaskArgs.content a));
     ("desc", opt_raw RStr (CreateTaskArgs.desc a));
     ("priority", opt_raw RInt (CreateTaskArgs.priority a));
     ("start_date", opt_raw RStr start_str);
     ("due_date", opt_raw RStr due_str);
     ("time_zone", opt_raw RStr (CreateTaskArgs.time_zone a));
     ("is_all_day", opt_raw RBool (CreateTaskArgs.is_all_day a));
     ("reminders",
      opt_raw (λ l, RList (map RStr l)) (CreateTaskArgs.reminders a));
     ("repeat_flag", opt_raw RStr (CreateTaskArgs.repeat_flag a))].

Definition v2_batch_update_call (task : Task.t) : call :=
  Call V2 "batch_tasks" [] [("update", RList [Task_to_v2_dict task])].

Definition v1_update_task_call (task : Task.t) : call :=
  Call V1 "update_task" []
    [("task_id", RStr (Task.id task));
     ("project_id", RStr (Task.project_id task));
     ("title", RStr (Task.title task));
     ("content", opt_raw RStr (Task.content task));
     ("desc", opt_raw RStr (Task.desc task));
     ("is_all_day", opt_raw RBool (Task.is_all_day task));
     ("start_date", opt_raw RStr (format_datetime (Task.start_date task) "v1"));
     ("due_date", opt_raw RStr (format_datetime (Task.due_date task) "v1"));
     ("time_zone", opt_raw RStr (Task.time_zone task));
     ("reminders",
      match Task.reminders task with
      | [] => RNone
      | rs => RList (map (λ r, RStr (trigger r)) rs)
      end);
     ("repeat_flag", opt_raw RStr (Task.repeat_flag task));
     ("priority", RInt (Task.priority task));
     ("sort_order", opt_raw RInt (Task.sort_order task))].

Definition v1_complete_task_call (project_id task_id : string) : call :=
  Call V1 "complete_task" [RStr project_id; RStr task_id] [].

Definition v2_complete_task_call (task_id project_id : string)
    (moment : datetime) : call :=
  Call V2 "update_task" []
    [("task_id", RStr task_id);
     ("project_id", RStr project_id);
     ("status", RInt (TaskStatus_value COMPLETED));
     ("completed_time", opt_raw RStr (format_datetime (Some moment) "v2"))].

Definition v2_delete_task_call (project_id task_id : string) : call :=
  Call V2 "delete_task" [RStr project_id; RStr task_id] [].

Definition v1_delete_task_call (project_id task_id : string) : call :=
  Call V1 "delete_task" [RStr project_id; RStr task_id] [].

Definition v2_get_completed_tasks_call (from_date to_date : datetime)
    (limit : Z) : call :=
  Call V2 "get_completed_tasks" [RInt from_date; RInt to_date; RInt limit] [].

Definition v2_move_task_call (task_id from_project_id to_project_id : string)
    : call :=
  Call V2 "move_task"
    [RStr task_id; RStr from_project_id; RStr to_project_id] [].

Definition v2_set_task_parent_call (task_id project_id parent_id : string)
    : call :=
  Call V2 "set_task_parent" [RStr task_id; RStr project_id; RStr parent_id] [].

(** *** Sync and task operations *)

Definition sync_all (self : t) : M raw :=
  _ensure_initialized self ;;;
  on_v2 self v2_sync_call.

Definition list_all_tasks (self : t) : M (list Task.t) :=
  _ensure_initialized self ;;;
  state <- on_v2 self v2_sync_call ;;
  bean <- lift (dict_get state "syncTaskBean" (RDict [])) ;;
  tasks_data <- lift (dict_get bean "update" (RList [])) ;;
  items <- lift (iterate tasks_data) ;;
  lift (for_each Task_from_v2 items).

Definition unavailable (msg operation : string) {A} : M A :=
  raise (TickTickAPIUnavailableError msg operation).

Definition get_task (self : t) (task_id : string)
    (project_id : option string) : M Task.t :=
  _ensure_initialized self ;;;
  (* Try V2 first (doesn't need project_id) *)
  has2 <- router_flag self has_v2 ;;
  found <- (if has2 then
              try_except
                (data <- on_v2 self (v2_get_task_call task_id) ;;
                 task <- lift (Task_from_v2 data) ;;
                 ret (Some task))
                isinstance_TickTickAPIError
                (ret None)
            else ret None) ;;
  match found with
  | Some task => ret task
  | None =>
      (* Fallback to V1 *)
      has1 <- router_flag self has_v1 ;;
      if has1 && truthy project_id then
        data <- on_v1 self
          (v1_get_task_call (default "" project_id) task_id) ;;
        lift (Task_from_v1 data)
      else unavailable "Could not get task" "get_task"
  end.

(** [project_id] after the default to the inbox. *)
Definition resolve_project_id (self : t) (a : CreateTaskArgs.t) : option string :=
  match CreateTaskArgs.project_id a with
  | None => _inbox_id self
  | Some p => Some p
  end.

(** [Task.format_datetime(d, "v2") if d else None] *)
Definition v2_date_string (d : option datetime) : option string :=
  match d with
  | Some d => format_datetime (Some d) "v2"
  | None => None
  end.

Definition create_task (self : t) (a : CreateTaskArgs.t) : M Task.t :=
  _ensure_initialized self ;;;
  (* Default to inbox if no project specified *)
  match resolve_project_id self a with
  | None =>
      raise (TickTickConfigurationError
               "No project ID provided and inbox ID unknown")
  | Some project_id =>
      (* Format dates *)
      let start_str := v2_date_string (CreateTaskArgs.start_date a) in
      let due_str := v2_date_string (CreateTaskArgs.due_date a) in
      (* Use V2 (primary) for richer features *)
      has2 <- router_flag self has_v2 ;;
      created <-
        (if has2 then
           response <- on_v2 self
             (v2_create_task_call a project_id start_str due_str) ;;
           (* Get the created task ID from response *)
           ids <- lift (dict_get response "id2etag" (RDict [])) ;;
           task_id <- lift (first_key ids) ;;
           if truthy task_id then
             task <- get_task self (default "" task_id) (Some project_id) ;;
             ret (Some task)
           else ret None
         else ret None) ;;
      match created with
      | Some task => ret task
      | None =>
          (* Fallback to V1 (loses tags and parent_id) *)
          has1 <- router_flag self has_v1 ;;
          if has1 then
            data <- on_v1 self
              (v1_create_task_call a project_id start_str due_str) ;;
            lift (Task_from_v1 data)
          else unavailable "Could not create task" "create_task"
      end
  end.

Definition update_task (self : t) (task : Task.t) : M Task.t :=
  _ensure_initialized self ;;;
  (* Use V2 (primary) *)
  has2 <- router_flag self has_v2 ;;
  if has2 then
    _ <- on_v2 self (v2_batch_update_call task) ;;
    (* Return updated task *)
    get_task self (Task.id task) (Some (Task.project_id task))
  else
    (* Fallback to V1 *)
    has1 <- router_flag self has_v1 ;;
    if has1 then
      data <- on_v1 self (v1_update_task_call task) ;;
      lift (Task_from_v1 data)
    else unavailable "Could not update task" "update_task".

Definition complete_task (self : t) (task_id project_id : string) : M unit :=
  _ensure_initialized self ;;;
  (* Use V1 (primary) - has dedicated endpoint *)
  has1 <- router_flag self has_v1 ;;
  if has1 then
    _ <- on_v1 self (v1_complete_task_call project_id task_id) ;;
    ret tt
  else
    (* Fallback to V2 - update status *)
    has2 <- router_flag self has_v2 ;;
    if has2 then
      moment <- read_clock ;;
      _ <- on_v2 self (v2_complete_task_call task_id project_id moment) ;;
      ret tt
    else unavailable "Could not complete task" "complete_task".

Definition delete_task (self : t) (task_id project_id : string) : M unit :=
  _ensure_initialized self ;;;
  (* Use V2 (primary) *)
  has2 <- router_flag self has_v2 ;;
  if has2 then
    _ <- on_v2 self (v2_delete_task_call project_id task_id) ;;
    ret tt
  else
    (* Fallback to V1 *)
    has1 <- router_flag self has_v1 ;;
    if has1 then
      _ <- on_v1 self (v1_delete_task_call project_id task_id) ;;
      ret tt
    else unavailable "Could not delete task" "delete_task".

Definition list_completed_tasks (self : t) (from_date to_date : datetime)
    (limit : Z) : M (list Task.t) :=
  _ensure_initialized self ;;;
  data <- on_v2 self (v2_get_completed_tasks_call from_date to_date limit) ;;
  items <- lift (iterate data) ;;
  lift (for_each Task_from_v2 items).

Definition move_task (self : t)
    (task_id from_project_id to_project_id : string) : M unit :=
  _ensure_initialized self ;;;
  _ <- on_v2 self (v2_move_task_call task_id from_project_id to_project_id) ;;
  ret tt.

Definition set_task_parent (self : t) (task_id project_id parent_id : string)
    : M unit :=
  _ensure_initialized self ;;;
  _ <- on_v2 self (v2_set_task_parent_call task_id project_id parent_id) ;;
  ret tt.

(** *** Project operations *)

Definition v1_get_projects_call : call := Call V1 "get_projects" [] [].

Definition v1_get_project_call (project_id : string) : call :=
  Call V1 "get_project" [RStr project_id] [].

Definition v1_get_project_with_data_call (project_id : string) : call :=
  Call V1 "get_project_with_data" [RStr project_id] [].

Definition v2_create_project_call (a : CreateProjectArgs.t) : call :=
  Call V2 "create_project" []
    [("name", RStr (CreateProjectArgs.name a));
     ("color", opt_raw RStr (CreateProjectArgs.color a));
     ("kind", opt_raw RStr (CreateProjectArgs.kind a));
     ("view_mode", opt_raw RStr (CreateProjectArgs.view_mode a));
     ("group_id", opt_raw RStr (CreateProjectArgs.group_id a))].

Definition v1_create_project_call (a : CreateProjectArgs.t) : call :=
  Call V1 "create_project" []
    [("name", RStr (CreateProjectArgs.name a));
     ("color", opt_raw RStr (CreateProjectArgs.color a));
     ("view_mode", opt_raw RStr (CreateProjectArgs.view_mode a));
     ("kind", opt_raw RStr (CreateProjectArgs.kind a))].

Definition v2_delete_project_call (project_id : string) : call :=
  Call V2 "delete_project" [RStr project_id] [].

Definition v1_delete_project_call (project_id : string) : call :=
  Call V1 "delete_project" [RStr project_id] [].

Definition list_projects (self : t) : M (list Project.t) :=
  _ensure_initialized self ;;;
  (* Use V2 (primary) for more metadata *)
  has2 <- router_flag self has_v2 ;;
  if has2 then
    state <- on_v2 self v2_sync_call ;;
    projects_data <- lift (dict_get state "projectProfiles" (RList [])) ;;
    items <- lift (iterate projects_data) ;;
    lift (for_each Project_from_v2 items)
  else
    (* Fallback to V1 *)
    has1 <- router_flag self has_v1 ;;
    if has1 then
      data <- on_v1 self v1_get_projects_call ;;
      items <- lift (iterate data) ;;
      lift (for_each Project_from_v1 items)
    else unavailable "Could not list projects" "list_projects".

(** The loop of [get_project] over the project profiles of a sync: the
    first entry whose id equals [project_id] is converted and returned;
    [None] when the loop runs out. *)
Fixpoint scan_profiles (project_id : string) (profiles : list raw)
    : res (option Project.t) :=
  match profiles with
  | [] => Ok None
  | p :: rest =>
      match dict_get p "id" RNone with
      | Raise e => Raise e
      | Ok v =>
          if raw_eq_str v project_id then
            match Project_from_v2 p with
            | Ok project => Ok (Some project)
            | Raise e => Raise e
            end
          else scan_profiles project_id rest
      end
  end.

Definition get_project (self : t) (project_id : string) : M Project.t :=
  _ensure_initialized self ;;;
  (* Use V1 (primary) - has dedicated endpoint *)
  has1 <- router_flag self has_v1 ;;
  if has1 then
    data <- on_v1 self (v1_get_project_call project_id) ;;
    lift (Project_from_v1 data)
  else
    (* Fallback to V2 - get from sync *)
    has2 <- router_flag self has_v2 ;;
    found <- (if has2 then
                state <- on_v2 self v2_sync_call ;;
                profiles <- lift (dict_get state "projectProfiles" (RList [])) ;;
                items <- lift (iterate profiles) ;;
                lift (scan_profiles project_id items)
              else ret None) ;;
    match found with
    | Some project => ret project
    | None => unavailable "Could not get project" "get_project"
    end.

Definition get_project_with_data (self : t) (project_id : string)
    : M ProjectData :=
  _ensure_initialized self ;;;
  has1 <- router_flag self has_v1 ;;
  if negb has1 then
    unavailable "V1 API required for get_project_with_data"
      "get_project_with_data"
  else
    data <- on_v1 self (v1_get_project_with_data_call project_id) ;;
    lift (ProjectData_from_v1 data).

Definition create_project (self : t) (a : CreateProjectArgs.t)
    : M Project.t :=
  _ensure_initialized self ;;;
  (* Use V2 (primary) *)
  has2 <- router_flag self has_v2 ;;
  created <-
    (if has2 then
       response <- on_v2 self (v2_create_project_call a) ;;
       ids <- lift (dict_get response "id2etag" (RDict [])) ;;
       project_id <- lift (first_key ids) ;;
       if truthy project_id then
         project <- get_project self (default "" project_id) ;;
         ret (Some project)
       else ret None
     else ret None) ;;
  match created with
  | Some project => ret project
  | None =>
      (* Fallback to V1 *)
      has1 <- router_flag self has_v1 ;;
      if has1 then
        data <- on_v1 self (v1_create_project_call a) ;;
        lift (Project_from_v1 data)
      else unavailable "Could not create project" "create_project"
  end.

Definition delete_project (self : t) (project_id : string) : M unit :=
  _ensure_initialized self ;;;
  (* Use V2 (primary) *)
  has2 <- router_flag self has_v2 ;;
  if has2 then
    _ <- on_v2 self (v2_delete_project_call project_id) ;;
    ret tt
  else
    (* Fallback to V1 *)
    has1 <- router_flag self has_v1 ;;
    if has1 then
      _ <- on_v1 self (v1_delete_project_call project_id) ;;
      ret tt
    else unavailable "Could not delete project" "delete_project".

(** *** Project groups, tags, user and focus (V2 only) *)

Definition v2_create_project_group_call (name : string) : call :=
  Call V2 "create_project_group" [RStr name] [].

Definition v2_delete_project_group_call (group_id : string) : call :=
  Call V2 "delete_project_group" [RStr group_id] [].

Definition v2_create_tag_call (label : string) (color parent : option string)
    : call :=
  Call V2 "create_tag" []
    [("label", RStr label);
     ("color", opt_raw RStr color);
     ("parent", opt_raw RStr parent)].

Definition v2_delete_tag_call (name : string) : call :=
  Call V2 "delete_tag" [RStr name] [].

Definition v2_rename_tag_call (old_name new_label : string) : call :=
  Call V2 "rename_tag" [RStr old_name; RStr new_label] [].

Definition v2_merge_tags_call (source_name target_name : string) : call :=
  Call V2 "merge_tags" [RStr source_name; RStr target_name] [].

Definition v2_get_user_profile_call : call :=
  Call V2 "get_user_profile" [] [].

Definition v2_get_user_status_call : call := Call V2 "get_user_status" [] [].

Definition v2_get_user_statistics_call : call :=
  Call V2 "get_user_statistics" [] [].

Definition v2_get_focus_heatmap_call (start_date end_date : datetime) : call :=
  Call V2 "get_focus_heatmap" [RInt start_date; RInt end_date] [].

Definition v2_get_focus_by_tag_call (start_date end_date : datetime) : call :=
  Call V2 "get_focus_by_tag" [RInt start_date; RInt end_date] [].

Definition list_project_groups (self : t) : M (list ProjectGroup.t) :=
  _ensure_initialized self ;;;
  state <- on_v2 self v2_sync_call ;;
  groups_data <- lift (dict_get state "projectGroups" (RList [])) ;;
  items <- lift (iterate groups_data) ;;
  lift (for_each ProjectGroup_from_v2 items).

Definition create_project_group (self : t) (name : string)
    : M ProjectGroup.t :=
  _ensure_initialized self ;;;
  response <- on_v2 self (v2_create_project_group_call name) ;;
  ids <- lift (dict_get response "id2etag" (RDict [])) ;;
  group_id <- lift (first_key ids) ;;
  (* Get from sync to return full object *)
  groups <- list_project_groups self ;;
  match find (λ group, bool_decide (Some (ProjectGroup.id group) = group_id))
             groups with
  | Some group => ret group
  | None =>
      (* Return minimal if not found *)
      ret {| ProjectGroup.id := if truthy group_id then default "" group_id
                                else "";
             ProjectGroup.name := name;
             ProjectGroup.sort_order := ProjectGroup_default_sort_order |}
  end.

Definition delete_project_group (self : t) (group_id : string) : M unit :=
  _ensure_initialized self ;;;
  _ <- on_v2 self (v2_delete_project_group_call group_id) ;;
  ret tt.

Definition list_tags (self : t) : M (list Tag.t) :=
  _ensure_initialized self ;;;
  state <- on_v2 self v2_sync_call ;;
  tags_data <- lift (dict_get state "tags" (RList [])) ;;
  items <- lift (iterate tags_data) ;;
  lift (for_each Tag_from_v2 items).

Definition create_tag (self : t) (label : string)
    (color parent : option string) : M Tag.t :=
  _ensure_initialized self ;;;
  _ <- on_v2 self (v2_create_tag_call label color parent) ;;
  lift (Tag_create label color parent).

Definition delete_tag (self : t) (name : string) : M unit :=
  _ensure_initialized self ;;;
  _ <- on_v2 self (v2_delete_tag_call name) ;;
  ret tt.

Definition rename_tag (self : t) (old_name new_label : string) : M unit :=
  _ensure_initialized self ;;;
  _ <- on_v2 self (v2_rename_tag_call old_name new_label) ;;
  ret tt.

Definition merge_tags (self : t) (source_name target_name : string)
    : M unit :=
  _ensure_initialized self ;;;
  _ <- on_v2 self (v2_merge_tags_call source_name target_name) ;;
  ret tt.

Definition get_user_profile (self : t) : M User :=
  _ensure_initialized self ;;;
  data <- on_v2 self v2_get_user_profile_call ;;
  lift (User_from_v2 data).

Definition get_user_status (self : t) : M UserStatus :=
  _ensure_initialized self ;;;
  data <- on_v2 self v2_get_user_status_call ;;
  lift (UserStatus_from_v2 data).

Definition get_user_statistics (self : t) : M UserStatistics :=
  _ensure_initialized self ;;;
  data <- on_v2 self v2_get_user_statistics_call ;;
  lift (UserStatistics_from_v2 data).

Definition get_focus_heatmap (self : t) (start_date end_date : datetime)
    : M raw :=
  _ensure_initialized self ;;;
  on_v2 self (v2_get_focus_heatmap_call start_date end_date).

Definition get_focus_by_tag (self : t) (start_date end_date : datetime)
    : M raw :=
  _ensure_initialized self ;;;
  data <- on_v2 self (v2_get_focus_by_tag_call start_date end_date) ;;
  lift (dict_get data "tagDurations" (RDict [])).

(** *** All operations at once *)

(** What an operation returns. *)
Inductive value : Type :=
| VNone
| VRaw (v : raw)
| VTask (task : Task.t)
| VTasks (tasks : list Task.t)
| VProject (project : Project.t)
| VProjects (projects : list Project.t)
| VProjectData (data : ProjectData)
| VGroup (group : ProjectGroup.t)
| VGroups (groups : list ProjectGroup.t)
| VTag (tag : Tag.t)
| VTags (tags : list Tag.t)
| VUser (user : User)
| VUserStatus (status : UserStatus)
| VUserStatistics (statistics : UserStatistics).

Definition returning {A} (f : A → value) (c : M A) : M value :=
  x <- c ;; ret (f x).

Definition run (op : Operation.t) (self : t) : M value :=
  match op with
  | Operation.sync_all => returning VRaw (sync_all self)
  | Operation.list_all_tasks => returning VTasks (list_all_tasks self)
  | Operation.get_task task_id project_id =>
      returning VTask (get_task self task_id project_id)
  | Operation.create_task a => returning VTask (create_task self a)
  | Operation.update_task task => returning VTask (update_task self task)
  | Operation.complete_task task_id project_id =>
      returning (λ _, VNone) (complete_task self task_id project_id)
  | Operation.delete_task task_id project_id =>
      returning (λ _, VNone) (delete_task self task_id project_id)
  | Operation.list_completed_tasks from_date to_date limit =>
      returning VTasks (list_completed_tasks self from_date to_date limit)
  | Operation.move_task task_id from_project_id to_project_id =>
      returning (λ _, VNone)
        (move_task self task_id from_project_id to_project_id)
  | Operation.set_task_parent task_id project_id parent_id =>
      returning (λ _, VNone)
        (set_task_parent self task_id project_id parent_id)
  | Operation.list_projects => returning VProjects (list_projects self)
  | Operation.get_project project_id =>
      returning VProject (get_project self project_id)
  | Operation.get_project_with_data project_id =>
      returning VProjectData (get_project_with_data self project_id)
  | Operation.create_project a => returning VProject (create_project self a)
  | Operation.delete_project project_id =>
      returning (λ _, VNone) (delete_project self project_id)
  | Operation.list_project_groups =>
      returning VGroups (list_project_groups self)
  | Operation.create_project_group name =>
      returning VGroup (create_project_group self name)
  | Operation.delete_project_group group_id =>
      returning (λ _, VNone) (delete_project_group self group_id)
  | Operation.list_tags => returning VTags (list_tags self)
  | Operation.create_tag label color parent =>
      returning VTag (create_tag self label color parent)
  | Operation.delete_tag name => returning (λ _, VNone) (delete_tag self name)
  | Operation.rename_tag old_name new_label =>
      returning (λ _, VNone) (rename_tag self old_name new_label)
  | Operation.merge_tags source_name target_name =>
      returning (λ _, VNone) (merge_tags self source_name target_name)
  | Operation.get_user_profile => returning VUser (get_user_profile self)
  | Operation.get_user_status =>
      returning VUserStatus (get_user_status self)
  | Operation.get_user_statistics =>
      returning VUserStatistics (get_user_statistics self)
  | Operation.get_focus_heatmap start_date end_date =>
      returning VRaw (get_focus_heatmap self start_date end_date)
  | Operation.get_focus_by_tag start_date end_date =>
      returning VRaw (get_focus_by_tag self start_date end_date)
  end.

(** *** The routing of each operation, read off the method bodies *)

(** The operations that call V2 without asking the router and have no
    other branch, with the first call each of them makes. *)
Definition v2_only_call (op : Operation.t) : option call :=
  match op with
  | Operation.sync_all | Operation.list_all_tasks
  | Operation.list_project_groups | Operation.list_tags =>
      Some v2_sync_call
  | Operation.list_completed_tasks from_date to_date limit =>
      Some (v2_get_completed_tasks_call from_date to_date limit)
  | Operation.move_task task_id from_project_id to_project_id =>
      Some (v2_move_task_call task_id from_project_id to_project_id)
  | Operation.set_task_parent task_id project_id parent_id =>
      Some (v2_set_task_parent_call task_id project_id parent_id)
  | Operation.create_project_group name =>
      Some (v2_create_project_group_call name)
  | Operation.delete_project_group group_id =>
      Some (v2_delete_project_group_call group_id)
  | Operation.create_tag label color parent =>
      Some (v2_create_tag_call label color parent)
  | Operation.delete_tag name => Some (v2_delete_tag_call name)
  | Operation.rename_tag old_name new_label =>
      Some (v2_rename_tag_call old_name new_label)
  | Operation.merge_tags source_name target_name =>
      Some (v2_merge_tags_call source_name target_name)
  | Operation.get_user_profile => Some v2_get_user_profile_call
  | Operation.get_user_status => Some v2_get_user_status_call
  | Operation.get_user_statistics => Some v2_get_user_statistics_call
  | Operation.get_focus_heatmap start_date end_date =>
      Some (v2_get_focus_heatmap_call start_date end_date)
  | Operation.get_focus_by_tag start_date end_date =>
      Some (v2_get_focus_by_tag_call start_date end_date)
  | _ => None
  end.

(** The write operations with two branches: the client whose flag the body
    tests first, the write it makes there, the write it makes in the other
    branch, and the error of the last line.  [create_task] has a route only
    once its project id is resolved. *)
Record route : Type := {
  primary : upstream;
  first_choice : call;
  second_choice : call;
  failure : exn
}.

Definition other (u : upstream) : upstream :=
  match u with V1 => V2 | V2 => V1 end.

Definition write_route (self : t) (w : World) (op : Operation.t)
    : option route :=
  match op with
  | Operation.create_task a =>
      match resolve_project_id self a with
      | Some project_id =>
          let start_str := v2_date_string (CreateTaskArgs.start_date a) in
          let due_str := v2_date_string (CreateTaskArgs.due_date a) in
          Some {| primary := V2;
                  first_choice :=
                    v2_create_task_call a project_id start_str due_str;
                  second_choice :=
                    v1_create_task_call a project_id start_str due_str;
                  failure := TickTickAPIUnavailableError
                               "Could not create task" "create_task" |}
      | None => None
      end
  | Operation.update_task task =>
      Some {| primary := V2;
              first_choice := v2_batch_update_call task;
              second_choice := v1_update_task_call task;
              failure := TickTickAPIUnavailableError
                           "Could not update task" "update_task" |}
  | Operation.complete_task task_id project_id =>
      Some {| primary := V1;
              first_choice := v1_complete_task_call project_id task_id;
              second_choice :=
                v2_complete_task_call task_id project_id (now w);
              failure := TickTickAPIUnavailableError
                           "Could not complete task" "complete_task" |}
  | Operation.delete_task task_id project_id =>
      Some {| primary := V2;
              first_choice := v2_delete_task_call project_id task_id;
              second_choice := v1_delete_task_call project_id task_id;
              failure := TickTickAPIUnavailableError
                           "Could not delete task" "delete_task" |}
  | Operation.create_project a =>
      Some {| primary := V2;
              first_choice := v2_create_project_call a;
              second_choice := v1_create_project_call a;
              failure := TickTickAPIUnavailableError
                           "Could not create project" "create_project" |}
  | Operation.delete_project project_id =>
      Some {| primary := V2;
              first_choice := v2_delete_project_call project_id;
              second_choice := v1_delete_project_call project_id;
              failure := TickTickAPIUnavailableError
                           "Could not delete project" "delete_project" |}
  | _ => None
  end.
End Methods.
End UnifiedTickTickAPI.

(** ** [MockUnifiedAPI], the in-memory double of the test suite *)

(** [str.lower()] is a built-in of Python and follows the Unicode case
    mappings; the double takes it as the parameter [lower] of its methods.
    A string is the sequence of the bytes of its UTF-8 encoding.  On a
    string of ASCII characters [str.lower()] changes the letters A to Z
    and nothing else: that is [ascii_lower], the instance the concrete
    runs use, all of them on ASCII names. *)
Definition lower_ascii (c : ascii) : ascii :=
  let n := nat_of_ascii c in
  if (65 <=? n)%nat && (n <=? 90)%nat then ascii_of_nat (n + 32) else c.

Fixpoint ascii_lower (s : string) : string :=
  match s with
  | EmptyString => EmptyString
  | String c rest => String (lower_ascii c) (ascii_lower rest)
  end.

Module MockUnifiedAPI.

(** A recorded call: method, positional arguments, keyword arguments. *)
Definition recorded : Type := string * list raw * list (string * raw).

(** The stores of the double.  Each Python dict is a finite map (the order
    in which a dict lists its values is not kept); the objects held in a
    dict are updated in place, which is an update of the map at their key.  [clock_reads] counts the readings of [utc_now()]
    so far.  The user snapshots and the unused [delays] are left out. *)
Record t : Type := {
  tasks : gmap string Task.t;
  projects : gmap string Project.t;
  folders : gmap string ProjectGroup.t;
  tags : gmap string Tag.t;
  inbox_id : string;
  _initialized : bool;
  call_history : list recorded;
  should_fail : gmap string (option exn);
  clock_reads : nat
}.

Definition __init__ : t :=
  {| tasks := ∅; projects := ∅; folders := ∅; tags := ∅;
     inbox_id := "inbox123456789"; _initialized := false;
     call_history := []; should_fail := ∅; clock_reads := 0 |}.

Definition set_tasks (m : gmap string Task.t) (self : t) : t :=
  {| tasks := m; projects := projects self; folders := folders self;
     tags := tags self; inbox_id := inbox_id self;
     _initialized := _initialized self; call_history := call_history self;
     should_fail := should_fail self; clock_reads := clock_reads self |}.

Definition set_projects (m : gmap string Project.t) (self : t) : t :=
  {| tasks := tasks self; projects := m; folders := folders self;
     tags := tags self; inbox_id := inbox_id self;
     _initialized := _initialized self; call_history := call_history self;
     should_fail := should_fail self; clock_reads := clock_reads self |}.

Definition set_folders (m : gmap string ProjectGroup.t) (self : t) : t :=
  {| tasks := tasks self; projects := projects self; folders := m;
     tags := tags self; inbox_id := inbox_id self;
     _initialized := _initialized self; call_history := call_history self;
     should_fail := should_fail self; clock_reads := clock_reads self |}.

Definition set_tags (m : gmap string Tag.t) (self : t) : t :=
  {| tasks := tasks self; projects := projects self; folders := folders self;
     tags := m; inbox_id := inbox_id self;
     _initialized := _initialized self; call_history := call_history self;
     should_fail := should_fail self; clock_reads := clock_reads self |}.

Definition set_initialized (b : bool) (self : t) : t :=
  {| tasks := tasks self; projects := projects self; folders := folders self;
     tags := tags self; inbox_id := inbox_id self;
     _initialized := b; call_history := call_history self;
     should_fail := should_fail self; clock_reads := clock_reads self |}.

Definition _record_call (method : string) (args : list raw)
    (kwargs : list (string * raw)) (self : t) : t :=
  {| tasks := tasks self; projects := projects self; folders := folders self;
     tags := tags self; inbox_id := inbox_id self;
     _initialized := _initialized self;
     call_history := (call_history self ++ [(method, args, kwargs)])%list;
     should_fail := should_fail self; clock_reads := clock_reads self |}.

(** [_check_failure]: the exception to raise, if one is configured for
    the method. *)
Definition _check_failure (method : string) (self : t) : option exn :=
  match should_fail self !! method with
  | Some (Some e) => Some e
  | _ => None
  end.

Section Methods.
(** The clock: [utc_now n] is what the [n]-th reading returns. *)
Variable utc_now : nat → datetime.
(** [s.lower()] *)
Variable lower : string → string.

Definition read_utc_now (self : t) : datetime * t :=
  (utc_now (clock_reads self),
   {| tasks := tasks self; projects := projects self;
      folders := folders self; tags := tags self;
      inbox_id := inbox_id self; _initialized := _initialized self;
      call_history := call_history self; should_fail := should_fail self;
      clock_reads := S (clock_reads self) |}).

(** Every method first records the call and then checks for a
    configured failure. *)
Definition entered (method : string) (args : list raw)
    (kwargs : list (string * raw)) (self : t)
    (body : t → res unit * t) : res unit * t :=
  let self := _record_call method args kwargs self in
  match _check_failure method self with
  | Some e => (Raise e, self)
  | None => body self
  end.

Definition initialize (self : t) : res unit * t :=
  entered "initialize" [] [] self (λ self,
    (Ok tt, set_initialized true self)).

Definition close (self : t) : res unit * t :=
  (Ok tt, set_initialized false (_record_call "close" [] [] self)).

Definition get_task (task_id : string) (project_id : option string)
    (self : t) : res Task.t * t :=
  let self := _record_call "get_task" [RStr task_id]
                [("project_id", opt_raw RStr project_id)] self in
  match _check_failure "get_task" self with
  | Some e => (Raise e, self)
  | None =>
      match tasks self !! task_id with
      | None =>
          (Raise (TickTickNotFoundError ("Task not found: " +:+ task_id)),
           self)
      | Some task => (Ok task, self)
      end
  end.

Definition complete_task (task_id project_id : string) (self : t)
    : res unit * t :=
  entered "complete_task" [RStr task_id; RStr project_id] [] self (λ self,
    match tasks self !! task_id with
    | None =>
        (Raise (TickTickNotFoundError ("Task not found: " +:+ task_id)),
         self)
    | Some task =>
        let '(moment, self) := read_utc_now self in
        (Ok tt,
         set_tasks
           (<[task_id := Task.with_completion COMPLETED (Some moment) task]>
              (tasks self))
           self)
    end).

Definition list_projects (self : t) : res (list Project.t) * t :=
  let self := _record_call "list_projects" [] [] self in
  match _check_failure "list_projects" self with
  | Some e => (Raise e, self)
  | None => (Ok (map snd (map_to_list (projects self))), self)
  end.

Definition get_project (project_id : string) (self : t)
    : res Project.t * t :=
  let self := _record_call "get_project" [RStr project_id] [] self in
  match _check_failure "get_project" self with
  | Some e => (Raise e, self)
  | None =>
      match projects self !! project_id with
      | None =>
          (Raise (TickTickNotFoundError
                    ("Project not found: " +:+ project_id)), self)
      | Some project => (Ok project, self)
      end
  end.

(** The loop body of [delete_project_group]. *)
Definition ungroup (group_id : string) (project : Project.t) : Project.t :=
  if bool_decide (Project.group_id project = Some group_id)
  then Project.with_group_id None project
  else project.

Definition delete_project_group (group_id : string) (self : t)
    : res unit * t :=
  entered "delete_project_group" [RStr group_id] [] self (λ self,
    match folders self !! group_id with
    | None =>
        (Raise (TickTickNotFoundError ("Folder not found: " +:+ group_id)),
         self)
    | Some _ =>
        let self := set_folders (delete group_id (folders self)) self in
        (* Ungroup projects in this folder *)
        (Ok tt, set_projects (ungroup group_id <$> projects self) self)
    end).

Definition list_tags (self : t) : res (list Tag.t) * t :=
  let self := _record_call "list_tags" [] [] self in
  match _check_failure "list_tags" self with
  | Some e => (Raise e, self)
  | None => (Ok (map snd (map_to_list (tags self))), self)
  end.

(** The loop body of [merge_tags]. *)
Definition migrate (source_name target_name : string) (task : Task.t)
    : Task.t :=
  if bool_decide (source_name ∈ map lower (Task.tags task)) then
    let kept :=
      filter (λ t, lower t ≠ source_name) (Task.tags task) in
    if bool_decide (target_name ∉ map lower kept)
    then Task.with_tags (kept ++ [target_name])%list task
    else Task.with_tags kept task
  else task.

Definition merge_tags (source target : string) (self : t) : res unit * t :=
  entered "merge_tags" [RStr source; RStr target] [] self (λ self,
    let source_name := lower source in
    let target_name := lower target in
    if bool_decide (tags self !! source_name = None) then
      (Raise (TickTickNotFoundError ("Source tag not found: " +:+ source)),
       self)
    else if bool_decide (tags self !! target_name = None) then
      (Raise (TickTickNotFoundError ("Target tag not found: " +:+ target)),
       self)
    else
      (* Move tasks from source to target *)
      let self :=
        set_tasks (migrate source_name target_name <$> tasks self) self in
      (Ok tt, set_tags (delete source_name (tags self)) self)).

(** *** The other methods of the double *)

(** Every method records the call, then checks for a configured failure,
    then runs its body; here for a body that returns a value. *)
Definition called {A} (method : string) (args : list raw)
    (kwargs : list (string * raw)) (self : t)
    (body : t → res A * t) : res A * t :=
  let self := _record_call method args kwargs self in
  match _check_failure method self with
  | Some e => (Raise e, self)
  | None => body self
  end.

(** An object passed as an argument is recorded by its id. *)
Definition update_task (task : Task.t) (self : t) : res Task.t * t :=
  called "update_task" [RDict [("id", RStr (Task.id task))]] [] self (λ self,
    match tasks self !! Task.id task with
    | None =>
        (Raise (TickTickNotFoundError ("Task not found: " +:+ Task.id task)),
         self)
    | Some _ =>
        let '(moment, self) := read_utc_now self in
        let task := Task.with_modified_time (Some moment) task in
        (Ok task, set_tasks (<[Task.id task := task]> (tasks self)) self)
    end).

Definition delete_task (task_id project_id : string) (self : t)
    : res unit * t :=
  called "delete_task" [RStr task_id; RStr project_id] [] self (λ self,
    match tasks self !! task_id with
    | None =>
        (Raise (TickTickNotFoundError ("Task not found: " +:+ task_id)), self)
    | Some _ => (Ok tt, set_tasks (delete task_id (tasks self)) self)
    end).

Definition list_all_tasks (self : t) : res (list Task.t) * t :=
  called "list_all_tasks" [] [] self (λ self,
    (Ok (filter (λ task, Task.status task = ACTIVE)
           (map snd (map_to_list (tasks self)))), self)).

Definition move_task (task_id from_project_id to_project_id : string)
    (self : t) : res unit * t :=
  called "move_task" [RStr task_id; RStr from_project_id; RStr to_project_id]
    [] self (λ self,
    match tasks self !! task_id with
    | None =>
        (Raise (TickTickNotFoundError ("Task not found: " +:+ task_id)), self)
    | Some task =>
        (Ok tt,
         set_tasks (<[task_id := Task.with_project_id to_project_id task]>
                      (tasks self)) self)
    end).

Definition set_task_parent (task_id project_id parent_id : string)
    (self : t) : res unit * t :=
  called "set_task_parent" [RStr task_id; RStr project_id; RStr parent_id]
    [] self (λ self,
    match tasks self !! task_id with
    | None =>
        (Raise (TickTickNotFoundError ("Task not found: " +:+ task_id)), self)
    | Some task =>
        let self :=
          set_tasks (<[task_id := Task.with_parent_id (Some parent_id) task]>
                       (tasks self)) self in
        match tasks self !! parent_id with
        | Some parent =>
            if bool_decide (task_id ∉ Task.child_ids parent)
            then (Ok tt,
                  set_tasks
                    (<[parent_id :=
                         Task.with_child_ids
                           (Task.child_ids parent ++ [task_id])%list parent]>
                       (tasks self)) self)
            else (Ok tt, self)
        | None => (Ok tt, self)
        end
    end).

(** [IDGenerator.next_id]: the class counter is incremented and formatted
    as 24 lower-case hexadecimal digits, padded with zeros on the left. *)
Definition zfill (width : nat) (digits : string) : string :=
  String.concat "" (replicate (width - String.length digits) "0") +:+ digits.

Definition hex (n : nat) : string :=
  HexadecimalString.NilZero.string_of_uint (Nat.to_hex_uint n).

Definition next_id (prefix : string) (counter : nat) : string * nat :=
  let counter := S counter in
  (prefix +:+ zfill 24 (hex counter), counter).

(** A method that draws an id takes the counter of [IDGenerator] beside
    the double and returns it with the outcome. *)
Definition create_project (name : string) (color : option string)
    (kind view_mode : string) (group_id : option string)
    (counter : nat) (self : t) : res Project.t * (nat * t) :=
  let self :=
    _record_call "create_project" [RStr name]
      [("color", opt_raw RStr color); ("kind", RStr kind);
       ("view_mode", RStr view_mode); ("group_id", opt_raw RStr group_id)]
      self in
  match _check_failure "create_project" self with
  | Some e => (Raise e, (counter, self))
  | None =>
      let '(id, counter) := next_id "" counter in
      let project :=
        {| Project.id := id; Project.name := name; Project.color := color;
           Project.kind := kind; Project.view_mode := view_mode;
           Project.group_id := group_id; Project.closed := false;
           Project.sort_order := 0 |} in
      (Ok project,
       (counter, set_projects (<[id := project]> (projects self)) self))
  end.

Definition delete_project (project_id : string) (self : t) : res unit * t :=
  called "delete_project" [RStr project_id] [] self (λ self,
    match projects self !! project_id with
    | None =>
        (Raise (TickTickNotFoundError ("Project not found: " +:+ project_id)),
         self)
    | Some _ =>
        let self := set_projects (delete project_id (projects self)) self in
        (* Also delete associated tasks *)
        (Ok tt,
         set_tasks
           (filter (λ kv, Task.project_id (snd kv) ≠ project_id) (tasks self))
           self)
    end).

Definition list_project_groups (self : t) : res (list ProjectGroup.t) * t :=
  called "list_project_groups" [] [] self (λ self,
    (Ok (map snd (map_to_list (folders self))), self)).

Definition create_project_group (name : string) (counter : nat) (self : t)
    : res ProjectGroup.t * (nat * t) :=
  let self := _record_call "create_project_group" [RStr name] [] self in
  match _check_failure "create_project_group" self with
  | Some e => (Raise e, (counter, self))
  | None =>
      let '(id, counter) := next_id "" counter in
      let folder :=
        {| ProjectGroup.id := id; ProjectGroup.name := name;
           ProjectGroup.sort_order := 0 |} in
      (Ok folder,
       (counter, set_folders (<[id := folder]> (folders self)) self))
  end.

(** [s.replace(" ", "")] *)
Fixpoint without_spaces (s : string) : string :=
  match s with
  | EmptyString => EmptyString
  | String c rest =>
      if Ascii.eqb c " " then without_spaces rest
      else String c (without_spaces rest)
  end.

Definition create_tag (name : string) (color parent : option string)
    (self : t) : res Tag.t * t :=
  called "create_tag" [RStr name]
    [("color", opt_raw RStr color); ("parent", opt_raw RStr parent)] self
    (λ self,
      let tag :=
        {| Tag.name := without_spaces (lower name); Tag.label := name;
           Tag.color := color; Tag.parent := parent; Tag.sort_order := 0 |} in
      (Ok tag, set_tags (<[Tag.name tag := tag]> (tags self)) self)).

Definition delete_tag (name : string) (self : t) : res unit * t :=
  called "delete_tag" [RStr name] [] self (λ self,
    let tag_name := lower name in
    match tags self !! tag_name with
    | None => (Raise (TickTickNotFoundError ("Tag not found: " +:+ name)), self)
    | Some _ =>
        let self := set_tags (delete tag_name (tags self)) self in
        (* Remove tag from tasks *)
        (Ok tt,
         set_tasks
           ((λ task,
               Task.with_tags
                 (filter (λ t, lower t ≠ tag_name) (Task.tags task)) task)
              <$> tasks self) self)
    end).

Definition rename_tag (old_name new_name : string) (self : t)
    : res unit * t :=
  called "rename_tag" [RStr old_name; RStr new_name] [] self (λ self,
    let old_tag_name := lower old_name in
    match tags self !! old_tag_name with
    | None =>
        (Raise (TickTickNotFoundError ("Tag not found: " +:+ old_name)), self)
    | Some tag =>
        let new_tag_name := lower new_name in
        let self :=
          set_tags
            (<[new_tag_name := Tag.renamed new_tag_name new_name tag]>
               (delete old_tag_name (tags self))) self in
        (* Update tag references in tasks *)
        (Ok tt,
         set_tasks
           ((λ task,
               Task.with_tags
                 (map (λ t, if bool_decide (lower t = old_tag_name)
                            then new_tag_name else t) (Task.tags task)) task)
              <$> tasks self) self)
    end).

(** [ProjectData(project=..., tasks=..., columns=[])], as
    [get_project_with_data] builds it. *)
Record ProjectData : Type := {
  data_project : Project.t;
  data_tasks : list Task.t;
  data_columns : list raw
}.

Definition get_project_with_data (project_id : string) (self : t)
    : res ProjectData * t :=
  called "get_project_with_data" [RStr project_id] [] self (λ self,
    match projects self !! project_id with
    | None =>
        (Raise (TickTickNotFoundError ("Project not found: " +:+ project_id)),
         self)
    | Some project =>
        (Ok {| data_project := project;
               data_tasks :=
                 filter (λ task, Task.project_id task = project_id)
                   (map snd (map_to_list (tasks self)));
               data_columns := [] |}, self)
    end).

(** The focus methods take two dates, which they only record, and return
    fixed data. *)
Definition get_focus_heatmap (start_date end_date : raw) (self : t)
    : res raw * t :=
  called "get_focus_heatmap" [start_date; end_date] [] self (λ self,
    (Ok (RList [RDict [("duration", RInt 3600)];
                RDict [("duration", RInt 7200)]]), self)).

Definition get_focus_by_tag (start_date end_date : raw) (self : t)
    : res raw * t :=
  called "get_focus_by_tag" [start_date; end_date] [] self (λ self,
    (Ok (RDict [("work", RInt 7200); ("study", RInt 3600)]), self)).

(** [get_calls]: the recorded calls of one method. *)
Definition get_calls (method_name : string) (self : t)
    : list (list raw * list (string * raw)) :=
  map (λ c, (snd (fst c), snd c))
    (filter (λ c, fst (fst c) = method_name) (call_history self)).

(** The methods above under one type, each with the name it records.
    These are the coroutines of the double but for [create_task] (it
    builds a task through the model layer), [list_completed_tasks] (its
    cut at the limit follows the order of the dict), [sync_all] (it dumps
    the models) and the three user methods (the stored user is not part of
    [t]). *)
Inductive invocation : Type :=
| call_initialize
| call_close
| call_get_task (task_id : string) (project_id : option string)
| call_update_task (task : Task.t)
| call_complete_task (task_id project_id : string)
| call_delete_task (task_id project_id : string)
| call_list_all_tasks
| call_move_task (task_id from_project_id to_project_id : string)
| call_set_task_parent (task_id project_id parent_id : string)
| call_list_projects
| call_get_project (project_id : string)
| call_get_project_with_data (project_id : string)
| call_create_project (name : string) (color : option string)
    (kind view_mode : string) (group_id : option string)
| call_delete_project (project_id : string)
| call_list_project_groups
| call_create_project_group (name : string)
| call_delete_project_group (group_id : string)
| call_list_tags
| call_create_tag (name : string) (color parent : option string)
| call_delete_tag (name : string)
| call_rename_tag (old_name new_name : string)
| call_merge_tags (source target : string)
| call_get_focus_heatmap (start_date end_date : raw)
| call_get_focus_by_tag (start_date end_date : raw).

Definition method_name (c : invocation) : string :=
  match c with
  | call_initialize => "initialize"
  | call_close => "close"
  | call_get_task _ _ => "get_task"
  | call_update_task _ => "update_task"
  | call_complete_task _ _ => "complete_task"
  | call_delete_task _ _ => "delete_task"
  | call_list_all_tasks => "list_all_tasks"
  | call_move_task _ _ _ => "move_task"
  | call_set_task_parent _ _ _ => "set_task_parent"
  | call_list_projects => "list_projects"
  | call_get_project _ => "get_project"
  | call_get_project_with_data _ => "get_project_with_data"
  | call_create_project _ _ _ _ _ => "create_project"
  | call_delete_project _ => "delete_project"
  | call_list_project_groups => "list_project_groups"
  | call_create_project_group _ => "create_project_group"
  | call_delete_project_group _ => "delete_project_group"
  | call_list_tags => "list_tags"
  | call_create_tag _ _ _ => "create_tag"
  | call_delete_tag _ => "delete_tag"
  | call_rename_tag _ _ => "rename_tag"
  | call_merge_tags _ _ => "merge_tags"
  | call_get_focus_heatmap _ _ => "get_focus_heatmap"
  | call_get_focus_by_tag _ _ => "get_focus_by_tag"
  end.

(** The exception a call raised, if any, without the value it returned. *)
Definition raised {A} (r : res A) : option exn :=
  match r with Ok _ => None | Raise e => Some e end.

(** A call that leaves the counter of [IDGenerator] alone. *)
Definition plain {A} (counter : nat) (r : res A * t) : option exn * (nat * t) :=
  (raised (fst r), (counter, snd r)).

(** A call that draws an id. *)
Definition drawing {A} (r : res A * (nat * t)) : option exn * (nat * t) :=
  (raised (fst r), snd r).

(** One call on the double: the exception it raised, if any, and the
    counter and the double afterwards. *)
Definition invoke (c : invocation) (counter : nat) (self : t)
    : option exn * (nat * t) :=
  match c with
  | call_initialize => plain counter (initialize self)
  | call_close => plain counter (close self)
  | call_get_task task_id project_id =>
      plain counter (get_task task_id project_id self)
  | call_update_task task => plain counter (update_task task self)
  | call_complete_task task_id project_id =>
      plain counter (complete_task task_id project_id self)
  | call_delete_task task_id project_id =>
      plain counter (delete_task task_id project_id self)
  | call_list_all_tasks => plain counter (list_all_tasks self)
  | call_move_task task_id from_project_id to_project_id =>
      plain counter (move_task task_id from_project_id to_project_id self)
  | call_set_task_parent task_id project_id parent_id =>
      plain counter (set_task_parent task_id project_id parent_id self)
  | call_list_projects => plain counter (list_projects self)
  | call_get_project project_id => plain counter (get_project project_id self)
  | call_get_project_with_data project_id =>
      plain counter (get_project_with_data project_id self)
  | call_create_project name color kind view_mode group_id =>
      drawing (create_project name color kind view_mode group_id counter self)
  | call_delete_project project_id =>
      plain counter (delete_project project_id self)
  | call_list_project_groups => plain counter (list_project_groups self)
  | call_create_project_group name =>
      drawing (create_project_group name counter self)
  | call_delete_project_group group_id =>
      plain counter (delete_project_group group_id self)
  | call_list_tags => plain counter (list_tags self)
  | call_create_tag name color parent =>
      plain counter (create_tag name color parent self)
  | call_delete_tag name => plain counter (delete_tag name self)
  | call_rename_tag old_name new_name =>
      plain counter (rename_tag old_name new_name self)
  | call_merge_tags source target =>
      plain counter (merge_tags source target self)
  | call_get_focus_heatmap start_date end_date =>
      plain counter (get_focus_heatmap start_date end_date self)
  | call_get_focus_by_tag start_date end_date =>
      plain counter (get_focus_by_tag start_date end_date self)
  end.
End Methods.
End MockUnifiedAPI.


(** ** States of the facade the properties speak about *)

Section Lifecycle.
Context `{E : Collaborators}.
Import UnifiedTickTickAPI.

(** The router of the object is the one [initialize] built from the object's
    two client attributes. *)
Definition wired (self : t) (r : APIRouter) : Prop :=
  _router self = Some r ∧
  v1_client r = _v1_client self ∧
  v2_client r = _v2_client self.

(** [initialize] has completed and [close] has not been called since. *)
Definition ready (self : t) : Prop :=
  _initialized self = true ∧
  ∃ r, wired self r ∧ is_fully_configured r = true.

(** [initialize] has not completed since the object was built or last
    closed: the object is new, or an [initialize] on such an object raised,
    or [close] has returned. *)
Inductive unready : t → Prop :=
| unready_new (v1 : V1Credentials) (v2 : V2Credentials) :
    unready (__init__ v1 v2)
| unready_initialize_raised (self self' : t) (s s' : env) (e : exn) :
    unready self →
    initialize self s = (Raise e, self', s') →
    unready self'
| unready_closed (self self' : t) (s s' : env) :
    close self s = (Ok tt, self', s') →
    unready self'.

(** The calls an outcome added to the log. *)
Definition new_calls {A} (before : env) (after : res A * env) : list call :=
  drop (length (snd before)) (snd (snd after)).

(** A coroutine only appends to the log, and only calls that satisfy [P]. *)
Definition logs {A} (P : call → Prop) (c : M A) : Prop :=
  ∀ s, ∃ rest, snd (snd (c s)) = (snd s ++ rest)%list ∧ Forall P rest.

(** The outcome of a conversion applied to the outcome of a call. *)
Definition converted {A} (f : raw → res A) (r : res raw) : res A :=
  match r with Ok data => f data | Raise e => Raise e end.
End Lifecycle.

(** ** A scripted environment for concrete runs *)

(** A task, project, group and tag read from a wire mapping by their ids
    and names; enough to run the facade on concrete answers. *)
Definition text_of (v : raw) (k : string) : string :=
  match dict_get v k RNone with
  | Ok (RStr s) => s
  | _ => ""
  end.

Definition scripted_task (v : raw) : res Task.t :=
  Ok {| Task.id := text_of v "id"; Task.project_id := text_of v "projectId";
        Task.title := text_of v "title"; Task.content := None;
        Task.desc := None; Task.status := ACTIVE; Task.priority := 0;
        Task.start_date := None; Task.due_date := None;
        Task.completed_time := None; Task.tags := []; Task.items := [];
        Task.parent_id := None; Task.child_ids := []; Task.time_zone := None;
        Task.is_all_day := None; Task.reminders := [];
        Task.repeat_flag := None; Task.created_time := None;
        Task.modified_time := None; Task.sort_order := None |}.

Definition scripted_project (v : raw) : res Project.t :=
  Ok {| Project.id := text_of v "id"; Project.name := text_of v "name";
        Project.color := None; Project.kind := "TASK";
        Project.view_mode := "list"; Project.group_id := None;
        Project.closed := false; Project.sort_order := 0 |}.

Definition scripted_group (v : raw) : res ProjectGroup.t :=
  Ok {| ProjectGroup.id := text_of v "id";
        ProjectGroup.name := text_of v "name";
        ProjectGroup.sort_order := 0 |}.

Definition scripted_tag (v : raw) : res Tag.t :=
  Ok {| Tag.name := text_of v "name"; Tag.label := text_of v "label";
        Tag.color := None; Tag.parent := None; Tag.sort_order := 0 |}.

(** The classes below [TickTickAPIError] in the scripted environment. *)
Definition scripted_api_error (e : exn) : bool :=
  bool_decide (exn_class e ∈
    ["TickTickAPIError"; "TickTickNotFoundError"; "TickTickRateLimitError"]).

(** An environment without state of its own: every call is answered by
    [answer], the health check by [verification]. *)
Definition scripted (answer : call → res raw)
    (verification : list (string * bool)) : Collaborators :=
  {| World := unit;
     perform c w := (answer c, w);
     verify_clients _ w := (Ok verification, w);
     now _ := 0%Z;
     isinstance_TickTickAPIError := scripted_api_error;
     session_inbox_id session :=
       match dict_get session "inbox_id" RNone with
       | Ok (RStr s) => Some s
       | _ => None
       end;
     TaskStatus_value st :=
       match st with ACTIVE => 0 | COMPLETED => 2 | ABANDONED => -1 end%Z;
     format_datetime d _ := (λ _, "1970-01-01T00:00:00.000+0000") <$> d;
     Task_from_v1 := scripted_task;
     Task_from_v2 := scripted_task;
     Task_to_v2_dict task := RDict [("id", RStr (Task.id task))];
     Project_from_v1 := scripted_project;
     Project_from_v2 := scripted_project;
     ProjectGroup_from_v2 := scripted_group;
     ProjectGroup_default_sort_order := 0%Z;
     Tag_from_v2 := scripted_tag;
     Tag_create label color parent :=
       Ok {| Tag.name := ascii_lower label; Tag.label := label;
             Tag.color := color;
             Tag.parent := parent; Tag.sort_order := 0 |};
     ProjectData := raw;
     ProjectData_from_v1 := Ok;
     User := raw;
     User_from_v2 := Ok;
     UserStatus := raw;
     UserStatus_from_v2 := Ok;
     UserStatistics := raw;
     UserStatistics_from_v2 := Ok |}.

(** Whether a call is the given method of the given client. *)
Definition is_call (u : upstream) (m : string) (c : call) : bool :=
  bool_decide (target c = u) && String.eqb (method c) m.

Definition sample_v1_credentials : V1Credentials :=
  {| client_id := "id"; client_secret := "secret";
     redirect_uri := "http://localhost:8080/callback";
     access_token := Some "token"; v1_timeout := 30 |}.

Definition sample_v2_credentials : V2Credentials :=
  {| username := Some "user@example.com"; password := Some "pw";
     device_id := None; v2_timeout := 30 |}.

Definition missing_v2_credentials : V2Credentials :=
  {| username := None; password := None; device_id := None;
     v2_timeout := 30 |}.

(** The object as a successful [initialize] leaves it. *)
Definition sample_ready : UnifiedTickTickAPI.t :=
  {| UnifiedTickTickAPI._v1_credentials := sample_v1_credentials;
     UnifiedTickTickAPI._v2_credentials := sample_v2_credentials;
     UnifiedTickTickAPI._v1_client := Some V1Handle;
     UnifiedTickTickAPI._v2_client := Some {| is_authenticated := true |};
     UnifiedTickTickAPI._router :=
       Some {| v1_client := Some V1Handle;
               v2_client := Some {| is_authenticated := true |} |};
     UnifiedTickTickAPI._initialized := true;
     UnifiedTickTickAPI._inbox_id := Some "inbox1" |}.

(** Both services answer every call with [None]. *)
Definition quiet : Collaborators :=
  scripted (λ _, Ok RNone) [("v1", true); ("v2", true)].

(** The starting state of a concrete run: nothing logged yet. *)
Definition fresh : @env quiet := (tt, []).

(** V1 is valid, V2 has no credentials, and the health check reports V2 as
    failed. *)
Definition v2_unverified : Collaborators :=
  scripted (λ _, Ok RNone) [("v1", true); ("v2", false)].

(** V2 does not know the task. *)
Definition v2_task_missing : Collaborators :=
  scripted
    (λ c, if is_call V2 "get_task" c
          then Raise (TickTickNotFoundError "Task not found")
          else Ok RNone)
    [("v1", true); ("v2", true)].

Section FirstCall.
Context `{E : Collaborators}.

(** A coroutine whose first logged call is [c]. *)
Definition starts_with {A} (c : call) (m : M A) : Prop :=
  ∀ s, ∃ rest, snd (snd (m s)) = (snd s ++ c :: rest)%list.
End FirstCall.

(** V2 acknowledges a created task without any id; V1 returns the task. *)
Definition v2_ack_without_id : Collaborators :=
  scripted
    (λ c, if is_call V2 "create_task" c then Ok (RDict [("id2etag", RDict [])])
          else if is_call V1 "create_task" c
          then Ok (RDict [("id", RStr "a1"); ("title", RStr "Buy milk")])
          else Ok RNone)
    [("v1", true); ("v2", true)].

(** V2 acknowledges a created task or project with a generated id and
    returns the object on the follow-up read. *)
Definition v2_ack_with_id : Collaborators :=
  scripted
    (λ c, if is_call V2 "create_task" c
          then Ok (RDict [("id2etag", RDict [("t42", RStr "etag")])])
          else if is_call V2 "get_task" c
          then Ok (RDict [("id", RStr "t42"); ("title", RStr "Buy milk")])
          else Ok RNone)
    [("v1", true); ("v2", true)].

Definition buy_milk : CreateTaskArgs.t :=
  {| CreateTaskArgs.title := "Buy milk"; CreateTaskArgs.project_id := None;
     CreateTaskArgs.content := None; CreateTaskArgs.desc := None;
     CreateTaskArgs.priority := None; CreateTaskArgs.start_date := None;
     CreateTaskArgs.due_date := None; CreateTaskArgs.time_zone := None;
     CreateTaskArgs.is_all_day := None; CreateTaskArgs.reminders := None;
     CreateTaskArgs.repeat_flag := None; CreateTaskArgs.tags := Some ["home"];
     CreateTaskArgs.parent_id := None |}.

Section Routes.
Context `{E : Collaborators}.
Import UnifiedTickTickAPI.

(** A coroutine follows a route, from a state and under a router, when:
    with the primary usable its first logged call is the primary write, and
    a failure of that write is the outcome, with nothing else logged; with
    the primary unusable and the other client usable, the secondary write is
    the one call logged and its failure is the outcome; with neither
    usable, the outcome is the route's error and nothing is logged. *)
Definition follows_route {A} (m : M A) (s : env) (r : APIRouter)
    (ro : route) : Prop :=
  (usable r (primary ro) = true →
     (∃ rest, snd (snd (m s)) = (snd s ++ first_choice ro :: rest)%list) ∧
     (∀ e w, perform (first_choice ro) (fst s) = (Raise e, w) →
        m s = (Raise e, (w, (snd s ++ [first_choice ro])%list)))) ∧
  (usable r (primary ro) = false →
   usable r (other (primary ro)) = true →
     snd (m s) = (snd (perform (second_choice ro) (fst s)),
                  (snd s ++ [second_choice ro])%list) ∧
     (∀ e, fst (perform (second_choice ro) (fst s)) = Raise e →
        fst (m s) = Raise e)) ∧
  (usable r (primary ro) = false →
   usable r (other (primary ro)) = false →
     m s = (Raise (failure ro), s)).
End Routes.

(** V2 refuses to delete, V1 would. *)
Definition server_error : exn := Exn "TickTickAPIError" "server error" None.

Definition v2_delete_fails : Collaborators :=
  scripted
    (λ c, if is_call V2 "delete_task" c then Raise server_error else Ok RNone)
    [("v1", true); ("v2", true)].

(** V2 fails on every full-state sync. *)
Definition v2_sync_fails : Collaborators :=
  scripted
    (λ c, if is_call V2 "sync" c then Raise server_error else Ok RNone)
    [("v1", true); ("v2", true)].

(** The object after [initialize] with valid V1 credentials and no V2
    credentials: only V1 is configured, and [initialize] has raised. *)
Definition only_v1_configured : UnifiedTickTickAPI.t :=
  snd (fst (UnifiedTickTickAPI.initialize (E := v2_unverified)
              (UnifiedTickTickAPI.__init__ sample_v1_credentials
                 missing_v2_credentials)
              (tt, []))).

Section SpecWording.
Context `{E : Collaborators}.
Import UnifiedTickTickAPI.

(** The specification's wording for a write with a fallback: a failure of
    the primary write is followed by the write on the other client. *)
Definition retries_on_failure (op : Operation.t) (self : t) (s : env)
    (ro : route) : Prop :=
  ∀ e w, perform (first_choice ro) (fst s) = (Raise e, w) →
         second_choice ro ∈ new_calls s (run op self s).

(** The specification's wording for an operation without a usable V2: the
    outcome is the unavailable error. *)
Definition raises_unavailable {A} (outcome : res A * env) : Prop :=
  ∃ e, fst outcome = Raise e ∧ exn_class e = "TickTickAPIUnavailableError".
End SpecWording.

(** Every tag of the double's store is stored under its own name, as
    [create_tag] and [rename_tag] store it. *)
Definition well_keyed (m : gmap string Tag.t) : Prop :=
  ∀ k tag, m !! k = Some tag → Tag.name tag = k.

(** How often a task carries a tag name, whatever the casing. *)
Definition carries (lower : string → string) (tag_name : string)
    (task : Task.t) : nat :=
  length (filter (λ t, lower t = tag_name) (Task.tags task)).

(** A store for the scenarios: two folders, a project in the first, a task
    tagged with both of two tags. *)
Definition sample_store : MockUnifiedAPI.t :=
  {| MockUnifiedAPI.tasks :=
       {[ "t1" :=
            {| Task.id := "t1"; Task.project_id := "p1";
               Task.title := "Report"; Task.content := None;
               Task.desc := None; Task.status := ACTIVE; Task.priority := 0;
               Task.start_date := None; Task.due_date := None;
               Task.completed_time := None;
               Task.tags := ["urgent"; "important"]; Task.items := [];
               Task.parent_id := None; Task.child_ids := [];
               Task.time_zone := None; Task.is_all_day := None;
               Task.reminders := []; Task.repeat_flag := None;
               Task.created_time := None; Task.modified_time := None;
               Task.sort_order := None |} ]};
     MockUnifiedAPI.projects :=
       {[ "p1" :=
            {| Project.id := "p1"; Project.name := "Client";
               Project.color := None; Project.kind := "TASK";
               Project.view_mode := "list"; Project.group_id := Some "f1";
               Project.closed := false; Project.sort_order := 0 |} ]};
     MockUnifiedAPI.folders :=
       {[ "f1" := {| ProjectGroup.id := "f1"; ProjectGroup.name := "Work";
                     ProjectGroup.sort_order := 0 |} ]};
     MockUnifiedAPI.tags :=
       <[ "urgent" := {| Tag.name := "urgent"; Tag.label := "Urgent";
                         Tag.color := None; Tag.parent := None;
                         Tag.sort_order := 0 |} ]>
       {[ "important" := {| Tag.name := "important"; Tag.label := "Important";
                            Tag.color := None; Tag.parent := None;
                            Tag.sort_order := 0 |} ]};
     MockUnifiedAPI.inbox_id := "inbox123456789";
     MockUnifiedAPI._initialized := true;
     MockUnifiedAPI.call_history := [];
     MockUnifiedAPI.should_fail := ∅;
     MockUnifiedAPI.clock_reads := 0 |}.

(** V1 refuses to close. *)
Definition v1_close_fails : Collaborators :=
  scripted
    (λ c, if is_call V1 "close" c then Raise server_error else Ok RNone)
    [("v1", true); ("v2", true)].

(** The object with a router that reports V2 alone usable. *)
Definition sample_v2_only : UnifiedTickTickAPI.t :=
  {| UnifiedTickTickAPI._v1_credentials := sample_v1_credentials;
     UnifiedTickTickAPI._v2_credentials := sample_v2_credentials;
     UnifiedTickTickAPI._v1_client := None;
     UnifiedTickTickAPI._v2_client := Some {| is_authenticated := true |};
     UnifiedTickTickAPI._router :=
       Some {| v1_client := None;
               v2_client := Some {| is_authenticated := true |} |};
     UnifiedTickTickAPI._initialized := true;
     UnifiedTickTickAPI._inbox_id := None |}.

(** A wire mapping whose id is not the given one. *)
Definition other_id (project_id : string) (profile : raw) : Prop :=
  ∃ v, dict_get profile "id" RNone = Ok v ∧ raw_eq_str v project_id = false.

(** V2 lists two projects on sync. *)
Definition v2_lists_projects : Collaborators :=
  scripted
    (λ c, if is_call V2 "sync" c
          then Ok (RDict [("projectProfiles",
                           RList [RDict [("id", RStr "p1"); ("name", RStr "Home")];
                                  RDict [("id", RStr "p2"); ("name", RStr "Work")]])])
          else Ok RNone)
    [("v1", false); ("v2", true)].

(** V2 answers every sync with an empty mapping. *)
Definition v2_empty_state : Collaborators :=
  scripted (λ c, if is_call V2 "sync" c then Ok (RDict []) else Ok RNone)
    [("v1", true); ("v2", true)].

(** V2 lists two tags on sync. *)
Definition v2_lists_tags : Collaborators :=
  scripted
    (λ c, if is_call V2 "sync" c
          then Ok (RDict [("tags",
                           RList [RDict [("name", RStr "work")];
                                  RDict [("name", RStr "home")]])])
          else Ok RNone)
    [("v1", true); ("v2", true)].

(** V2 acknowledges a created folder with an id that its next sync does
    not list. *)
Definition v2_folder_not_listed : Collaborators :=
  scripted
    (λ c, if is_call V2 "create_project_group" c
          then Ok (RDict [("id2etag", RDict [("g7", RStr "etag")])])
          else if is_call V2 "sync" c then Ok (RDict [])
          else Ok RNone)
    [("v1", true); ("v2", true)].

(** V2 accepts the batch update and then fails to return the task. *)
Definition v2_read_after_update_fails : Collaborators :=
  scripted
    (λ c, if is_call V2 "get_task" c
          then Raise (TickTickNotFoundError "Task not found")
          else Ok RNone)
    [("v1", true); ("v2", true)].

Definition sample_task_without_project : Task.t :=
  {| Task.id := "t1"; Task.project_id := ""; Task.title := "Report";
     Task.content := None; Task.desc := None; Task.status := ACTIVE;
     Task.priority := 0; Task.start_date := None; Task.due_date := None;
     Task.completed_time := None; Task.tags := []; Task.items := [];
     Task.parent_id := None; Task.child_ids := []; Task.time_zone := None;
     Task.is_all_day := None; Task.reminders := []; Task.repeat_flag := None;
     Task.created_time := None; Task.modified_time := None;
     Task.sort_order := None |}.

(** The number an id of [IDGenerator] was formatted from. *)
Definition id_number (id : string) : option nat :=
  Nat.of_hex_uint <$> HexadecimalString.NilEmpty.uint_of_string id.

(** The sample store with a failure configured for [delete_tag]. *)
Definition failing_store : MockUnifiedAPI.t :=
  {| MockUnifiedAPI.tasks := MockUnifiedAPI.tasks sample_store;
     MockUnifiedAPI.projects := MockUnifiedAPI.projects sample_store;
     MockUnifiedAPI.folders := MockUnifiedAPI.folders sample_store;
     MockUnifiedAPI.tags := MockUnifiedAPI.tags sample_store;
     MockUnifiedAPI.inbox_id := "inbox123456789";
     MockUnifiedAPI._initialized := true;
     MockUnifiedAPI.call_history := [];
     MockUnifiedAPI.should_fail := {[ "delete_tag" := Some server_error ]};
     MockUnifiedAPI.clock_reads := 0 |}.

(** A store holds every object under the key the object itself names. *)
Definition keyed {A} (key : A → string) (m : gmap string A) : Prop :=
  ∀ k x, m !! k = Some x → key x = k.

(** The four stores of the double, each keyed as its methods key it:
    tasks, projects and folders by id, tags by name. *)
Definition stores_keyed (self : MockUnifiedAPI.t) : Prop :=
  keyed Task.id (MockUnifiedAPI.tasks self) ∧
  keyed Project.id (MockUnifiedAPI.projects self) ∧
  keyed ProjectGroup.id (MockUnifiedAPI.folders self) ∧
  keyed Tag.name (MockUnifiedAPI.tags self).

(** The sample store with a second task, a child of the first. *)
Definition family_store : MockUnifiedAPI.t :=
  MockUnifiedAPI.set_tasks
    (<[ "t2" :=
          {| Task.id := "t2"; Task.project_id := "inbox123456789";
             Task.title := "Appendix"; Task.content := None;
             Task.desc := None; Task.status := ACTIVE; Task.priority := 0;
             Task.start_date := None; Task.due_date := None;
             Task.completed_time := None; Task.tags := []; Task.items := [];
             Task.parent_id := None; Task.child_ids := [];
             Task.time_zone := None; Task.is_all_day := None;
             Task.reminders := []; Task.repeat_flag := None;
             Task.created_time := None; Task.modified_time := None;
             Task.sort_order := None |} ]>
       (MockUnifiedAPI.tasks sample_store))
    sample_store.

(** No project of the store has an id that reads as a number the counter
    of [IDGenerator] has yet to reach. *)
Definition ids_drawn (counter : nat) (self : MockUnifiedAPI.t) : Prop :=
  ∀ k n, is_Some (MockUnifiedAPI.projects self !! k) →
         id_number k = Some n → (n ≤ counter)%nat.

Section AfterWrite.
Context `{E : Collaborators}.
Import UnifiedTickTickAPI.

(** What a two-branch write goes on to do when the router reports its
    primary usable and the primary write has returned.  The three that
    return nothing are done, with that one call.  [update_task] goes on as
    [get_task] with the id and the project id of the task.  The two
    creations go on as the read of the created object when the first key
    of the acknowledgment's [id2etag] is a non-empty id; when it is not,
    they go on to the other branch: with V1 usable, the V1 write, whose
    converted outcome is theirs, and with V1 unusable the route's error. *)
Definition settles_after_write (op : Operation.t) (self : t) (s : env)
    (r : APIRouter) (ro : route) : Prop :=
  usable r (primary ro) = true →
  ∀ x w, perform (first_choice ro) (fst s) = (Ok x, w) →
  let s1 := (w, (snd s ++ [first_choice ro])%list) in
  let other_branch {A} (f : raw → res A) (v : A → value) :=
    (has_v1 r = true →
       run op self s =
         (match converted f (fst (perform (second_choice ro) w)) with
          | Ok a => Ok (v a)
          | Raise e => Raise e
          end,
          (snd (perform (second_choice ro) w),
           (snd s1 ++ [second_choice ro])%list))) ∧
    (has_v1 r = false → run op self s = (Raise (failure ro), s1)) in
  match op with
  | Operation.complete_task _ _ | Operation.delete_task _ _
  | Operation.delete_project _ =>
      run op self s = (Ok VNone, s1)
  | Operation.update_task task =>
      run op self s =
        run (Operation.get_task (Task.id task) (Some (Task.project_id task)))
          self s1
  | Operation.create_task a =>
      ∀ ids task_id project_id,
        dict_get x "id2etag" (RDict []) = Ok ids →
        first_key ids = Ok task_id →
        resolve_project_id self a = Some project_id →
        if truthy task_id
        then run op self s =
               run (Operation.get_task (default "" task_id) (Some project_id))
                 self s1
        else other_branch Task_from_v1 VTask
  | Operation.create_project a =>
      ∀ ids project_id,
        dict_get x "id2etag" (RDict []) = Ok ids →
        first_key ids = Ok project_id →
        if truthy project_id
        then run op self s =
               run (Operation.get_project (default "" project_id)) self s1
        else other_branch Project_from_v1 VProject
  | _ => True
  end.
End AfterWrite.

(** * Properties *)

Section FacadeFacts.
Context `{E : Collaborators}.
Import UnifiedTickTickAPI.

Lemma bind_ok {A B} (c : M A) (k : A → M B) s a s' :
  c s = (Ok a, s') → bind c k s = k a s'.
Proof. intros Hc. unfold bind. by rewrite Hc. Qed.

Lemma bind_raise {A B} (c : M A) (k : A → M B) s e s' :
  c s = (Raise e, s') → bind c k s = (Raise e, s').
Proof. intros Hc. unfold bind. by rewrite Hc. Qed.

Lemma ensure_initialized_ok self s :
  _initialized self = true → _ensure_initialized self s = (Ok tt, s).
Proof. intros Hi. unfold _ensure_initialized. by rewrite Hi. Qed.

Lemma ensure_initialized_raises self s :
  _initialized self = false →
  _ensure_initialized self s =
    (Raise (TickTickConfigurationError not_initialized_message), s).
Proof. intros Hi. unfold _ensure_initialized. by rewrite Hi. Qed.

Lemma guarded_raises {A} self (k : unit → M A) s :
  _initialized self = false →
  bind (_ensure_initialized self) k s =
    (Raise (TickTickConfigurationError not_initialized_message), s).
Proof. intros Hi. apply bind_raise. by apply ensure_initialized_raises. Qed.

Lemma guarded_ok {A} self (k : unit → M A) s :
  _initialized self = true →
  bind (_ensure_initialized self) k s = k tt s.
Proof. intros Hi. apply bind_ok. by apply ensure_initialized_ok. Qed.

Lemma router_flag_wired self r flag s :
  _router self = Some r → router_flag self flag s = (Ok (flag r), s).
Proof. intros Hr. unfold router_flag. by rewrite Hr. Qed.

Lemma await_performs c s r w :
  perform c (fst s) = (r, w) → await c s = (r, (w, (snd s ++ [c])%list)).
Proof. destruct s as [w0 log]. simpl. intros Hp. by rewrite Hp. Qed.

Lemma on_v1_present self c s :
  is_Some (_v1_client self) → on_v1 self c s = await c s.
Proof. intros [h Hh]. unfold on_v1. by rewrite Hh. Qed.

Lemma on_v2_present self c s :
  is_Some (_v2_client self) → on_v2 self c s = await c s.
Proof. intros [h Hh]. unfold on_v2. by rewrite Hh. Qed.

(** Every operation starts with the guard. *)
Lemma run_guarded op self s :
  _initialized self = false →
  run op self s =
    (Raise (TickTickConfigurationError not_initialized_message), s).
Proof.
  intros Hi.
  destruct op; unfold run, returning;
    (erewrite bind_raise; [reflexivity|]);
    apply guarded_raises; exact Hi.
Qed.
End FacadeFacts.

(** ** Lifecycle: [initialize], [close] and the guard *)

Section LifecycleFacts.
Context `{E : Collaborators}.
Import UnifiedTickTickAPI.

Lemma construct_v1_keeps_flag self s self1 errors1 s1 :
  construct_v1 self s = (self1, errors1, s1) →
  _initialized self1 = _initialized self ∧
  _v2_client self1 = _v2_client self.
Proof.
  unfold construct_v1.
  destruct (await _ s) as [[data|e] s0]; intros [= <- <- <-]; done.
Qed.

Lemma construct_v2_keeps_flag self s self2 errors2 s2 :
  construct_v2 self s = (self2, errors2, s2) →
  _initialized self2 = _initialized self ∧
  _v1_client self2 = _v1_client self.
Proof.
  unfold construct_v2.
  destruct (await (v2_init_call _) s) as [[data|e] s0].
  - destruct (truthy _ && truthy _).
    + destruct (await (v2_authenticate_call _) s0) as [[session|e] s1];
        intros [= <- <- <-]; done.
    + intros [= <- <- <-]; done.
  - intros [= <- <- <-]; done.
Qed.

Lemma initialize_raise_leaves_uninitialized self s e self' s' :
  _initialized self = false →
  initialize self s = (Raise e, self', s') →
  _initialized self' = false.
Proof.
  intros Hi. unfold initialize. rewrite Hi.
  destruct (construct_v1 self s) as [[self1 errors1] s1] eqn:H1.
  destruct (construct_v2 self1 s1) as [[self2 errors2] s2] eqn:H2.
  apply construct_v1_keeps_flag in H1 as [H1 _].
  apply construct_v2_keeps_flag in H2 as [H2 _].
  destruct (verify_clients _ _) as [[verification|e'] w].
  - destruct (negb _); intros [= <- <- <-]; simpl; congruence.
  - intros [= <- <- <-]. simpl. congruence.
Qed.

Lemma close_ok_uninitializes self s self' s' :
  close self s = (Ok tt, self', s') → _initialized self' = false.
Proof.
  unfold close.
  match goal with |- context [match ?c s with _ => _ end] => destruct (c s) as [[[]|e] s0] end;
    intros [= <- <-]; done.
Qed.

Lemma unready_not_initialized self : unready self → _initialized self = false.
Proof.
  induction 1 as [v1 v2|self self' s s' e _ IH Hinit|self self' s s' Hclose].
  - reflexivity.
  - by eapply initialize_raise_leaves_uninitialized.
  - by eapply close_ok_uninitializes.
Qed.

(** A completed [initialize] leaves the object ready. *)
Lemma initialize_ok_ready self s self' s' :
  _initialized self = false →
  initialize self s = (Ok tt, self', s') →
  ready self'.
Proof.
  intros Hi. unfold initialize. rewrite Hi.
  destruct (construct_v1 self s) as [[self1 errors1] s1].
  destruct (construct_v2 self1 s1) as [[self2 errors2] s2].
  destruct (verify_clients _ _) as [[verification|e'] w]; [|done].
  destruct (is_fully_configured _) eqn:Hfull; simpl; [|done].
  intros [= <- <-]. split; [done|].
  eexists. split; [|exact Hfull]. done.
Qed.

(** What [ready] gives the method bodies. *)
Lemma ready_unfold self :
  ready self →
  _initialized self = true ∧
  ∃ r, _router self = Some r ∧ has_v1 r = true ∧ has_v2 r = true ∧
       is_Some (_v1_client self) ∧ is_Some (_v2_client self).
Proof.
  intros [Hi (r & (Hr & Hv1 & Hv2) & Hfull)].
  apply andb_true_iff in Hfull as [H1 H2].
  split; [done|]. exists r. repeat split; try done.
  - rewrite <- Hv1. unfold has_v1 in H1. by apply bool_decide_eq_true in H1.
  - rewrite <- Hv2. unfold has_v2 in H2. destruct (v2_client r); [by eexists|done].
Qed.

(** C5: every operation called before [initialize] has completed (on a new
    object, or after an [initialize] that raised) or after [close] has
    returned raises the configuration error of the guard, and makes no
    upstream call: the world and the call log are unchanged. *)
Theorem operation_outside_lifecycle_raises (op : Operation.t) (self : t) (s : env) :
  unready self →
  run op self s =
    (Raise (TickTickConfigurationError not_initialized_message), s).
Proof.
  intros Hun. apply run_guarded. by apply unready_not_initialized.
Qed.
End LifecycleFacts.

Lemma operation_outside_lifecycle_raises_witness :
  unready (E := quiet) (snd (fst (UnifiedTickTickAPI.close sample_ready fresh))) ∧
  UnifiedTickTickAPI.run Operation.list_tags
    (snd (fst (UnifiedTickTickAPI.close sample_ready fresh))) fresh =
    (Raise (TickTickConfigurationError
              UnifiedTickTickAPI.not_initialized_message), fresh).
Proof.
  assert (Hclosed :
    unready (E := quiet)
      (snd (fst (UnifiedTickTickAPI.close sample_ready fresh)))).
  { eapply unready_closed with (self := sample_ready) (s := fresh).
    reflexivity. }
  split; [exact Hclosed|].
  exact (operation_outside_lifecycle_raises Operation.list_tags _ fresh Hclosed).
Defined.

(** [close] was called and raised, V1 refusing to close: the object is as
    it was, initialized, and an operation called afterwards does not raise
    the configuration error but goes on to its upstream call. *)
Lemma operation_after_failed_close_proceeds :
  UnifiedTickTickAPI.close (E := v1_close_fails) sample_ready (tt, []) =
    (Raise server_error, sample_ready,
     (tt, [UnifiedTickTickAPI.v1_close_call])) ∧
  UnifiedTickTickAPI.run (E := v1_close_fails)
    (Operation.delete_tag "urgent") sample_ready
    (tt, [UnifiedTickTickAPI.v1_close_call]) =
    (Ok UnifiedTickTickAPI.VNone,
     (tt, [UnifiedTickTickAPI.v1_close_call;
           UnifiedTickTickAPI.v2_delete_tag_call "urgent"])).
Proof. split; reflexivity. Qed.

(** The ready states are the ones [initialize] produces: with both services
    answering, a new object becomes ready. *)
Example initialize_reaches_ready :
  fst (fst (UnifiedTickTickAPI.initialize (E := quiet)
              (UnifiedTickTickAPI.__init__ sample_v1_credentials sample_v2_credentials) fresh)) =
    Ok tt ∧
  ready (snd (fst (UnifiedTickTickAPI.initialize (E := quiet)
                     (UnifiedTickTickAPI.__init__ sample_v1_credentials sample_v2_credentials)
                     fresh))).
Proof.
  split; [reflexivity|].
  eapply (initialize_ok_ready (E := quiet)
            (UnifiedTickTickAPI.__init__ sample_v1_credentials sample_v2_credentials) fresh);
    reflexivity.
Qed.

(** ** Start-up: one error for all causes *)

Section InitializeFacts.
Context `{E : Collaborators}.
Import UnifiedTickTickAPI.



End InitializeFacts.

(** ** The call log *)

Section LogFacts.
Context `{E : Collaborators}.
Import UnifiedTickTickAPI.

Lemma logs_ret {A} P (a : A) : logs P (ret a).
Proof. intros s. exists []. by rewrite app_nil_r. Qed.

Lemma logs_raise {A} P e : logs P (raise (A := A) e).
Proof. intros s. exists []. by rewrite app_nil_r. Qed.

Lemma logs_lift {A} P (r : res A) : logs P (lift r).
Proof. intros s. exists []. by rewrite app_nil_r. Qed.

Lemma logs_read_clock P : logs P read_clock.
Proof. intros [w log]. exists []. by rewrite app_nil_r. Qed.

Lemma logs_await (P : call → Prop) c : P c → logs P (await c).
Proof.
  intros Hc [w log]. exists [c]. simpl.
  destruct (perform c w) as [r w']. simpl. split; [done|]. by constructor.
Qed.

Lemma logs_bind {A B} P (c : M A) (k : A → M B) :
  logs P c → (∀ a, logs P (k a)) → logs P (bind c k).
Proof.
  intros Hc Hk s. unfold bind.
  destruct (Hc s) as (rest1 & Hlog1 & HP1).
  destruct (c s) as [[a|e] s1]; simpl in *.
  - destruct (Hk a s1) as (rest2 & Hlog2 & HP2).
    exists (rest1 ++ rest2)%list. rewrite Hlog2, Hlog1, app_assoc.
    split; [done|]. by apply Forall_app.
  - by exists rest1.
Qed.

Lemma logs_try_except {A} P (body handler : M A) catches :
  logs P body → logs P handler → logs P (try_except body catches handler).
Proof.
  intros Hb Hh s. unfold try_except.
  destruct (Hb s) as (rest1 & Hlog1 & HP1).
  destruct (body s) as [[a|e] s1]; simpl in *.
  - by exists rest1.
  - destruct (catches e).
    + destruct (Hh s1) as (rest2 & Hlog2 & HP2).
      exists (rest1 ++ rest2)%list. rewrite Hlog2, Hlog1, app_assoc.
      split; [done|]. by apply Forall_app.
    + by exists rest1.
Qed.

Lemma logs_ensure_initialized P self : logs P (_ensure_initialized self).
Proof.
  unfold _ensure_initialized.
  destruct (_initialized self); [apply logs_ret|apply logs_raise].
Qed.

Lemma logs_router_flag P self flag : logs P (router_flag self flag).
Proof.
  unfold router_flag. destruct (_router self); [apply logs_ret|apply logs_raise].
Qed.

Lemma logs_on_v1 (P : call → Prop) self c : P c → logs P (on_v1 self c).
Proof.
  intros Hc. unfold on_v1.
  destruct (_v1_client self); [by apply logs_await|apply logs_raise].
Qed.

Lemma logs_on_v2 (P : call → Prop) self c : P c → logs P (on_v2 self c).
Proof.
  intros Hc. unfold on_v2.
  destruct (_v2_client self); [by apply logs_await|apply logs_raise].
Qed.

Lemma logs_unavailable {A} P msg operation :
  logs P (unavailable msg operation (A := A)).
Proof. apply logs_raise. Qed.

(** The calls a coroutine added, read off the final log. *)
Lemma logs_new_calls {A} P (c : M A) s :
  logs P c → Forall P (new_calls s (c s)).
Proof.
  intros Hc. destruct (Hc s) as (rest & Hlog & HP).
  unfold new_calls. rewrite Hlog. by rewrite drop_app_length.
Qed.
End LogFacts.

(** Splits a goal [logs P c] along the structure of [c]. *)
Ltac split_logs :=
  repeat first
    [ apply logs_ret
    | apply logs_raise
    | apply logs_lift
    | apply logs_unavailable
    | apply logs_read_clock
    | apply logs_ensure_initialized
    | apply logs_router_flag
    | apply logs_on_v1; done
    | apply logs_on_v2; done
    | apply logs_try_except
    | apply logs_bind; [|intros ?]
    | match goal with
      | |- logs _ (if ?b then _ else _) => destruct b
      | |- logs _ (match ?x with _ => _ end) => destruct x
      end ].

Section TaskLogs.
Context `{E : Collaborators}.
Import UnifiedTickTickAPI.

Lemma get_task_logs self task_id project_id :
  logs (λ _, True) (get_task self task_id project_id).
Proof. unfold get_task. split_logs. Qed.

Lemma get_project_logs self project_id :
  logs (λ _, True) (get_project self project_id).
Proof. unfold get_project. split_logs. Qed.

Lemma list_project_groups_logs self :
  logs (λ c, target c = V2) (list_project_groups self).
Proof. unfold list_project_groups. split_logs. Qed.

(** The operations without a second branch call V2 and nothing else. *)
Lemma v2_only_logs op c self :
  v2_only_call op = Some c →
  logs (λ c, target c = V2) (run op self).
Proof.
  destruct op; try discriminate; intros _; unfold run, returning;
    (apply logs_bind; [|intros ?; apply logs_ret]).
  all: unfold sync_all, list_all_tasks, list_completed_tasks, move_task,
    set_task_parent, create_project_group, list_project_groups,
    delete_project_group, list_tags, create_tag, delete_tag, rename_tag,
    merge_tags, get_user_profile, get_user_status, get_user_statistics,
    get_focus_heatmap, get_focus_by_tag; split_logs.
Qed.
End TaskLogs.


(** ** Reading one task *)

Section GetTaskFacts.
Context `{E : Collaborators}.
Import UnifiedTickTickAPI.

Lemma sample_ready_is_ready : ready sample_ready.
Proof.
  split; [reflexivity|].
  exists {| v1_client := Some V1Handle;
            v2_client := Some {| is_authenticated := true |} |}.
  repeat split.
Qed.

Lemma converted_call {A} (f : raw → res A) (c : M raw) s r s' :
  c s = (r, s') →
  bind c (λ data, lift (f data)) s = (converted f r, s').
Proof. intros Hc. unfold bind. rewrite Hc. by destruct r. Qed.

(** The V1 branch of [get_task]. *)
Lemma get_task_v1_branch self r task_id project_id s out w :
  _router self = Some r → has_v1 r = true → is_Some (_v1_client self) →
  perform (v1_get_task_call (default "" project_id) task_id) (fst s) = (out, w) →
  bind (router_flag self has_v1) (λ has1,
    if has1 && truthy project_id
    then bind (on_v1 self (v1_get_task_call (default "" project_id) task_id))
           (λ data, lift (Task_from_v1 data))
    else unavailable "Could not get task" "get_task") s =
  if truthy project_id
  then (converted Task_from_v1 out,
        (w, (snd s ++ [v1_get_task_call (default "" project_id) task_id])%list))
  else (Raise (TickTickAPIUnavailableError "Could not get task" "get_task"), s).
Proof.
  intros Hr H1 Hc1 Hp.
  erewrite bind_ok by (by apply router_flag_wired).
  rewrite H1. simpl. destruct (truthy project_id); [|done].
  apply converted_call. rewrite on_v1_present by done.
  by apply await_performs.
Qed.

(** [get_task] on a ready facade, by the outcome of the V2 attempt (the
    call and the conversion of its answer, both inside the [try]). *)
Lemma get_task_ready self task_id project_id s out w :
  ready self →
  perform (v2_get_task_call task_id) (fst s) = (out, w) →
  let s2 := (w, (snd s ++ [v2_get_task_call task_id])%list) in
  get_task self task_id project_id s =
  match converted Task_from_v2 out with
  | Ok task => (Ok task, s2)
  | Raise e =>
      if isinstance_TickTickAPIError e then
        if truthy project_id then
          let c1 := v1_get_task_call (default "" project_id) task_id in
          (converted Task_from_v1 (fst (perform c1 w)),
           (snd (perform c1 w), (snd s2 ++ [c1])%list))
        else
          (Raise (TickTickAPIUnavailableError "Could not get task" "get_task"),
           s2)
      else (Raise e, s2)
  end.
Proof.
  intros Hready Hp s2.
  apply ready_unfold in Hready as (Hi & r & Hr & H1 & H2 & Hc1 & Hc2).
  unfold get_task.
  rewrite guarded_ok by done.
  erewrite bind_ok by (by apply router_flag_wired).
  rewrite H2.
  assert (Hattempt :
    try_except
      (bind (on_v2 self (v2_get_task_call task_id)) (λ data,
         bind (lift (Task_from_v2 data)) (λ task, ret (Some task))))
      isinstance_TickTickAPIError (ret None) s =
    match converted Task_from_v2 out with
    | Ok task => (Ok (Some task), s2)
    | Raise e =>
        if isinstance_TickTickAPIError e then (Ok None, s2) else (Raise e, s2)
    end).
  { unfold try_except, bind at 1. rewrite on_v2_present by done.
    rewrite (await_performs _ _ _ _ Hp). fold s2.
    destruct out as [data|e]; simpl.
    - unfold bind, lift, ret. by destruct (Task_from_v2 data) as [task|e].
    - done. }
  unfold bind at 1. rewrite Hattempt.
  destruct (converted Task_from_v2 out) as [task|e]; [done|].
  destruct (isinstance_TickTickAPIError e); [|done].
  destruct (perform (v1_get_task_call (default "" project_id) task_id) w)
    as [out1 w1] eqn:Hp1.
  by erewrite get_task_v1_branch.
Qed.

(** C3: on a ready facade [get_task] calls V2 first, with the task id
    alone, whether or not a project id was given.  A call on V1 is made
    only when the V2 attempt raised a [TickTickAPIError] and a project id
    was given.  When the V2 call fails and no project id was given, the
    call raises (the V2 error itself, or the unavailable error for
    [get_task] when the V2 error was a [TickTickAPIError]) and V1 is not
    consulted: the V2 call is the only one logged. *)
Theorem get_task_falls_back_only_after_v2_error
    (self : t) (task_id : string) (project_id : option string) (s : env) :
  ready self →
  let c2 := v2_get_task_call task_id in
  let outcome := get_task self task_id project_id s in
  (∃ rest, snd (snd outcome) = (snd s ++ c2 :: rest)%list) ∧
  (∀ c, c ∈ new_calls s outcome → target c = V1 →
     truthy project_id = true ∧
     ∃ e, converted Task_from_v2 (fst (perform c2 (fst s))) = Raise e ∧
          isinstance_TickTickAPIError e = true) ∧
  (∀ e w, perform c2 (fst s) = (Raise e, w) →
     truthy project_id = false →
     outcome =
       (Raise (if isinstance_TickTickAPIError e
               then TickTickAPIUnavailableError "Could not get task" "get_task"
               else e),
        (w, (snd s ++ [c2])%list))).
Proof.
  intros Hready c2 outcome.
  destruct (perform c2 (fst s)) as [out w] eqn:Hp.
  pose proof (get_task_ready self task_id project_id s out w Hready Hp) as Heq.
  simpl in Heq. fold c2 outcome in Heq.
  split; [|split].
  - rewrite Heq.
    destruct (converted Task_from_v2 out) as [task|e]; [by exists []|].
    destruct (isinstance_TickTickAPIError e); [|by exists []].
    destruct (truthy project_id); [|by exists []].
    simpl. eexists. by rewrite <- app_assoc.
  - intros c. unfold new_calls. rewrite Heq. simpl.
    destruct (converted Task_from_v2 out) as [task|e]; simpl.
    + rewrite drop_app_length. intros ->%list_elem_of_singleton. done.
    + destruct (isinstance_TickTickAPIError e) eqn:He; simpl.
      * destruct (truthy project_id); simpl.
        -- intros _ _. split; [done|]. by exists e.
        -- rewrite drop_app_length. intros ->%list_elem_of_singleton. done.
      * rewrite drop_app_length. intros ->%list_elem_of_singleton. done.
  - intros e w' [= -> ->] Hpid. rewrite Heq. simpl. rewrite Hpid.
    by destruct (isinstance_TickTickAPIError e).
Qed.
End GetTaskFacts.

Lemma get_task_falls_back_only_after_v2_error_witness :
  ready sample_ready ∧
  UnifiedTickTickAPI.get_task (E := v2_task_missing) sample_ready "t1" None
    (tt, []) =
    (Raise (TickTickAPIUnavailableError "Could not get task" "get_task"),
     (tt, [UnifiedTickTickAPI.v2_get_task_call "t1"])).
Proof.
  split; [apply sample_ready_is_ready|].
  destruct (get_task_falls_back_only_after_v2_error (E := v2_task_missing)
              sample_ready "t1" None (tt, []) sample_ready_is_ready)
    as (_ & _ & Hfail).
  exact (Hfail _ _ eq_refl eq_refl).
Defined.

(** ** Creating: read-after-write, and the empty acknowledgment *)

Section CreateFacts.
Context `{E : Collaborators}.
Import UnifiedTickTickAPI.

Lemma truthy_Some s : truthy (Some s) = true ↔ s ≠ "".
Proof.
  simpl. rewrite negb_true_iff. split.
  - intros Hs ->. by rewrite String.eqb_refl in Hs.
  - intros Hs. by apply String.eqb_neq.
Qed.

Lemma bind_assoc {A B C} (c : M A) (k : A → M B) (k' : B → M C) s :
  bind (bind c k) k' s = bind c (λ a, bind (k a) k') s.
Proof. unfold bind. by destruct (c s) as [[a|e] s1]. Qed.

Lemma bind_lift_ok {A B} (a : A) (k : A → M B) s :
  bind (lift (Ok a)) k s = k a s.
Proof. reflexivity. Qed.

(** Returning what a coroutine found, through the [created] variable. *)
Lemma found_returned {A} (c : M A) (k : M A) s :
  bind (bind c (λ x, ret (Some x)))
       (λ created, match created with Some x => ret x | None => k end) s =
  c s.
Proof. unfold bind, ret. by destruct (c s) as [[a|e] s1]. Qed.

(** [create_task] once V2 has acknowledged the write. *)
Lemma create_task_after_ack self r a s project_id response w ids task_id :
  _initialized self = true → _router self = Some r → has_v2 r = true →
  is_Some (_v2_client self) →
  resolve_project_id self a = Some project_id →
  let start_str := v2_date_string (CreateTaskArgs.start_date a) in
  let due_str := v2_date_string (CreateTaskArgs.due_date a) in
  let c2 := v2_create_task_call a project_id start_str due_str in
  perform c2 (fst s) = (Ok response, w) →
  dict_get response "id2etag" (RDict []) = Ok ids →
  first_key ids = Ok task_id →
  let s2 := (w, (snd s ++ [c2])%list) in
  create_task self a s =
  if truthy task_id
  then get_task self (default "" task_id) (Some project_id) s2
  else bind (router_flag self has_v1) (λ has1,
         if has1
         then bind (on_v1 self
                      (v1_create_task_call a project_id start_str due_str))
                (λ data, lift (Task_from_v1 data))
         else unavailable "Could not create task" "create_task") s2.
Proof.
  intros Hi Hr H2 Hc2 Hpid start_str due_str c2 Hp Hids Hkey s2.
  unfold create_task. rewrite guarded_ok by done. rewrite Hpid.
  erewrite bind_ok by (by apply router_flag_wired). rewrite H2.
  fold start_str due_str c2.
  rewrite !bind_assoc.
  erewrite bind_ok
    by (rewrite on_v2_present by done; by apply await_performs).
  fold s2. rewrite Hids, bind_assoc, bind_lift_ok, Hkey, bind_assoc, bind_lift_ok.
  destruct (truthy task_id); [|done].
  by rewrite found_returned.
Qed.

(** [create_project] once V2 has acknowledged the write. *)
Lemma create_project_after_ack self r a s response w ids project_id :
  _initialized self = true → _router self = Some r → has_v2 r = true →
  is_Some (_v2_client self) →
  let c2 := v2_create_project_call a in
  perform c2 (fst s) = (Ok response, w) →
  dict_get response "id2etag" (RDict []) = Ok ids →
  first_key ids = Ok project_id →
  let s2 := (w, (snd s ++ [c2])%list) in
  create_project self a s =
  if truthy project_id
  then get_project self (default "" project_id) s2
  else bind (router_flag self has_v1) (λ has1,
         if has1
         then bind (on_v1 self (v1_create_project_call a))
                (λ data, lift (Project_from_v1 data))
         else unavailable "Could not create project" "create_project") s2.
Proof.
  intros Hi Hr H2 Hc2 c2 Hp Hids Hkey s2.
  unfold create_project. rewrite guarded_ok by done.
  erewrite bind_ok by (by apply router_flag_wired). rewrite H2.
  fold c2.
  rewrite !bind_assoc.
  erewrite bind_ok
    by (rewrite on_v2_present by done; by apply await_performs).
  fold s2. rewrite Hids, bind_assoc, bind_lift_ok, Hkey, bind_assoc, bind_lift_ok.
  destruct (truthy project_id); [|done].
  by rewrite found_returned.
Qed.

(** [get_project] on a ready facade asks V1. *)
Lemma get_project_ready self project_id s out w :
  ready self →
  perform (v1_get_project_call project_id) (fst s) = (out, w) →
  get_project self project_id s =
    (converted Project_from_v1 out,
     (w, (snd s ++ [v1_get_project_call project_id])%list)).
Proof.
  intros Hready Hp.
  apply ready_unfold in Hready as (Hi & r & Hr & H1 & H2 & Hc1 & Hc2).
  unfold get_project. rewrite guarded_ok by done.
  erewrite bind_ok by (by apply router_flag_wired). rewrite H1.
  apply converted_call. rewrite on_v1_present by done.
  by apply await_performs.
Qed.

Lemma get_task_ready_log self task_id project_id s :
  ready self →
  ∃ rest, snd (snd (get_task self task_id project_id s)) =
          (snd s ++ v2_get_task_call task_id :: rest)%list.
Proof.
  intros Hready.
  destruct (perform (v2_get_task_call task_id) (fst s)) as [out w] eqn:Hp.
  rewrite (get_task_ready self task_id project_id s out w Hready Hp).
  destruct (converted Task_from_v2 out) as [task|e]; [by exists []|].
  destruct (isinstance_TickTickAPIError e); [|by exists []].
  destruct (truthy project_id); [|by exists []].
  simpl. eexists. by rewrite <- app_assoc.
Qed.

(** C2: on a ready facade, when the V2 create returns an acknowledgment
    whose first [id2etag] key is a non-empty id, [create_task] continues
    as [get_task] with that same id (and the resolved project id), from the
    state the write left: the next call logged after the write is the V2
    read of that id, and when that read answers, the task converted from
    its answer is what [create_task] returns.  Likewise [create_project]
    continues as [get_project] with the generated id: the write is followed
    by exactly one read, the V1 read of that id, and the project converted
    from its answer is returned. *)
Theorem create_reads_back_generated_id (self : t) (s : env) :
  ready self →
  (∀ a project_id response w ids task_id,
     resolve_project_id self a = Some project_id →
     let c2 := v2_create_task_call a project_id
                 (v2_date_string (CreateTaskArgs.start_date a))
                 (v2_date_string (CreateTaskArgs.due_date a)) in
     perform c2 (fst s) = (Ok response, w) →
     dict_get response "id2etag" (RDict []) = Ok ids →
     first_key ids = Ok (Some task_id) →
     task_id ≠ "" →
     create_task self a s =
       get_task self task_id (Some project_id) (w, (snd s ++ [c2])%list) ∧
     (∃ rest, snd (snd (create_task self a s)) =
              (snd s ++ c2 :: v2_get_task_call task_id :: rest)%list) ∧
     (∀ data w' task,
        perform (v2_get_task_call task_id) w = (Ok data, w') →
        Task_from_v2 data = Ok task →
        create_task self a s =
          (Ok task, (w', (snd s ++ [c2; v2_get_task_call task_id])%list)))) ∧
  (∀ a response w ids project_id,
     let c2 := v2_create_project_call a in
     perform c2 (fst s) = (Ok response, w) →
     dict_get response "id2etag" (RDict []) = Ok ids →
     first_key ids = Ok (Some project_id) →
     project_id ≠ "" →
     create_project self a s =
       get_project self project_id (w, (snd s ++ [c2])%list) ∧
     snd (snd (create_project self a s)) =
       (snd s ++ [c2; v1_get_project_call project_id])%list ∧
     (∀ data w' project,
        perform (v1_get_project_call project_id) w = (Ok data, w') →
        Project_from_v1 data = Ok project →
        create_project self a s =
          (Ok project,
           (w', (snd s ++ [c2; v1_get_project_call project_id])%list)))).
Proof.
  intros Hready.
  pose proof (ready_unfold _ Hready) as (Hi & r & Hr & H1 & H2 & Hc1 & Hc2).
  split.
  - intros a project_id response w ids task_id Hpid c2 Hp Hids Hkey Hne.
    pose proof (create_task_after_ack self r a s project_id response w ids
                  (Some task_id) Hi Hr H2 Hc2 Hpid Hp Hids Hkey) as Heq.
    simpl in Heq. fold c2 in Heq.
    apply truthy_Some in Hne. simpl in Hne. rewrite Hne in Heq.
    split; [exact Heq|]. split.
    + rewrite Heq.
      destruct (get_task_ready_log self task_id (Some project_id)
                  (w, (snd s ++ [c2])%list) Hready) as [rest Hrest].
      exists rest. rewrite Hrest. simpl. by rewrite <- app_assoc.
    + intros data w' task Hread Hconv. rewrite Heq.
      rewrite (get_task_ready self task_id (Some project_id)
                 (w, (snd s ++ [c2])%list) (Ok data) w' Hready Hread).
      simpl. rewrite Hconv. by rewrite <- app_assoc.
  - intros a response w ids project_id c2 Hp Hids Hkey Hne.
    pose proof (create_project_after_ack self r a s response w ids
                  (Some project_id) Hi Hr H2 Hc2 Hp Hids Hkey) as Heq.
    simpl in Heq. fold c2 in Heq.
    apply truthy_Some in Hne. simpl in Hne. rewrite Hne in Heq.
    split; [exact Heq|].
    destruct (perform (v1_get_project_call project_id) w) as [out w1] eqn:Hread.
    rewrite Heq.
    rewrite (get_project_ready self project_id (w, (snd s ++ [c2])%list)
               out w1 Hready Hread).
    simpl. rewrite <- app_assoc. split; [done|].
    intros data w' project [= -> ->] Hconv. simpl. by rewrite Hconv.
Qed.

(** C10: on a ready facade, when the V2 create succeeds and its
    acknowledgment holds an empty [id2etag] mapping (or none at all),
    [create_task] does not return from the V2 branch: it goes on to the V1
    branch and issues the V1 create as well.  Both writes are logged, V2
    first, and the outcome of the call is the outcome of the V1 write. *)
Theorem create_task_writes_twice_on_empty_ack
    (self : t) (a : CreateTaskArgs.t) (s : env) (project_id : string)
    (response : raw) (w : World) :
  ready self →
  resolve_project_id self a = Some project_id →
  let start_str := v2_date_string (CreateTaskArgs.start_date a) in
  let due_str := v2_date_string (CreateTaskArgs.due_date a) in
  let c2 := v2_create_task_call a project_id start_str due_str in
  let c1 := v1_create_task_call a project_id start_str due_str in
  perform c2 (fst s) = (Ok response, w) →
  dict_get response "id2etag" (RDict []) = Ok (RDict []) →
  create_task self a s =
    (converted Task_from_v1 (fst (perform c1 w)),
     (snd (perform c1 w), (snd s ++ [c2; c1])%list)).
Proof.
  intros Hready Hpid start_str due_str c2 c1 Hp Hids.
  apply ready_unfold in Hready as (Hi & r & Hr & H1 & H2 & Hc1 & Hc2).
  rewrite (create_task_after_ack self r a s project_id response w (RDict [])
             None Hi Hr H2 Hc2 Hpid Hp Hids eq_refl).
  simpl. fold start_str due_str c1 c2.
  erewrite bind_ok by (by apply router_flag_wired). rewrite H1.
  destruct (perform c1 w) as [out1 w1] eqn:Hp1.
  erewrite converted_call
    by (rewrite on_v1_present by done; by apply await_performs).
  simpl. by rewrite <- app_assoc.
Qed.
End CreateFacts.

Lemma create_reads_back_generated_id_witness :
  ready sample_ready ∧
  UnifiedTickTickAPI.create_task (E := v2_ack_with_id) sample_ready buy_milk
    (tt, []) =
    (scripted_task (RDict [("id", RStr "t42"); ("title", RStr "Buy milk")]),
     (tt, [UnifiedTickTickAPI.v2_create_task_call buy_milk "inbox1" None None;
           UnifiedTickTickAPI.v2_get_task_call "t42"])).
Proof.
  split; [apply sample_ready_is_ready|].
  destruct (create_reads_back_generated_id (E := v2_ack_with_id) sample_ready
              (tt, []) sample_ready_is_ready) as [Htask _].
  destruct (Htask buy_milk "inbox1" _ tt _ "t42" eq_refl eq_refl eq_refl
              eq_refl ltac:(discriminate)) as (_ & _ & Hread).
  exact (Hread _ tt _ eq_refl eq_refl).
Defined.

Lemma create_task_writes_twice_on_empty_ack_witness :
  ready sample_ready ∧
  UnifiedTickTickAPI.create_task (E := v2_ack_without_id) sample_ready buy_milk
    (tt, []) =
    (scripted_task (RDict [("id", RStr "a1"); ("title", RStr "Buy milk")]),
     (tt, [UnifiedTickTickAPI.v2_create_task_call buy_milk "inbox1" None None;
           UnifiedTickTickAPI.v1_create_task_call buy_milk "inbox1" None None])).
Proof.
  split; [apply sample_ready_is_ready|].
  exact (create_task_writes_twice_on_empty_ack (E := v2_ack_without_id)
           sample_ready buy_milk (tt, []) "inbox1" _ tt
           sample_ready_is_ready eq_refl eq_refl eq_refl).
Defined.

(** ** Writes: the second branch is for an absent client *)

Section RouteFacts.
Context `{E : Collaborators}.
Import UnifiedTickTickAPI.

Lemma wired_clients self r :
  wired self r →
  _router self = Some r ∧
  (has_v1 r = true → is_Some (_v1_client self)) ∧
  (has_v2 r = true → is_Some (_v2_client self)).
Proof.
  intros (Hr & Hv1 & Hv2). split; [done|]. split.
  - rewrite <- Hv1. unfold has_v1. by intros ?%bool_decide_eq_true.
  - rewrite <- Hv2. unfold has_v2. destruct (v2_client r); [by eexists|done].
Qed.

Lemma starts_with_await {A} c (k : raw → M A) :
  (∀ x, logs (λ _, True) (k x)) → starts_with c (bind (await c) k).
Proof.
  intros Hk [w log]. unfold bind. simpl.
  destruct (perform c w) as [[x|e] w'].
  - destruct (Hk x (w', (log ++ [c])%list)) as (rest & Hlog & _).
    exists rest. rewrite Hlog. simpl. by rewrite <- app_assoc.
  - by exists [].
Qed.

Lemma returning_outcome {A} (f : A → value) (m : M A) s :
  returning f m s =
    (match fst (m s) with Ok a => Ok (f a) | Raise e => Raise e end,
     snd (m s)).
Proof. unfold returning, bind, ret. by destruct (m s) as [[a|e] s']. Qed.

Lemma follows_route_returning {A} (f : A → value) (m : M A) s r ro :
  follows_route m s r ro → follows_route (returning f m) s r ro.
Proof.
  intros (Ha & Hb & Hc). split; [|split].
  - intros Hu. destruct (Ha Hu) as [Hfirst Hfail]. split.
    + by rewrite returning_outcome.
    + intros e w Hp. rewrite returning_outcome. by rewrite (Hfail e w Hp).
  - intros Hu Ho. destruct (Hb Hu Ho) as [Hlog Hfail]. split.
    + by rewrite returning_outcome.
    + intros e He. rewrite returning_outcome. simpl. by rewrite (Hfail e He).
  - intros Hu Ho. rewrite returning_outcome. by rewrite (Hc Hu Ho).
Qed.

(** The shape shared by the two-branch bodies, with the continuation of
    each branch left open. *)
Lemma two_branches {A} self r (p : upstream) (cp cs : call)
    (kp ks : raw → M A) (err : exn) (s : env) :
  wired self r →
  (∀ x, logs (λ _, True) (kp x)) →
  (∀ x s', ks x s' = (fst (ks x s'), s')) →
  follows_route
    (bind (router_flag self (λ r, usable r p)) (λ hasp,
       if hasp
       then bind (match p with V1 => on_v1 self cp | V2 => on_v2 self cp end) kp
       else bind (router_flag self (λ r, usable r (other p))) (λ hass,
         if hass
         then bind (match p with V1 => on_v2 self cs | V2 => on_v1 self cs end)
                ks
         else raise err)))
    s r {| primary := p; first_choice := cp; second_choice := cs;
           failure := err |}.
Proof.
  intros Hwired Hkp Hks.
  destruct (wired_clients _ _ Hwired) as (Hr & Hc1 & Hc2).
  assert (Hon : ∀ u c s', usable r u = true →
            (match u with V1 => on_v1 self c | V2 => on_v2 self c end) s' =
            await c s').
  { intros [] c s' Hu; [apply on_v1_present|apply on_v2_present]; auto. }
  split; [|split]; simpl.
  - intros Hu. erewrite bind_ok by (by apply router_flag_wired).
    rewrite Hu. split.
    + unfold bind at 1. rewrite Hon by done.
      apply (starts_with_await cp kp Hkp s).
    + intros e w Hp. apply bind_raise. rewrite Hon by done.
      by apply await_performs.
  - intros Hu Ho. erewrite bind_ok by (by apply router_flag_wired).
    rewrite Hu. erewrite bind_ok by (by apply router_flag_wired).
    rewrite Ho. unfold bind.
    assert (Hon' :
      (match p with V1 => on_v2 self cs | V2 => on_v1 self cs end) s =
      await cs s).
    { specialize (Hon (other p) cs s Ho). by destruct p. }
    rewrite Hon'.
    destruct (perform cs (fst s)) as [out w] eqn:Hp.
    rewrite (await_performs _ _ _ _ Hp). simpl.
    destruct out as [x|e]; simpl.
    + rewrite Hks. simpl. split; [done|]. done.
    + split; [done|]. by intros e' [= ->].
  - intros Hu Ho. erewrite bind_ok by (by apply router_flag_wired).
    rewrite Hu. erewrite bind_ok by (by apply router_flag_wired).
    by rewrite Ho.
Qed.

Lemma follows_route_ext {A} (m m' : M A) s r ro :
  m s = m' s → follows_route m' s r ro → follows_route m s r ro.
Proof. unfold follows_route. by intros ->. Qed.

Lemma follows_route_guarded {A} self (k : unit → M A) s r ro :
  _initialized self = true →
  follows_route (k tt) s r ro →
  follows_route (bind (_ensure_initialized self) k) s r ro.
Proof. intros Hi. apply follows_route_ext. by apply guarded_ok. Qed.

Lemma delete_task_route self r task_id project_id s :
  _initialized self = true → wired self r →
  follows_route (delete_task self task_id project_id) s r
    {| primary := V2;
       first_choice := v2_delete_task_call project_id task_id;
       second_choice := v1_delete_task_call project_id task_id;
       failure := TickTickAPIUnavailableError
                    "Could not delete task" "delete_task" |}.
Proof.
  intros Hi Hw. apply follows_route_guarded; [done|].
  apply (two_branches self r V2 _ _ (λ _, ret tt) (λ _, ret tt)); [done| |done].
  intros _. apply logs_ret.
Qed.

Lemma delete_project_route self r project_id s :
  _initialized self = true → wired self r →
  follows_route (delete_project self project_id) s r
    {| primary := V2;
       first_choice := v2_delete_project_call project_id;
       second_choice := v1_delete_project_call project_id;
       failure := TickTickAPIUnavailableError
                    "Could not delete project" "delete_project" |}.
Proof.
  intros Hi Hw. apply follows_route_guarded; [done|].
  apply (two_branches self r V2 _ _ (λ _, ret tt) (λ _, ret tt)); [done| |done].
  intros _. apply logs_ret.
Qed.

Lemma update_task_route self r task s :
  _initialized self = true → wired self r →
  follows_route (update_task self task) s r
    {| primary := V2;
       first_choice := v2_batch_update_call task;
       second_choice := v1_update_task_call task;
       failure := TickTickAPIUnavailableError
                    "Could not update task" "update_task" |}.
Proof.
  intros Hi Hw. apply follows_route_guarded; [done|].
  apply (two_branches self r V2 _ _
           (λ _, get_task self (Task.id task) (Some (Task.project_id task)))
           (λ data, lift (Task_from_v1 data))); [done| |done].
  intros _. apply get_task_logs.
Qed.

Lemma complete_task_route self r task_id project_id s :
  _initialized self = true → wired self r →
  follows_route (complete_task self task_id project_id) s r
    {| primary := V1;
       first_choice := v1_complete_task_call project_id task_id;
       second_choice := v2_complete_task_call task_id project_id (now (fst s));
       failure := TickTickAPIUnavailableError
                    "Could not complete task" "complete_task" |}.
Proof.
  intros Hi Hw. apply follows_route_guarded; [done|].
  eapply follows_route_ext;
    [|apply (two_branches self r V1 _ _ (λ _, ret tt) (λ _, ret tt));
      [done|intros _; apply logs_ret|done]].
  destruct Hw as (Hr & _).
  unfold bind at 1. rewrite (router_flag_wired _ _ _ _ Hr).
  symmetry. unfold bind at 1. rewrite (router_flag_wired _ _ _ _ Hr).
  simpl. destruct (has_v1 r); [done|].
  unfold bind at 1. rewrite (router_flag_wired _ _ _ _ Hr).
  symmetry. unfold bind at 1. rewrite (router_flag_wired _ _ _ _ Hr).
  simpl. destruct (has_v2 r); [|done].
  by destruct s.
Qed.

Lemma create_task_route self r a project_id s :
  _initialized self = true → wired self r →
  resolve_project_id self a = Some project_id →
  let start_str := v2_date_string (CreateTaskArgs.start_date a) in
  let due_str := v2_date_string (CreateTaskArgs.due_date a) in
  follows_route (create_task self a) s r
    {| primary := V2;
       first_choice := v2_create_task_call a project_id start_str due_str;
       second_choice := v1_create_task_call a project_id start_str due_str;
       failure := TickTickAPIUnavailableError
                    "Could not create task" "create_task" |}.
Proof.
  intros Hi Hw Hpid start_str due_str.
  unfold create_task. rewrite Hpid. fold start_str due_str.
  apply follows_route_guarded; [done|].
  set (after_write := λ created : option Task.t,
         match created with
         | Some task => ret task
         | None =>
             bind (router_flag self has_v1) (λ has1,
               if has1
               then bind (on_v1 self
                            (v1_create_task_call a project_id start_str due_str))
                      (λ data, lift (Task_from_v1 data))
               else unavailable "Could not create task" "create_task")
         end).
  eapply follows_route_ext;
    [|apply (two_branches self r V2 _ _
               (λ response,
                  bind (bind (lift (dict_get response "id2etag" (RDict [])))
                          (λ ids, bind (lift (first_key ids)) (λ task_id,
                             if truthy task_id
                             then bind (get_task self (default "" task_id)
                                          (Some project_id))
                                    (λ task, ret (Some task))
                             else ret None)))
                       after_write)
               (λ data, lift (Task_from_v1 data))); [done| |done]].
  - destruct Hw as (Hr & _).
    unfold bind at 1. rewrite (router_flag_wired _ _ _ _ Hr).
    symmetry. unfold bind at 1. rewrite (router_flag_wired _ _ _ _ Hr).
    simpl. destruct (has_v2 r); [|done].
    symmetry. apply bind_assoc.
  - intros response. unfold after_write.
    repeat (split_logs; try apply get_task_logs).
Qed.

Lemma create_project_route self r a s :
  _initialized self = true → wired self r →
  follows_route (create_project self a) s r
    {| primary := V2;
       first_choice := v2_create_project_call a;
       second_choice := v1_create_project_call a;
       failure := TickTickAPIUnavailableError
                    "Could not create project" "create_project" |}.
Proof.
  intros Hi Hw.
  unfold create_project.
  apply follows_route_guarded; [done|].
  set (after_write := λ created : option Project.t,
         match created with
         | Some project => ret project
         | None =>
             bind (router_flag self has_v1) (λ has1,
               if has1
               then bind (on_v1 self (v1_create_project_call a))
                      (λ data, lift (Project_from_v1 data))
               else unavailable "Could not create project" "create_project")
         end).
  eapply follows_route_ext;
    [|apply (two_branches self r V2 _ _
               (λ response,
                  bind (bind (lift (dict_get response "id2etag" (RDict [])))
                          (λ ids, bind (lift (first_key ids)) (λ project_id,
                             if truthy project_id
                             then bind (get_project self (default "" project_id))
                                    (λ project, ret (Some project))
                             else ret None)))
                       after_write)
               (λ data, lift (Project_from_v1 data))); [done| |done]].
  - destruct Hw as (Hr & _).
    unfold bind at 1. rewrite (router_flag_wired _ _ _ _ Hr).
    symmetry. unfold bind at 1. rewrite (router_flag_wired _ _ _ _ Hr).
    simpl. destruct (has_v2 r); [|done].
    symmetry. apply bind_assoc.
  - intros response. unfold after_write.
    repeat (split_logs; try apply get_project_logs).
Qed.

(** The other branch of a creation, entered after the V2 write. *)
Lemma creation_other_branch {A} self r (c : call) (f : raw → res A)
    (v : A → value) (err : exn) (s1 : env) :
  wired self r →
  (has_v1 r = true →
     returning v
       (bind (router_flag self has_v1) (λ has1,
          if has1 then bind (on_v1 self c) (λ data, lift (f data))
          else raise err)) s1 =
       (match converted f (fst (perform c (fst s1))) with
        | Ok a => Ok (v a)
        | Raise e => Raise e
        end,
        (snd (perform c (fst s1)), (snd s1 ++ [c])%list))) ∧
  (has_v1 r = false →
     returning v
       (bind (router_flag self has_v1) (λ has1,
          if has1 then bind (on_v1 self c) (λ data, lift (f data))
          else raise err)) s1 = (Raise err, s1)).
Proof.
  intros Hw. destruct (wired_clients _ _ Hw) as (Hr & Hc1 & _).
  split; intros H1; rewrite returning_outcome.
  - erewrite bind_ok by (by apply router_flag_wired). rewrite H1.
    destruct (perform c (fst s1)) as [out w'] eqn:Hp.
    erewrite converted_call
      by (rewrite on_v1_present by auto; by apply await_performs).
    done.
  - erewrite bind_ok by (by apply router_flag_wired). by rewrite H1.
Qed.

Lemma writes_settle op self s r ro :
  _initialized self = true → wired self r →
  write_route self (fst s) op = Some ro →
  settles_after_write op self s r ro.
Proof.
  intros Hi Hw Hroute Hu x w Hp s1 other_branch.
  subst other_branch. cbv beta.
  destruct (wired_clients _ _ Hw) as (Hr & Hc1 & Hc2).
  destruct op; try exact I; simpl in Hroute.
  - (* create_task *)
    intros ids task_id project_id Hids Hkey Hpid.
    rewrite Hpid in Hroute. injection Hroute as <-. simpl in *.
    unfold run. rewrite !returning_outcome.
    rewrite (create_task_after_ack self r a s project_id x w ids task_id)
      by auto.
    fold s1. destruct (truthy task_id); [done|].
    pose proof (creation_other_branch self r
                  (v1_create_task_call a project_id
                     (v2_date_string (CreateTaskArgs.start_date a))
                     (v2_date_string (CreateTaskArgs.due_date a)))
                  Task_from_v1 VTask
                  (TickTickAPIUnavailableError "Could not create task"
                     "create_task") s1 Hw) as [Hyes Hno].
    rewrite !returning_outcome in Hyes, Hno. unfold unavailable.
    split; assumption.
  - (* update_task *)
    injection Hroute as <-. simpl in *.
    unfold run. rewrite !returning_outcome.
    assert (Heq : update_task self task s =
              get_task self (Task.id task) (Some (Task.project_id task)) s1).
    { unfold update_task. rewrite guarded_ok by done.
      erewrite bind_ok by (by apply router_flag_wired). rewrite Hu.
      erewrite bind_ok
        by (rewrite on_v2_present by auto; by apply await_performs).
      done. }
    by rewrite Heq.
  - (* complete_task *)
    injection Hroute as <-. simpl in *.
    unfold run. rewrite returning_outcome.
    unfold complete_task. rewrite guarded_ok by done.
    erewrite bind_ok by (by apply router_flag_wired). rewrite Hu.
    erewrite bind_ok
      by (rewrite on_v1_present by auto; by apply await_performs).
    done.
  - (* delete_task *)
    injection Hroute as <-. simpl in *.
    unfold run. rewrite returning_outcome.
    unfold delete_task. rewrite guarded_ok by done.
    erewrite bind_ok by (by apply router_flag_wired). rewrite Hu.
    erewrite bind_ok
      by (rewrite on_v2_present by auto; by apply await_performs).
    done.
  - (* create_project *)
    intros ids project_id Hids Hkey.
    injection Hroute as <-. simpl in *.
    unfold run. rewrite !returning_outcome.
    rewrite (create_project_after_ack self r a s x w ids project_id) by auto.
    fold s1. destruct (truthy project_id); [done|].
    pose proof (creation_other_branch self r (v1_create_project_call a)
                  Project_from_v1 VProject
                  (TickTickAPIUnavailableError "Could not create project"
                     "create_project") s1 Hw) as [Hyes Hno].
    rewrite !returning_outcome in Hyes, Hno. unfold unavailable.
    split; assumption.
  - (* delete_project *)
    injection Hroute as <-. simpl in *.
    unfold run. rewrite returning_outcome.
    unfold delete_project. rewrite guarded_ok by done.
    erewrite bind_ok by (by apply router_flag_wired). rewrite Hu.
    erewrite bind_ok
      by (rewrite on_v2_present by auto; by apply await_performs).
    done.
Qed.
(** C1, as the code has it, for each of the six write operations with two
    branches (create, update, complete and delete task, create and delete
    project).  The operation follows its route: the client named first is
    attempted first when the router reports it usable, and a failure of
    that write is raised to the caller as it is, with no call on the other
    client; the other client's write is the one call made when the router
    reports the first unusable and the other usable, and its failure is
    raised as it is; the unavailable error, of class
    [TickTickAPIUnavailableError] and carrying the name of the operation,
    is raised without any call when the router reports neither usable.
    When the primary write returns, the operation settles as
    [settles_after_write] says: the deletions and the completion are done,
    the update reads the task back, and a creation reads the created
    object back or, without an id in the acknowledgment, goes on to the
    other branch.  [create_task] has a route once its project id is
    resolved; when it is not, it raises the configuration error of the
    validation and calls nothing. *)
Theorem write_falls_back_on_absence_only
    (op : Operation.t) (self : t) (s : env) (r : APIRouter) :
  _initialized self = true →
  wired self r →
  (∀ ro, write_route self (fst s) op = Some ro →
     follows_route (run op self) s r ro ∧
     settles_after_write op self s r ro ∧
     exn_class (failure ro) = "TickTickAPIUnavailableError" ∧
     exn_operation (failure ro) = Some (Operation.name op)) ∧
  (∀ a, op = Operation.create_task a →
     resolve_project_id self a = None →
     write_route self (fst s) op = None ∧
     run op self s =
       (Raise (TickTickConfigurationError
                 "No project ID provided and inbox ID unknown"), s)).
Proof.
  intros Hi Hw. split.
  - intros ro Hroute.
    split; [|split; [by apply writes_settle|]].
    + destruct op; try discriminate; simpl in Hroute.
      * destruct (resolve_project_id self a) as [project_id|] eqn:Hpid;
          [|done].
        injection Hroute as <-.
        apply follows_route_returning. by apply create_task_route.
      * injection Hroute as <-.
        apply follows_route_returning. by apply update_task_route.
      * injection Hroute as <-.
        apply follows_route_returning. by apply complete_task_route.
      * injection Hroute as <-.
        apply follows_route_returning. by apply delete_task_route.
      * injection Hroute as <-.
        apply follows_route_returning. by apply create_project_route.
      * injection Hroute as <-.
        apply follows_route_returning. by apply delete_project_route.
    + destruct op; try discriminate; simpl in Hroute;
        try (injection Hroute as <-; done).
      destruct (resolve_project_id self a); [|done].
      by injection Hroute as <-.
  - intros a -> Hnone. simpl. rewrite Hnone. split; [done|].
    rewrite returning_outcome. unfold create_task.
    rewrite guarded_ok by done. by rewrite Hnone.
Qed.
End RouteFacts.

Lemma sample_ready_wired :
  wired sample_ready
    {| v1_client := Some V1Handle;
       v2_client := Some {| is_authenticated := true |} |}.
Proof. repeat split. Qed.

Lemma write_falls_back_on_absence_only_witness :
  follows_route (E := v2_delete_fails)
    (UnifiedTickTickAPI.run (Operation.delete_task "t1" "p1") sample_ready)
    (tt, [])
    {| v1_client := Some V1Handle;
       v2_client := Some {| is_authenticated := true |} |}
    {| UnifiedTickTickAPI.primary := V2;
       UnifiedTickTickAPI.first_choice :=
         UnifiedTickTickAPI.v2_delete_task_call "p1" "t1";
       UnifiedTickTickAPI.second_choice :=
         UnifiedTickTickAPI.v1_delete_task_call "p1" "t1";
       UnifiedTickTickAPI.failure :=
         TickTickAPIUnavailableError "Could not delete task" "delete_task" |}.
Proof.
  destruct (write_falls_back_on_absence_only (E := v2_delete_fails)
              (Operation.delete_task "t1" "p1") sample_ready (tt, []) _
              eq_refl sample_ready_wired) as [Hroute _].
  exact (proj1 (Hroute _ eq_refl)).
Defined.

(** Both clients are configured and the V1 delete would succeed, yet the
    failure of the V2 delete is the outcome and V1 is not called. *)
Lemma delete_task_failure_is_not_retried :
  ready sample_ready ∧
  perform (Collaborators := v2_delete_fails)
    (UnifiedTickTickAPI.v1_delete_task_call "p1" "t1") tt = (Ok RNone, tt) ∧
  UnifiedTickTickAPI.run (E := v2_delete_fails)
    (Operation.delete_task "t1" "p1") sample_ready (tt, []) =
    (Raise server_error,
     (tt, [UnifiedTickTickAPI.v2_delete_task_call "p1" "t1"])) ∧
  ¬ retries_on_failure (E := v2_delete_fails)
      (Operation.delete_task "t1" "p1") sample_ready (tt, [])
      {| UnifiedTickTickAPI.primary := V2;
         UnifiedTickTickAPI.first_choice :=
           UnifiedTickTickAPI.v2_delete_task_call "p1" "t1";
         UnifiedTickTickAPI.second_choice :=
           UnifiedTickTickAPI.v1_delete_task_call "p1" "t1";
         UnifiedTickTickAPI.failure :=
           TickTickAPIUnavailableError "Could not delete task" "delete_task" |} ∧
  ¬ raises_unavailable
      (UnifiedTickTickAPI.run (E := v2_delete_fails)
         (Operation.delete_task "t1" "p1") sample_ready (tt, [])).
Proof.
  split; [apply sample_ready_is_ready|].
  split; [reflexivity|]. split; [reflexivity|]. split.
  - intros Hretry. specialize (Hretry server_error tt eq_refl).
    vm_compute in Hretry.
    apply list_elem_of_singleton in Hretry. discriminate Hretry.
  - intros (e & He & Hclass). vm_compute in He.
    injection He as <-. discriminate Hclass.
Qed.

(** ** Operations that exist on V2 only *)

Section V2OnlyFacts.
Context `{E : Collaborators}.
Import UnifiedTickTickAPI.

Lemma starts_with_on_v2 self c :
  is_Some (_v2_client self) → starts_with c (on_v2 self c).
Proof.
  intros Hc s. rewrite on_v2_present by done.
  destruct (perform c (fst s)) as [out w] eqn:Hp.
  rewrite (await_performs _ _ _ _ Hp). by exists [].
Qed.

Lemma starts_with_on_v2_bind {A} self c (k : raw → M A) :
  is_Some (_v2_client self) →
  (∀ x, logs (λ _, True) (k x)) →
  starts_with c (bind (on_v2 self c) k).
Proof.
  intros Hc Hk s. unfold bind at 1. rewrite on_v2_present by done.
  apply (starts_with_await c k Hk s).
Qed.

Lemma starts_with_guarded {A} self c (k : unit → M A) :
  _initialized self = true →
  starts_with c (k tt) →
  starts_with c (bind (_ensure_initialized self) k).
Proof. intros Hi Hk s. rewrite guarded_ok by done. apply Hk. Qed.

Lemma starts_with_returning {A} c (f : A → value) (m : M A) :
  starts_with c m → starts_with c (returning f m).
Proof. intros Hm s. rewrite returning_outcome. apply Hm. Qed.

Lemma list_project_groups_any_logs self :
  logs (λ _, True) (list_project_groups self).
Proof. unfold list_project_groups. split_logs. Qed.

(** C4, as the code has it: an operation that exists on V2 only, called on
    an object that is not initialized (which is where a configuration with
    V1 alone ends, as [initialize] refuses it), raises the configuration
    error of the guard and calls nothing.  On a ready object it calls V2:
    its first logged call is its V2 call, and when that call fails, the
    exception of the V2 client is raised to the caller as it is.  In every
    case the calls it makes are calls on V2: V1 is never consulted. *)
Theorem v2_only_operation_propagates
    (op : Operation.t) (c : call) (self : t) (s : env) :
  v2_only_call op = Some c →
  (_initialized self = false →
     run op self s =
       (Raise (TickTickConfigurationError not_initialized_message), s)) ∧
  (ready self →
     (∃ rest, snd (snd (run op self s)) = (snd s ++ c :: rest)%list) ∧
     (∀ e w, perform c (fst s) = (Raise e, w) →
        run op self s = (Raise e, (w, (snd s ++ [c])%list)))) ∧
  Forall (λ c', target c' = V2) (new_calls s (run op self s)).
Proof.
  intros Hop. split; [|split].
  - apply run_guarded.
  - intros (Hi & r & _ & _ & _ & _ & Hc)%ready_unfold. split.
    + destruct op; try discriminate; injection Hop as <-;
        unfold run; apply starts_with_returning;
        unfold sync_all, list_all_tasks, list_completed_tasks, move_task,
          set_task_parent, create_project_group, list_project_groups,
          delete_project_group, list_tags, create_tag, delete_tag, rename_tag,
          merge_tags, get_user_profile, get_user_status, get_user_statistics,
          get_focus_heatmap, get_focus_by_tag;
        (apply starts_with_guarded; [done|]);
        first [ by apply starts_with_on_v2
              | apply starts_with_on_v2_bind; [done|intros ?];
                repeat (split_logs; try apply list_project_groups_any_logs) ].
    + intros e w Hp.
      assert (Hcall : on_v2 self c s = (Raise e, (w, (snd s ++ [c])%list)))
        by (rewrite on_v2_present by done; by apply await_performs).
      destruct op; try discriminate; injection Hop as <-;
        unfold run, returning;
        (erewrite bind_raise; [reflexivity|]);
        unfold sync_all, list_all_tasks, list_completed_tasks, move_task,
          set_task_parent, create_project_group, list_project_groups,
          delete_project_group, list_tags, create_tag, delete_tag, rename_tag,
          merge_tags, get_user_profile, get_user_status, get_user_statistics,
          get_focus_heatmap, get_focus_by_tag;
        rewrite guarded_ok by done;
        first [ exact Hcall | by apply bind_raise ].
  - apply logs_new_calls. by eapply v2_only_logs.
Qed.
End V2OnlyFacts.

Lemma v2_only_operation_propagates_witness :
  ready sample_ready ∧
  UnifiedTickTickAPI.run (E := v2_sync_fails) Operation.list_tags sample_ready
    (tt, []) =
  (Raise server_error, (tt, [UnifiedTickTickAPI.v2_sync_call])).
Proof.
  split; [exact sample_ready_is_ready|].
  destruct (v2_only_operation_propagates (E := v2_sync_fails)
              Operation.list_tags _ sample_ready (tt, []) eq_refl)
    as (_ & Hinit & _).
  destruct (Hinit sample_ready_is_ready) as [_ Hfail].
  exact (Hfail _ _ eq_refl).
Defined.

(** With V1 alone configured, [initialize] has raised and a V2-only
    operation raises the configuration error of the guard; with both
    configured and V2 failing, it raises the error of the V2 client.
    Neither is the unavailable error. *)
Lemma v2_only_without_v2_is_not_unavailable :
  UnifiedTickTickAPI.run (E := v2_unverified) Operation.list_tags
    only_v1_configured (tt, []) =
    (Raise (TickTickConfigurationError
              UnifiedTickTickAPI.not_initialized_message), (tt, [])) ∧
  ¬ raises_unavailable
      (UnifiedTickTickAPI.run (E := v2_unverified) Operation.list_tags
         only_v1_configured (tt, [])) ∧
  UnifiedTickTickAPI.run (E := v2_sync_fails) Operation.list_tags sample_ready
    (tt, []) =
    (Raise server_error, (tt, [UnifiedTickTickAPI.v2_sync_call])) ∧
  ¬ raises_unavailable
      (UnifiedTickTickAPI.run (E := v2_sync_fails) Operation.list_tags
         sample_ready (tt, [])).
Proof.
  split; [reflexivity|]. split.
  - intros (e & He & Hclass). vm_compute in He.
    injection He as <-. discriminate Hclass.
  - split; [reflexivity|].
    intros (e & He & Hclass). vm_compute in He.
    injection He as <-. discriminate Hclass.
Qed.

(** ** The double: completing, deleting a folder, merging tags *)

Section MockFacts.
Import MockUnifiedAPI.
Variable utc_now : nat → datetime.
Variable lower : string → string.

Lemma check_failure_recorded method m args kwargs self :
  _check_failure method (_record_call m args kwargs self) =
  _check_failure method self.
Proof. reflexivity. Qed.

Lemma entered_passes method args kwargs self body :
  _check_failure method self = None →
  entered method args kwargs self body =
  body (_record_call method args kwargs self).
Proof. intros Hok. unfold entered. by rewrite check_failure_recorded, Hok. Qed.

(** [complete_task] on a task the store holds. *)
Lemma complete_task_held task_id project_id self task :
  _check_failure "complete_task" self = None →
  tasks self !! task_id = Some task →
  ∃ after,
    complete_task utc_now task_id project_id self = (Ok tt, after) ∧
    tasks after =
      <[task_id := Task.with_completion COMPLETED
                     (Some (utc_now (clock_reads self))) task]> (tasks self) ∧
    projects after = projects self ∧ folders after = folders self ∧
    tags after = tags self ∧ should_fail after = should_fail self ∧
    clock_reads after = S (clock_reads self).
Proof.
  intros Hok Htask. unfold complete_task. rewrite entered_passes by done.
  simpl. rewrite Htask. eexists. split; [reflexivity|]. done.
Qed.

(** C9: for a task the store holds (and no failure configured for the
    method), [complete_task] returns normally the first and the second
    time; after one call and after two the task is held with status
    COMPLETED and a completion time set; and the second call changes
    nothing else: the task differs from the task after one call in the
    value of the completion time only, every other task is the same, and
    so are the projects, folders and tags. *)
Theorem complete_task_twice_like_once
    (task_id project_id : string) (self : t) (task : Task.t) :
  _check_failure "complete_task" self = None →
  tasks self !! task_id = Some task →
  let once := complete_task utc_now task_id project_id self in
  let twice := complete_task utc_now task_id project_id (snd once) in
  fst once = Ok tt ∧ fst twice = Ok tt ∧
  ∃ t1 t2,
    tasks (snd once) !! task_id = Some t1 ∧
    tasks (snd twice) !! task_id = Some t2 ∧
    Task.status t1 = COMPLETED ∧ is_Some (Task.completed_time t1) ∧
    Task.status t2 = COMPLETED ∧ is_Some (Task.completed_time t2) ∧
    Task.with_completion COMPLETED (Task.completed_time t1) t2 = t1 ∧
    (∀ k, k ≠ task_id → tasks (snd twice) !! k = tasks (snd once) !! k) ∧
    projects (snd twice) = projects (snd once) ∧
    folders (snd twice) = folders (snd once) ∧
    tags (snd twice) = tags (snd once).
Proof.
  intros Hok Htask once twice.
  destruct (complete_task_held task_id project_id self task Hok Htask)
    as (s1 & Heq1 & Htasks1 & Hp1 & Hf1 & Htg1 & Hsf1 & Hclock1).
  assert (Hok1 : _check_failure "complete_task" s1 = None)
    by (unfold _check_failure in *; by rewrite Hsf1).
  set (t1 := Task.with_completion COMPLETED
               (Some (utc_now (clock_reads self))) task).
  assert (Hheld1 : tasks s1 !! task_id = Some t1)
    by (rewrite Htasks1; apply lookup_insert_eq).
  destruct (complete_task_held task_id project_id s1 t1 Hok1 Hheld1)
    as (s2 & Heq2 & Htasks2 & Hp2 & Hf2 & Htg2 & _ & _).
  subst once twice. rewrite Heq1. simpl. rewrite Heq2. simpl.
  split; [done|]. split; [done|].
  exists t1, (Task.with_completion COMPLETED
                (Some (utc_now (clock_reads s1))) t1).
  split; [done|]. split; [rewrite Htasks2; apply lookup_insert_eq|].
  repeat split; try done; try (by eexists).
  intros k Hk. rewrite Htasks2. by apply lookup_insert_ne.
Qed.

(** C8: for a folder the store holds (and no failure configured for the
    method), [delete_project_group] returns normally and removes that
    folder only; every project is still held under its key: a project
    whose [group_id] was the folder has [group_id] None and every other
    field as before, any other project is unchanged; no project appears;
    tasks and tags are unchanged. *)
Theorem delete_folder_only_ungroups (group_id : string) (self : t) :
  _check_failure "delete_project_group" self = None →
  is_Some (folders self !! group_id) →
  let outcome := delete_project_group group_id self in
  let after := snd outcome in
  fst outcome = Ok tt ∧
  folders after = delete group_id (folders self) ∧
  (∀ k p, projects self !! k = Some p →
     Project.group_id p = Some group_id →
     ∃ p', projects after !! k = Some p' ∧
           Project.group_id p' = None ∧
           Project.id p' = Project.id p ∧
           Project.name p' = Project.name p ∧
           Project.color p' = Project.color p ∧
           Project.kind p' = Project.kind p ∧
           Project.view_mode p' = Project.view_mode p ∧
           Project.closed p' = Project.closed p ∧
           Project.sort_order p' = Project.sort_order p) ∧
  (∀ k p, projects self !! k = Some p →
     Project.group_id p ≠ Some group_id →
     projects after !! k = Some p) ∧
  (∀ k, projects self !! k = None → projects after !! k = None) ∧
  tasks after = tasks self ∧
  tags after = tags self.
Proof.
  intros Hok [folder Hfolder] outcome after. subst after outcome.
  unfold delete_project_group. rewrite entered_passes by done.
  simpl. rewrite Hfolder. simpl.
  split; [done|]. split; [done|]. split; [|split; [|split]].
  - intros k p Hp Hgroup. rewrite lookup_fmap, Hp. simpl.
    unfold ungroup. rewrite bool_decide_eq_true_2 by done.
    eexists. split; [reflexivity|]. done.
  - intros k p Hp Hgroup. rewrite lookup_fmap, Hp. simpl.
    unfold ungroup. by rewrite bool_decide_eq_false_2.
  - intros k Hp. by rewrite lookup_fmap, Hp.
  - done.
Qed.

Lemma lower_ascii_idemp c : lower_ascii (lower_ascii c) = lower_ascii c.
Proof. destruct c as [[] [] [] [] [] [] [] []]; reflexivity. Qed.

Lemma ascii_lower_idemp s : ascii_lower (ascii_lower s) = ascii_lower s.
Proof.
  induction s as [|c s IH]; simpl; [done|].
  by rewrite lower_ascii_idemp, IH.
Qed.

Lemma filter_none_when_absent {A B} `{EqDecision B} (f : A → B) (x : B)
    (l : list A) :
  x ∉ map f l → filter (λ t, f t = x) l = [].
Proof.
  induction l as [|a l IH]; simpl; [done|].
  intros Hnot. apply not_elem_of_cons in Hnot as [Hne Hrest].
  rewrite filter_cons_False by congruence. by apply IH.
Qed.

Lemma filter_one_when_present {A B} `{EqDecision B} (f : A → B) (x : B)
    (l : list A) :
  NoDup (map f l) → x ∈ map f l → length (filter (λ t, f t = x) l) = 1.
Proof.
  induction l as [|a l IH]; simpl.
  - by intros _ ?%elem_of_nil.
  - intros [Hfresh Hnodup]%NoDup_cons Hin.
    destruct (decide (f a = x)) as [Heq|Hne].
    + rewrite filter_cons_True by done. simpl.
      rewrite filter_none_when_absent; [done|]. by rewrite <- Heq.
    + rewrite filter_cons_False by done. apply IH; [done|].
      apply elem_of_cons in Hin as [Hin|Hin]; [congruence|done].
Qed.

Lemma nodup_lower_kept (P : string → Prop) `{∀ t, Decision (P t)}
    (l : list string) :
  NoDup (map lower l) → NoDup (map lower (filter P l)).
Proof.
  induction l as [|a l IH]; simpl; [done|].
  intros [Hfresh Hnodup]%NoDup_cons.
  destruct (decide (P a)).
  - rewrite filter_cons_True by done. simpl. apply NoDup_cons. split; [|auto].
    intros Hin. apply Hfresh.
    apply list_elem_of_fmap in Hin as (t & -> & Ht).
    apply list_elem_of_fmap. exists t. split; [done|].
    by apply list_elem_of_filter in Ht as [_ ?].
  - rewrite filter_cons_False by done. auto.
Qed.

(** The tags of a task that referenced the source, after the loop body. *)
Lemma migrate_tags source_name target_name task :
  source_name ∈ map lower (Task.tags task) →
  let kept := filter (λ t, lower t ≠ source_name) (Task.tags task) in
  Task.tags (migrate lower source_name target_name task) =
    if bool_decide (target_name ∉ map lower kept)
    then (kept ++ [target_name])%list else kept.
Proof.
  intros Hin kept. unfold migrate. rewrite bool_decide_eq_true_2 by done.
  fold kept. by destruct (bool_decide _).
Qed.

Lemma migrate_keeps_other_fields source_name target_name task :
  Task.with_tags (Task.tags task) (migrate lower source_name target_name task) = task.
Proof.
  unfold migrate. destruct task. simpl.
  repeat (destruct (bool_decide _)); reflexivity.
Qed.

Lemma migrate_carries_target source_name target_name task :
  lower target_name = target_name →
  source_name ∈ map lower (Task.tags task) →
  NoDup (map lower (Task.tags task)) →
  carries lower target_name (migrate lower source_name target_name task) = 1.
Proof.
  intros Hlower Hin Hnodup. unfold carries.
  rewrite migrate_tags by done. simpl.
  set (kept := filter (λ t, lower t ≠ source_name) (Task.tags task)).
  destruct (decide (target_name ∈ map lower kept)) as [Hheld|Hnot].
  - rewrite bool_decide_eq_false_2 by (by intros ?).
    apply filter_one_when_present; [|done]. by apply nodup_lower_kept.
  - rewrite bool_decide_eq_true_2 by done.
    rewrite filter_app, length_app, filter_none_when_absent by done.
    simpl. by rewrite filter_cons_True, filter_nil by done.
Qed.

Lemma migrate_drops_source source_name target_name task :
  source_name ≠ target_name →
  source_name ∈ map lower (Task.tags task) →
  lower target_name = target_name →
  carries lower source_name (migrate lower source_name target_name task) = 0.
Proof.
  intros Hne Hin Hlower. unfold carries. rewrite migrate_tags by done. simpl.
  set (kept := filter (λ t, lower t ≠ source_name) (Task.tags task)).
  assert (Hkept : filter (λ t, lower t = source_name) kept = []).
  { apply filter_none_when_absent. intros (t & Ht & Hmem)%list_elem_of_fmap.
    apply list_elem_of_filter in Hmem as [Hdiff _]. by apply Hdiff. }
  destruct (bool_decide _); [|by rewrite Hkept].
  rewrite filter_app, Hkept. simpl.
  rewrite filter_cons_False by congruence. done.
Qed.

(** C6: with no failure configured for the method, [merge_tags] first
    validates: a source that is not a tag raises the not-found error that
    names the source, and a target that is not a tag (the source being one)
    raises the not-found error that names the target; the two errors
    differ, and in both cases tasks and tags are as before.  With both
    tags held it returns normally; every task that referenced the source
    is still held, with every field but its tags as before, carries the
    target exactly once when its tags were set-like (no tag twice, casing
    apart), also when it carried the target before, and no longer carries
    the source when the two tags differ; every other task is unchanged;
    and the source is removed from the tags, so that no tag [list_tags]
    returns afterwards has the source's name when the tags were stored
    under their names.  Names are compared through [str.lower()], whatever
    it does to them; the two counts read the tags of a task through it
    too, and so suppose that lower-casing the lower-cased target changes
    nothing. *)
Theorem merge_tags_validates_migrates_deletes
    (source target : string) (self : t) :
  _check_failure "merge_tags" self = None →
  let source_name := lower source in
  let target_name := lower target in
  let outcome := merge_tags lower source target self in
  let after := snd outcome in
  TickTickNotFoundError ("Source tag not found: " +:+ source) ≠
    TickTickNotFoundError ("Target tag not found: " +:+ target) ∧
  (tags self !! source_name = None →
     fst outcome =
       Raise (TickTickNotFoundError ("Source tag not found: " +:+ source)) ∧
     tasks after = tasks self ∧ tags after = tags self) ∧
  (is_Some (tags self !! source_name) →
   tags self !! target_name = None →
     fst outcome =
       Raise (TickTickNotFoundError ("Target tag not found: " +:+ target)) ∧
     tasks after = tasks self ∧ tags after = tags self) ∧
  (is_Some (tags self !! source_name) →
   is_Some (tags self !! target_name) →
     fst outcome = Ok tt ∧
     tags after = delete source_name (tags self) ∧
     (well_keyed (tags self) →
      ∀ listed, fst (list_tags after) = Ok listed →
      ∀ tag, tag ∈ listed → Tag.name tag ≠ source_name) ∧
     (∀ k task, tasks self !! k = Some task →
        source_name ∈ map lower (Task.tags task) →
        ∃ task', tasks after !! k = Some task' ∧
          Task.with_tags (Task.tags task) task' = task ∧
          (lower target_name = target_name →
           (NoDup (map lower (Task.tags task)) →
              carries lower target_name task' = 1) ∧
           (source_name ≠ target_name →
              carries lower source_name task' = 0))) ∧
     (∀ k task, tasks self !! k = Some task →
        source_name ∉ map lower (Task.tags task) →
        tasks after !! k = Some task) ∧
     (∀ k, tasks self !! k = None → tasks after !! k = None) ∧
     projects after = projects self ∧
     folders after = folders self).
Proof.
  intros Hok source_name target_name outcome after.
  subst after outcome.
  unfold merge_tags. rewrite entered_passes by done. simpl.
  fold source_name target_name.
  split; [by intros [=]|]. split; [|split].
  - intros Hmissing. by rewrite bool_decide_eq_true_2.
  - intros [tag Htag] Hmissing.
    rewrite bool_decide_eq_false_2 by (by rewrite Htag).
    by rewrite bool_decide_eq_true_2.
  - intros [stag Hstag] [ttag Httag].
    rewrite bool_decide_eq_false_2 by (by rewrite Hstag).
    rewrite bool_decide_eq_false_2 by (by rewrite Httag).
    simpl. split; [done|]. split; [done|].
    split; [|split; [|split; [|split]]].
    + intros Hkeyed listed. unfold list_tags, _check_failure. simpl.
      destruct (should_fail self !! "list_tags") as [[e|]|];
        [done| |]; intros [= <-] tag Hin.
      all: apply list_elem_of_fmap in Hin as ([k tag'] & -> & Hin);
        apply elem_of_map_to_list in Hin; simpl;
        apply lookup_delete_Some in Hin as [Hne Hheld];
        by rewrite (Hkeyed _ _ Hheld).
    + intros k task Htask Hin. rewrite lookup_fmap, Htask. simpl.
      eexists. split; [reflexivity|]. split.
      * apply migrate_keeps_other_fields.
      * intros Hlower. split.
        -- intros Hnodup. by apply migrate_carries_target.
        -- intros Hne. by apply migrate_drops_source.
    + intros k task Htask Hnot. rewrite lookup_fmap, Htask. simpl.
      unfold migrate. by rewrite bool_decide_eq_false_2.
    + intros k Hnone. by rewrite lookup_fmap, Hnone.
    + done.
Qed.
End MockFacts.

Lemma complete_task_twice_like_once_witness :
  fst (MockUnifiedAPI.complete_task Z.of_nat "t1" "p1"
         (snd (MockUnifiedAPI.complete_task Z.of_nat "t1" "p1" sample_store))) =
    Ok tt.
Proof.
  destruct (complete_task_twice_like_once Z.of_nat "t1" "p1" sample_store _
              eq_refl eq_refl) as (_ & Htwice & _).
  exact Htwice.
Defined.

Lemma delete_folder_only_ungroups_witness :
  fst (MockUnifiedAPI.delete_project_group "f1" sample_store) = Ok tt ∧
  ∃ p', MockUnifiedAPI.projects
          (snd (MockUnifiedAPI.delete_project_group "f1" sample_store))
          !! "p1" = Some p' ∧
        Project.group_id p' = None ∧ Project.name p' = "Client".
Proof.
  destruct (delete_folder_only_ungroups "f1" sample_store eq_refl
              ltac:(by eexists)) as (Hok & _ & Hmember & _).
  split; [exact Hok|].
  destruct (Hmember "p1" _ eq_refl eq_refl)
    as (p' & Hheld & Hgroup & _ & Hname & _).
  exists p'. split; [exact Hheld|]. split; [exact Hgroup|exact Hname].
Defined.

Lemma merge_tags_validates_migrates_deletes_witness :
  fst (MockUnifiedAPI.merge_tags ascii_lower "Urgent" "important"
         sample_store) = Ok tt ∧
  MockUnifiedAPI.tags
    (snd (MockUnifiedAPI.merge_tags ascii_lower "Urgent" "important"
            sample_store))
    !! "urgent" = None ∧
  ∃ task', MockUnifiedAPI.tasks
             (snd (MockUnifiedAPI.merge_tags ascii_lower "Urgent" "important"
                     sample_store))
             !! "t1" = Some task' ∧
           carries ascii_lower "important" task' = 1 ∧
           carries ascii_lower "urgent" task' = 0.
Proof.
  destruct (merge_tags_validates_migrates_deletes ascii_lower "Urgent"
              "important" sample_store eq_refl) as (_ & _ & _ & Hmerge).
  destruct (Hmerge ltac:(by eexists) ltac:(by eexists))
    as (Hok & Htags & _ & Hmoved & _).
  split; [exact Hok|]. split; [rewrite Htags; apply lookup_delete_eq|].
  destruct (Hmoved "t1" _ eq_refl ltac:(compute_done))
    as (task' & Hheld & _ & Hcounts).
  destruct (Hcounts eq_refl) as [Honce Hgone].
  exists task'. split; [exact Hheld|]. split.
  - apply Honce. compute_done.
  - apply Hgone. discriminate.
Defined.

(** ** More on the lifecycle *)

Section LifecycleCalls.
Context `{E : Collaborators}.
Import UnifiedTickTickAPI.

Lemma construct_v1_log self s :
  let '(self1, _, s1) := construct_v1 self s in
  _v2_credentials self1 = _v2_credentials self ∧
  fst s1 = snd (perform (v1_init_call (_v1_credentials self)) (fst s)) ∧
  snd s1 = (snd s ++ [v1_init_call (_v1_credentials self)])%list.
Proof.
  unfold construct_v1. destruct s as [w log]. simpl.
  by destruct (perform _ w) as [[d|e] w1].
Qed.

Lemma construct_v2_log self s :
  let creds := _v2_credentials self in
  let '(_, _, s2) := construct_v2 self s in
  snd s2 =
    (snd s ++ v2_init_call creds ::
       if is_ok (fst (perform (v2_init_call creds) (fst s))) &&
          (truthy (username creds) && truthy (password creds))
       then [v2_authenticate_call creds] else [])%list.
Proof.
  unfold construct_v2. destruct s as [w log]. simpl.
  destruct (perform (v2_init_call _) w) as [[d|e] w1]; simpl; [|done].
  destruct (truthy _ && truthy _); simpl; [|done].
  destruct (perform (v2_authenticate_call _) w1) as [[session|e] w2]; simpl;
    by rewrite <- app_assoc.
Qed.

(** [close] closes V1 and then V2, each if present.  When every close
    returns, the object is left uninitialized.  When the V1 close raises,
    V2 is not closed, the exception is the outcome and the object is as it
    was (still initialized if it was); likewise when the V2 close raises
    after V1 was closed. *)
Theorem close_stops_at_first_failure (self : t) (s : env) :
  is_Some (_v1_client self) → is_Some (_v2_client self) →
  (∀ e w, perform v1_close_call (fst s) = (Raise e, w) →
     close self s = (Raise e, self, (w, (snd s ++ [v1_close_call])%list))) ∧
  (∀ d w, perform v1_close_call (fst s) = (Ok d, w) →
     (∀ e w', perform v2_close_call w = (Raise e, w') →
        close self s =
          (Raise e, self, (w', (snd s ++ [v1_close_call; v2_close_call])%list))) ∧
     (∀ d' w', perform v2_close_call w = (Ok d', w') →
        close self s =
          (Ok tt, set_initialized false self,
           (w', (snd s ++ [v1_close_call; v2_close_call])%list)))).
Proof.
  intros H1 H2. unfold close.
  rewrite !bool_decide_eq_true_2 by done.
  destruct s as [w0 log]. unfold bind, ret. simpl.
  split.
  - intros e w Hp. by rewrite Hp.
  - intros d w Hp. rewrite Hp. simpl. split.
    + intros e w' Hp'. rewrite Hp'. by rewrite <- app_assoc.
    + intros d' w' Hp'. rewrite Hp'. by rewrite <- app_assoc.
Qed.
End LifecycleCalls.

Lemma close_stops_at_first_failure_witness :
  UnifiedTickTickAPI.close (E := v1_close_fails) sample_ready (tt, []) =
    (Raise server_error, sample_ready,
     (tt, [UnifiedTickTickAPI.v1_close_call])).
Proof.
  destruct (close_stops_at_first_failure (E := v1_close_fails) sample_ready
              (tt, []) ltac:(by eexists) ltac:(by eexists)) as [Hfail _].
  exact (Hfail _ _ eq_refl).
Defined.

(** ** Reading projects *)

Section ProjectReads.
Context `{E : Collaborators}.
Import UnifiedTickTickAPI.

(** [get_project_with_data] exists on V1 only and, unlike the operations
    that exist on V2 only, asks the router: with V1 unusable it raises the
    unavailable error that names it and calls nothing, also when V2 is
    usable; with V1 usable it makes the one V1 call and returns the
    converted answer, or raises what the call or the conversion raised. *)
Theorem get_project_with_data_needs_v1
    (self : t) (r : APIRouter) (project_id : string) (s : env) :
  _initialized self = true →
  wired self r →
  (has_v1 r = false →
     get_project_with_data self project_id s =
       (Raise (TickTickAPIUnavailableError
                 "V1 API required for get_project_with_data"
                 "get_project_with_data"), s)) ∧
  (has_v1 r = true →
     let c := v1_get_project_with_data_call project_id in
     get_project_with_data self project_id s =
       (converted ProjectData_from_v1 (fst (perform c (fst s))),
        (snd (perform c (fst s)), (snd s ++ [c])%list))).
Proof.
  intros Hi Hw. destruct (wired_clients _ _ Hw) as (Hr & Hc1 & _).
  unfold get_project_with_data. rewrite guarded_ok by done.
  erewrite bind_ok by (by apply router_flag_wired).
  split; intros H1; rewrite H1; simpl; [done|].
  destruct (perform _ (fst s)) as [out w] eqn:Hp. simpl.
  apply converted_call. rewrite on_v1_present by auto.
  by apply await_performs.
Qed.

Lemma scan_profiles_skips project_id before rest :
  Forall (other_id project_id) before →
  scan_profiles project_id (before ++ rest) = scan_profiles project_id rest.
Proof.
  induction 1 as [|q before (v & Hget & Hne) _ IH]; simpl; [done|].
  by rewrite Hget, Hne.
Qed.

(** With V1 unusable and V2 usable, [get_project] reads the full state
    from V2 and scans its project profiles in order: the first profile
    whose id is the requested one is converted and returned, whatever
    follows it; when no profile has that id (or the state lists none), the
    unavailable error for [get_project] is raised. *)
Theorem get_project_scans_sync_without_v1
    (self : t) (r : APIRouter) (project_id : string) (s : env)
    (state : raw) (w : World) (profiles : list raw) :
  _initialized self = true →
  wired self r →
  has_v1 r = false →
  has_v2 r = true →
  perform v2_sync_call (fst s) = (Ok state, w) →
  dict_get state "projectProfiles" (RList []) = Ok (RList profiles) →
  let s' := (w, (snd s ++ [v2_sync_call])%list) in
  (∀ before p rest v,
     profiles = (before ++ p :: rest)%list →
     Forall (other_id project_id) before →
     dict_get p "id" RNone = Ok v → raw_eq_str v project_id = true →
     get_project self project_id s =
       (match Project_from_v2 p with Ok x => Ok x | Raise e => Raise e end, s')) ∧
  (Forall (other_id project_id) profiles →
     get_project self project_id s =
       (Raise (TickTickAPIUnavailableError
                 "Could not get project" "get_project"), s')).
Proof.
  intros Hi Hw H1 H2 Hp Hprofiles s'.
  destruct (wired_clients _ _ Hw) as (Hr & _ & Hc2).
  assert (Hshape : get_project self project_id s =
    match scan_profiles project_id profiles with
    | Ok (Some project) => (Ok project, s')
    | Ok None =>
        (Raise (TickTickAPIUnavailableError
                  "Could not get project" "get_project"), s')
    | Raise e => (Raise e, s')
    end).
  { unfold get_project. rewrite guarded_ok by done.
    erewrite bind_ok by (by apply router_flag_wired). rewrite H1.
    erewrite bind_ok by (by apply router_flag_wired). rewrite H2.
    rewrite !bind_assoc.
    erewrite bind_ok
      by (rewrite on_v2_present by auto; by apply await_performs).
    fold s'. rewrite Hprofiles, bind_assoc, bind_lift_ok. simpl.
    rewrite bind_assoc, bind_lift_ok. unfold bind, lift.
    by destruct (scan_profiles project_id profiles) as [[project|]|e]. }
  split.
  - intros before p rest v -> Hbefore Hget Heq. rewrite Hshape.
    rewrite scan_profiles_skips by done. simpl. rewrite Hget, Heq.
    by destruct (Project_from_v2 p).
  - intros Hnone. rewrite Hshape.
    rewrite <- (app_nil_r profiles), scan_profiles_skips by done. done.
Qed.
End ProjectReads.

Lemma get_project_with_data_needs_v1_witness :
  UnifiedTickTickAPI.get_project_with_data (E := quiet) sample_v2_only "p1"
    fresh =
    (Raise (TickTickAPIUnavailableError
              "V1 API required for get_project_with_data"
              "get_project_with_data"), fresh).
Proof.
  destruct (get_project_with_data_needs_v1 (E := quiet) sample_v2_only
              {| v1_client := None;
                 v2_client := Some {| is_authenticated := true |} |}
              "p1" fresh eq_refl ltac:(repeat split)) as [Hno _].
  exact (Hno eq_refl).
Defined.

Lemma get_project_scans_sync_without_v1_witness :
  UnifiedTickTickAPI.get_project (E := v2_lists_projects) sample_v2_only "p2"
    (tt, []) =
    (scripted_project (RDict [("id", RStr "p2"); ("name", RStr "Work")]),
     (tt, [UnifiedTickTickAPI.v2_sync_call])).
Proof.
  destruct (get_project_scans_sync_without_v1 (E := v2_lists_projects)
              sample_v2_only
              {| v1_client := None;
                 v2_client := Some {| is_authenticated := true |} |}
              "p2" (tt, []) _ tt _ eq_refl ltac:(repeat split) eq_refl eq_refl
              eq_refl eq_refl) as [Hfound _].
  refine (Hfound [RDict [("id", RStr "p1"); ("name", RStr "Home")]] _ [] _
            eq_refl _ eq_refl eq_refl).
  constructor; [|constructor]. by exists (RStr "p1").
Defined.

(** ** Listings and their conversions *)

Section ListingFacts.
Context `{E : Collaborators}.
Import UnifiedTickTickAPI.

(** A comprehension over a conversion succeeds exactly when every entry
    converts, and then keeps length and order. *)
Lemma for_each_ok {A B} (f : A → res B) xs ys :
  for_each f xs = Ok ys ↔ Forall2 (λ x y, f x = Ok y) xs ys.
Proof.
  revert ys. induction xs as [|x xs IH]; intros ys; simpl.
  - split; [by intros [= <-]; constructor|by inversion 1].
  - destruct (f x) as [y|e] eqn:Hx.
    + destruct (for_each f xs) as [ys'|e] eqn:Hxs.
      * split.
        -- intros [= <-]. constructor; [done|]. by apply IH.
        -- inversion 1 as [|? y' ? ys'' Hy Hrest]; subst.
           apply IH in Hrest. congruence.
      * split; [done|].
        inversion 1 as [|? y' ? ys'' Hy Hrest]; subst.
        apply IH in Hrest. congruence.
    + split; [done|]. inversion 1; congruence.
Qed.

(** The first entry that does not convert decides the outcome. *)
Lemma for_each_first_failure {A B} (f : A → res B) good ys x e rest :
  Forall2 (λ x y, f x = Ok y) good ys →
  f x = Raise e →
  for_each f (good ++ x :: rest) = Raise e.
Proof.
  induction 1 as [|g y good ys Hg _ IH]; intros Hx; simpl.
  - by rewrite Hx.
  - by rewrite Hg, IH.
Qed.

Lemma listing_outcome {A} (self : t) (key : string) (f : raw → res A)
    (s : env) (state : raw) (w : World) :
  _initialized self = true → is_Some (_v2_client self) →
  perform v2_sync_call (fst s) = (Ok state, w) →
  bind (_ensure_initialized self) (λ _,
    bind (on_v2 self v2_sync_call) (λ state,
      bind (lift (dict_get state key (RList []))) (λ data,
        bind (lift (iterate data)) (λ items, lift (for_each f items))))) s =
  (match dict_get state key (RList []) with
   | Ok data =>
       match iterate data with
       | Ok items => for_each f items
       | Raise e => Raise e
       end
   | Raise e => Raise e
   end, (w, (snd s ++ [v2_sync_call])%list)).
Proof.
  intros Hi Hc Hp. rewrite guarded_ok by done.
  erewrite bind_ok by (rewrite on_v2_present by done; by apply await_performs).
  unfold bind, lift.
  destruct (dict_get state key (RList [])) as [data|e]; [|done].
  by destruct (iterate data) as [items|e].
Qed.

(** The listings that read the full state from V2 ([list_tags] and
    [list_project_groups]): when the state lacks their key the result is
    the empty list; when the key holds a list, the result has one
    converted entry per listed entry, in the same order, and one entry
    that does not convert makes the whole listing raise the error of the
    first such entry. *)
Theorem state_listings_convert_every_entry
    (self : t) (s : env) (kv : list (string * raw)) (w : World) :
  _initialized self = true →
  is_Some (_v2_client self) →
  perform v2_sync_call (fst s) = (Ok (RDict kv), w) →
  let s' := (w, (snd s ++ [v2_sync_call])%list) in
  (assoc "tags" kv = None → list_tags self s = (Ok [], s')) ∧
  (assoc "projectGroups" kv = None → list_project_groups self s = (Ok [], s')) ∧
  (∀ items, assoc "tags" kv = Some (RList items) →
     (∀ tags, list_tags self s = (Ok tags, s') ↔
              Forall2 (λ item tag, Tag_from_v2 item = Ok tag) items tags) ∧
     (∀ good tags bad e rest,
        items = (good ++ bad :: rest)%list →
        Forall2 (λ item tag, Tag_from_v2 item = Ok tag) good tags →
        Tag_from_v2 bad = Raise e →
        list_tags self s = (Raise e, s'))) ∧
  (∀ items, assoc "projectGroups" kv = Some (RList items) →
     (∀ groups, list_project_groups self s = (Ok groups, s') ↔
        Forall2 (λ item group, ProjectGroup_from_v2 item = Ok group)
          items groups) ∧
     (∀ good groups bad e rest,
        items = (good ++ bad :: rest)%list →
        Forall2 (λ item group, ProjectGroup_from_v2 item = Ok group)
          good groups →
        ProjectGroup_from_v2 bad = Raise e →
        list_project_groups self s = (Raise e, s'))).
Proof.
  intros Hi Hc Hp s'.
  pose proof (listing_outcome self "tags" Tag_from_v2 s _ w Hi Hc Hp) as Htags.
  pose proof (listing_outcome self "projectGroups" ProjectGroup_from_v2 s _ w
                Hi Hc Hp) as Hgroups.
  fold (list_tags self) in Htags. fold (list_project_groups self) in Hgroups.
  fold s' in Htags, Hgroups. simpl in Htags, Hgroups.
  split; [|split; [|split]].
  - intros Hkey. rewrite Htags, Hkey. done.
  - intros Hkey. rewrite Hgroups, Hkey. done.
  - intros items Hkey. rewrite Htags, Hkey. simpl. split.
    + intros tags. rewrite <- for_each_ok. split; [by intros [= ->]|by intros ->].
    + intros good tags bad e rest -> Hgood Hbad.
      by rewrite (for_each_first_failure _ _ _ _ _ _ Hgood Hbad).
  - intros items Hkey. rewrite Hgroups, Hkey. simpl. split.
    + intros groups. rewrite <- for_each_ok.
      split; [by intros [= ->]|by intros ->].
    + intros good groups bad e rest -> Hgood Hbad.
      by rewrite (for_each_first_failure _ _ _ _ _ _ Hgood Hbad).
Qed.
End ListingFacts.

Lemma state_listings_convert_every_entry_witness :
  UnifiedTickTickAPI.list_tags (E := v2_empty_state) sample_ready (tt, []) =
    (Ok [], (tt, [UnifiedTickTickAPI.v2_sync_call])).
Proof.
  destruct (state_listings_convert_every_entry (E := v2_empty_state)
              sample_ready (tt, []) [] tt eq_refl ltac:(by eexists) eq_refl)
    as [Hempty _].
  exact (Hempty eq_refl).
Defined.

(** ** Folders, project resolution and updates on the facade *)

Section MoreWrites.
Context `{E : Collaborators}.
Import UnifiedTickTickAPI.

(** [create_project_group] writes on V2 and then reads the full state:
    exactly these two calls.  The group it returns carries the generated
    id: the listed group with that id if the state lists one (the first
    such), and otherwise a group built from the id and the given name.
    Without a generated id the id is the empty string. *)
Theorem create_project_group_returns_generated_id
    (self : t) (name : string) (s : env) (response ids : raw)
    (w1 w2 : World) (group_id : option string)
    (groups : list ProjectGroup.t) :
  _initialized self = true →
  is_Some (_v2_client self) →
  perform (v2_create_project_group_call name) (fst s) = (Ok response, w1) →
  dict_get response "id2etag" (RDict []) = Ok ids →
  first_key ids = Ok group_id →
  list_project_groups self (w1, (snd s ++ [v2_create_project_group_call name])%list) =
    (Ok groups,
     (w2, (snd s ++ [v2_create_project_group_call name; v2_sync_call])%list)) →
  ∃ group,
    create_project_group self name s =
      (Ok group,
       (w2, (snd s ++ [v2_create_project_group_call name; v2_sync_call])%list)) ∧
    ProjectGroup.id group = default "" group_id ∧
    ((∀ g, g ∈ groups → Some (ProjectGroup.id g) ≠ group_id) →
       ProjectGroup.name group = name ∧
       ProjectGroup.sort_order group = ProjectGroup_default_sort_order).
Proof.
  intros Hi Hc Hp Hids Hkey Hlist.
  unfold create_project_group. rewrite guarded_ok by done.
  erewrite bind_ok by (rewrite on_v2_present by done; by apply await_performs).
  rewrite Hids, bind_lift_ok, Hkey, bind_lift_ok.
  erewrite bind_ok by exact Hlist.
  destruct (find _ groups) as [group|] eqn:Hfind.
  - exists group. split; [done|].
    apply find_some in Hfind as [Hin Heq].
    apply bool_decide_eq_true in Heq. split.
    + by rewrite <- Heq.
    + intros Hnone. exfalso. apply list_elem_of_In in Hin.
      by apply (Hnone group Hin).
  - eexists. split; [reflexivity|]. simpl. split; [|done].
    destruct group_id as [g|]; simpl; [|done].
    destruct (String.eqb g "") eqn:Hg; simpl; [|done].
    by apply String.eqb_eq in Hg.
Qed.

(** [create_task] resolves the project before it asks the router: a call
    without a project id on an object without inbox id raises a
    configuration error and calls nothing, whatever the router reports.
    On a ready object the id given is the one sent to V2, also when it is
    the empty string; without one, the inbox id is sent. *)
Theorem create_task_resolves_project_first
    (self : t) (a : CreateTaskArgs.t) (s : env) :
  _initialized self = true →
  (resolve_project_id self a = None ↔
   CreateTaskArgs.project_id a = None ∧ _inbox_id self = None) ∧
  (resolve_project_id self a = None →
     create_task self a s =
       (Raise (TickTickConfigurationError
                 "No project ID provided and inbox ID unknown"), s)) ∧
  (ready self →
   ∀ project_id,
     CreateTaskArgs.project_id a = Some project_id ∨
     (CreateTaskArgs.project_id a = None ∧ _inbox_id self = Some project_id) →
     ∃ rest,
       snd (snd (create_task self a s)) =
         (snd s ++
            v2_create_task_call a project_id
              (v2_date_string (CreateTaskArgs.start_date a))
              (v2_date_string (CreateTaskArgs.due_date a)) :: rest)%list).
Proof.
  intros Hi. split; [|split].
  - unfold resolve_project_id. destruct (CreateTaskArgs.project_id a).
    + split; [done|by intros [? _]].
    + split; [done|by intros [_ ?]].
  - intros Hnone. unfold create_task. rewrite guarded_ok by done.
    by rewrite Hnone.
  - intros Hready project_id Hgiven.
    assert (Hres : resolve_project_id self a = Some project_id).
    { unfold resolve_project_id. by destruct Hgiven as [->|[-> ->]]. }
    destruct Hready as (_ & r & Hw & Hfull).
    apply andb_true_iff in Hfull as [_ H2].
    destruct (create_task_route self r a project_id s Hi Hw Hres) as [Hfirst _].
    by destruct (Hfirst H2) as [Hlog _].
Qed.

(** On a ready object [update_task] sends the batch update to V2 and then
    continues as [get_task] with the id and project id of the task it was
    given.  The write is not undone when the read fails: with a task whose
    project id is empty and a V2 read that raises a [TickTickAPIError],
    the outcome is the unavailable error of [get_task], after both
    calls. *)
Theorem update_task_reads_back
    (self : t) (task : Task.t) (s : env) (ack : raw) (w : World) :
  ready self →
  perform (v2_batch_update_call task) (fst s) = (Ok ack, w) →
  let s' := (w, (snd s ++ [v2_batch_update_call task])%list) in
  update_task self task s =
    get_task self (Task.id task) (Some (Task.project_id task)) s' ∧
  (∀ e w',
     perform (v2_get_task_call (Task.id task)) w = (Raise e, w') →
     isinstance_TickTickAPIError e = true →
     Task.project_id task = "" →
     update_task self task s =
       (Raise (TickTickAPIUnavailableError "Could not get task" "get_task"),
        (w', (snd s ++ [v2_batch_update_call task;
                        v2_get_task_call (Task.id task)])%list))).
Proof.
  intros Hready Hp s'.
  pose proof (ready_unfold _ Hready) as (Hi & r & Hr & H1 & H2 & Hc1 & Hc2).
  assert (Heq : update_task self task s =
                get_task self (Task.id task) (Some (Task.project_id task)) s').
  { unfold update_task. rewrite guarded_ok by done.
    erewrite bind_ok by (by apply router_flag_wired). rewrite H2.
    erewrite bind_ok
      by (rewrite on_v2_present by done; by apply await_performs).
    done. }
  split; [exact Heq|].
  intros e w' Hread Hapi Hempty. rewrite Heq.
  rewrite (get_task_ready self (Task.id task) (Some (Task.project_id task))
             s' (Raise e) w' Hready Hread).
  simpl. rewrite Hapi, Hempty. simpl. by rewrite <- app_assoc.
Qed.
End MoreWrites.

Lemma create_project_group_returns_generated_id_witness :
  ∃ group,
    UnifiedTickTickAPI.create_project_group (E := v2_folder_not_listed)
      sample_ready "Work" (tt, []) =
      (Ok group,
       (tt, [UnifiedTickTickAPI.v2_create_project_group_call "Work";
             UnifiedTickTickAPI.v2_sync_call])) ∧
    ProjectGroup.id group = "g7" ∧ ProjectGroup.name group = "Work".
Proof.
  destruct (create_project_group_returns_generated_id
              (E := v2_folder_not_listed) sample_ready "Work" (tt, []) _ _
              tt tt (Some "g7") [] eq_refl ltac:(by eexists)
              eq_refl eq_refl eq_refl eq_refl) as (group & Heq & Hid & Hname).
  exists group. split; [exact Heq|]. split; [exact Hid|].
  apply Hname. intros g Hg. by apply elem_of_nil in Hg.
Defined.

Lemma create_task_resolves_project_first_witness :
  UnifiedTickTickAPI.create_task (E := quiet) sample_v2_only buy_milk fresh =
    (Raise (TickTickConfigurationError
              "No project ID provided and inbox ID unknown"), fresh).
Proof.
  destruct (create_task_resolves_project_first (E := quiet) sample_v2_only
              buy_milk fresh eq_refl) as (_ & Hnone & _).
  exact (Hnone eq_refl).
Defined.

Lemma update_task_reads_back_witness :
  UnifiedTickTickAPI.update_task (E := v2_read_after_update_fails) sample_ready
    sample_task_without_project (tt, []) =
    (Raise (TickTickAPIUnavailableError "Could not get task" "get_task"),
     (tt, [UnifiedTickTickAPI.v2_batch_update_call (E := v2_read_after_update_fails)
             sample_task_without_project;
           UnifiedTickTickAPI.v2_get_task_call "t1"])).
Proof.
  destruct (update_task_reads_back (E := v2_read_after_update_fails)
              sample_ready sample_task_without_project (tt, []) _ tt
              sample_ready_is_ready eq_refl) as [_ Hfail].
  exact (Hfail _ tt eq_refl eq_refl eq_refl).
Defined.

(** ** The double: call history, configured failures, ids *)

Section MockCalls.
Import MockUnifiedAPI.
Variable utc_now : nat → datetime.
Variable lower : string → string.

(** Unfolds one call on the double down to its lookups. *)
Ltac open_call :=
  unfold invoke, plain, drawing, initialize, close, get_task, update_task,
    complete_task, delete_task, list_all_tasks, move_task, set_task_parent,
    list_projects, get_project, get_project_with_data, create_project,
    delete_project, list_project_groups, create_project_group,
    delete_project_group, list_tags, create_tag, delete_tag, rename_tag,
    merge_tags, get_focus_heatmap, get_focus_by_tag, called, entered,
    read_utc_now; simpl.

(** Every call of a method of [invocation], whether it returns or raises,
    appends one record to the call history, under the name of the method,
    and leaves the earlier records as they are; so the number of recorded
    calls of a method, as [get_calls] counts them, grows by one with each
    call of that method and with no other of these calls. *)
Theorem every_call_is_recorded_once
    (c : invocation) (counter : nat) (self : t) :
  let after := snd (snd (invoke utc_now lower c counter self)) in
  (∃ args kwargs,
     call_history after =
       (call_history self ++ [(method_name c, args, kwargs)])%list) ∧
  ∀ m, length (get_calls m after) =
       length (get_calls m self) +
       (if decide (method_name c = m) then 1 else 0).
Proof.
  intros after.
  assert (Hhist : ∃ args kwargs,
            call_history after =
              (call_history self ++ [(method_name c, args, kwargs)])%list).
  { subst after. destruct c; open_call;
      repeat case_match; simpl; eexists _, _; reflexivity. }
  split; [exact Hhist|].
  destruct Hhist as (args & kwargs & Hhist). intros m.
  unfold get_calls. rewrite !length_map, Hhist, filter_app, length_app.
  f_equal. destruct (decide (method_name c = m)) as [Heq|Hne].
  - by rewrite filter_cons_True.
  - by rewrite filter_cons_False.
Qed.

(** A failure configured for a method of [invocation] other than [close]
    makes every call of that method raise it, after the call is recorded
    and before anything else happens: tasks, projects, folders, tags, the
    clock and the id counter are as before.  [close] never looks at the
    configured failures: with one configured under its name it still
    returns and leaves the double uninitialized. *)
Theorem configured_failure_leaves_stores
    (c : invocation) (counter : nat) (self : t) (e : exn) :
  should_fail self !! method_name c = Some (Some e) →
  (c ≠ call_close →
   ∃ args kwargs,
     invoke utc_now lower c counter self =
       (Some e, (counter, _record_call (method_name c) args kwargs self))) ∧
  (c = call_close →
   invoke utc_now lower c counter self =
     (None,
      (counter, set_initialized false (_record_call "close" [] [] self)))).
Proof.
  intros Hfail. split; [|by intros ->].
  assert (Hcheck : ∀ m a k, m = method_name c →
            _check_failure m (_record_call m a k self) = Some e).
  { intros m a k ->. unfold _check_failure. simpl. by rewrite Hfail. }
  intros Hopen. destruct c; [|done|..]; open_call;
    (rewrite Hcheck by reflexivity || rewrite (Hcheck _ _ _ eq_refl));
    eexists _, _; reflexivity.
Qed.
End MockCalls.

Lemma configured_failure_leaves_stores_witness :
  ∃ args kwargs,
    MockUnifiedAPI.invoke Z.of_nat ascii_lower (MockUnifiedAPI.call_delete_tag "urgent") 0
      failing_store =
      (Some server_error,
       (0, MockUnifiedAPI._record_call "delete_tag" args kwargs
             failing_store)).
Proof.
  destruct (configured_failure_leaves_stores Z.of_nat ascii_lower
              (MockUnifiedAPI.call_delete_tag "urgent") 0 failing_store
              server_error eq_refl) as [Hraises _].
  apply Hraises. discriminate.
Defined.

(** ** The double: invariants of the stores *)

Section MockInvariants.
Import MockUnifiedAPI.
Variable utc_now : nat → datetime.
Variable lower : string → string.

Lemma called_passes {A} method args kwargs self (body : t → res A * t) :
  _check_failure method self = None →
  called method args kwargs self body =
  body (_record_call method args kwargs self).
Proof. intros Hok. unfold called. by rewrite check_failure_recorded, Hok. Qed.

Lemma keyed_insert {A} (key : A → string) (m : gmap string A) k x :
  key x = k → keyed key m → keyed key (<[k := x]> m).
Proof.
  intros Hk Hm k' x' Hlook.
  destruct (decide (k = k')) as [<-|Hne].
  - rewrite lookup_insert_eq in Hlook. congruence.
  - rewrite lookup_insert_ne in Hlook by done. by apply Hm.
Qed.

Lemma keyed_delete {A} (key : A → string) (m : gmap string A) k :
  keyed key m → keyed key (delete k m).
Proof.
  intros Hm k' x' Hlook. apply lookup_delete_Some in Hlook as [_ Hlook].
  by apply Hm.
Qed.

Lemma keyed_fmap {A} (key : A → string) (f : A → A) (m : gmap string A) :
  (∀ x, key (f x) = key x) → keyed key m → keyed key (f <$> m).
Proof.
  intros Hf Hm k x Hlook. rewrite lookup_fmap in Hlook.
  destruct (m !! k) as [y|] eqn:Hy; simplify_eq/=.
  rewrite Hf. by apply Hm.
Qed.

Lemma keyed_filter {A} (key : A → string) (P : string * A → Prop)
    `{∀ kv, Decision (P kv)} (m : gmap string A) :
  keyed key m → keyed key (filter P m).
Proof.
  intros Hm k x Hlook. apply map_lookup_filter_Some in Hlook as [Hlook _].
  by apply Hm.
Qed.

Lemma ungroup_id group_id project :
  Project.id (ungroup group_id project) = Project.id project.
Proof. unfold ungroup. by case_bool_decide. Qed.

Lemma migrate_id source target task :
  Task.id (migrate lower source target task) = Task.id task.
Proof. unfold migrate. by repeat case_bool_decide. Qed.

Ltac open_call :=
  unfold invoke, plain, drawing, initialize, close, get_task, update_task,
    complete_task, delete_task, list_all_tasks, move_task, set_task_parent,
    list_projects, get_project, get_project_with_data, create_project,
    delete_project, list_project_groups, create_project_group,
    delete_project_group, list_tags, create_tag, delete_tag, rename_tag,
    merge_tags, get_focus_heatmap, get_focus_by_tag, called, entered,
    read_utc_now; simpl.

(** Whichever method of [invocation] is called, and whether the call
    returns or raises, the stores stay keyed: a task, project or folder is
    found under its own id and a tag under its own name. *)
Theorem every_call_keeps_stores_keyed
    (c : invocation) (counter : nat) (self : t) :
  stores_keyed self →
  stores_keyed (snd (snd (invoke utc_now lower c counter self))).
Proof.
  intros (Htasks & Hprojects & Hfolders & Htags).
  destruct c; open_call; repeat case_match; simplify_eq/=;
    repeat split; simpl;
    repeat first
      [ assumption
      | apply keyed_insert; [reflexivity|]
      | apply keyed_delete
      | apply keyed_filter
      | apply keyed_fmap; [intros ?; first [apply ungroup_id | apply migrate_id | reflexivity]|]
      | match goal with
        | H : ?m !! ?k = Some ?x |- keyed Task.id (<[?k := _]> ?m) =>
            let Hm := fresh in
            assert (Hm : keyed Task.id m);
            [| apply keyed_insert; [simpl; by apply (Hm _ _ H) | exact Hm] ]
        end ].
Qed.


Lemma sample_store_keyed : stores_keyed sample_store.
Proof.
  repeat split; intros k x Hlook; simpl in Hlook.
  - by apply lookup_singleton_Some in Hlook as [<- <-].
  - by apply lookup_singleton_Some in Hlook as [<- <-].
  - by apply lookup_singleton_Some in Hlook as [<- <-].
  - apply lookup_insert_Some in Hlook as [[<- <-]|[_ Hlook]]; [done|].
    by apply lookup_singleton_Some in Hlook as [<- <-].
Qed.
End MockInvariants.

Lemma every_call_keeps_stores_keyed_witness :
  stores_keyed
    (snd (snd (MockUnifiedAPI.invoke Z.of_nat ascii_lower
                 (MockUnifiedAPI.call_rename_tag "urgent" "Later") 0
                 sample_store))).
Proof.
  apply every_call_keeps_stores_keyed. exact sample_store_keyed.
Defined.

(** ** The double: tags *)

Section MockTags.
Import MockUnifiedAPI.
Variable lower : string → string.

Lemma carries_none_after_filter tag_name l :
  length (filter (λ t, lower t = tag_name)
            (filter (λ t, lower t ≠ tag_name) l)) = 0.
Proof.
  induction l as [|a l IH]; [done|].
  destruct (decide (lower a = tag_name)) as [Heq|Hne].
  - by rewrite (filter_cons_False (λ t, lower t ≠ tag_name)) by tauto.
  - rewrite (filter_cons_True (λ t, lower t ≠ tag_name)) by done.
    by rewrite filter_cons_False by done.
Qed.

(** [delete_tag] finds the tag under the lower-cased name, removes it, and
    strips from every task each tag whose lower-casing is that name,
    whatever the casing the task carries it in; the other tags of a task
    keep their order, and tasks, projects and folders are otherwise as
    before.  This holds whatever [str.lower()] does to the names. *)
Theorem delete_tag_strips_every_task (name : string) (self : t) (tag : Tag.t) :
  _check_failure "delete_tag" self = None →
  tags self !! lower name = Some tag →
  ∃ after,
    delete_tag lower name self = (Ok tt, after) ∧
    tags after = delete (lower name) (tags self) ∧
    projects after = projects self ∧ folders after = folders self ∧
    (∀ id, tasks after !! id = None ↔ tasks self !! id = None) ∧
    ∀ id task', tasks after !! id = Some task' →
      carries lower (lower name) task' = 0 ∧
      ∃ task, tasks self !! id = Some task ∧
        Task.tags task' =
          filter (λ t, lower t ≠ lower name) (Task.tags task) ∧
        Task.with_tags (Task.tags task) task' = task.
Proof.
  intros Hok Htag. unfold delete_tag. rewrite called_passes by done.
  simpl. rewrite Htag. eexists. split; [reflexivity|]. simpl.
  repeat split; try done.
  - rewrite lookup_fmap. by intros ?%fmap_None.
  - rewrite lookup_fmap. by intros ->.
  - rewrite lookup_fmap in H.
    destruct (tasks self !! id) as [task|]; simplify_eq/=.
    unfold carries. simpl. apply carries_none_after_filter.
  - rewrite lookup_fmap in H.
    destruct (tasks self !! id) as [task|] eqn:Htask; simplify_eq/=.
    exists task. repeat split. by destruct task.
Qed.


End MockTags.

Lemma delete_tag_strips_every_task_witness :
  ∃ after,
    MockUnifiedAPI.delete_tag ascii_lower "URGENT" sample_store
      = (Ok tt, after) ∧
    MockUnifiedAPI.tags after =
      delete "urgent" (MockUnifiedAPI.tags sample_store).
Proof.
  destruct (delete_tag_strips_every_task ascii_lower "URGENT" sample_store
              {| Tag.name := "urgent"; Tag.label := "Urgent";
                 Tag.color := None; Tag.parent := None;
                 Tag.sort_order := 0 |} eq_refl eq_refl)
    as (after & Hcall & Htags & _).
  exists after. split; assumption.
Defined.


(** ** The double: tasks *)

Section MockTasks.
Import MockUnifiedAPI.
Variable utc_now : nat → datetime.

(** [set_task_parent] on a task the store holds returns normally whether or
    not the parent exists, and whether or not it is the task itself.  The
    task then names the parent; a parent the store holds lists the task
    among its children; every task other than the two is untouched, so a
    former parent keeps the task in its own list.  A second call with the
    same arguments changes no task: the child is not listed twice. *)
Theorem set_task_parent_links_once
    (task_id project_id parent_id : string) (self : t) (task : Task.t) :
  _check_failure "set_task_parent" self = None →
  tasks self !! task_id = Some task →
  ∃ after,
    set_task_parent task_id project_id parent_id self = (Ok tt, after) ∧
    (∃ task', tasks after !! task_id = Some task' ∧
              Task.parent_id task' = Some parent_id) ∧
    (∀ parent, tasks self !! parent_id = Some parent →
       ∃ parent', tasks after !! parent_id = Some parent' ∧
                  task_id ∈ Task.child_ids parent') ∧
    (tasks self !! parent_id = None → tasks after !! parent_id = None) ∧
    (∀ q, q ≠ task_id → q ≠ parent_id → tasks after !! q = tasks self !! q) ∧
    tasks (snd (set_task_parent task_id project_id parent_id after)) =
      tasks after.
Proof.
  intros Hok Htask. unfold set_task_parent at 1.
  rewrite called_passes by done. simpl. rewrite Htask.
  destruct (decide (task_id = parent_id)) as [<-|Hne].
  - rewrite lookup_insert_eq. simpl.
    case_bool_decide as Hin.
    + eexists. split; [reflexivity|]. simpl. rewrite insert_insert_eq.
      split; [eexists; by rewrite lookup_insert_eq|].
      split.
      { intros parent Hparent. eexists. rewrite lookup_insert_eq.
        split; [done|]. simpl. set_solver. }
      split; [congruence|].
      split; [intros q Hq _; by rewrite lookup_insert_ne|].
      unfold set_task_parent. rewrite called_passes by done. simpl.
      rewrite lookup_insert_eq. simpl. rewrite insert_insert_eq.
      rewrite lookup_insert_eq. simpl.
      rewrite bool_decide_eq_false_2 by set_solver. done.
    + eexists. split; [reflexivity|]. simpl.
      split; [eexists; by rewrite lookup_insert_eq|].
      split.
      { intros parent Hparent. eexists. rewrite lookup_insert_eq.
        split; [done|]. simpl. congruence. }
      split; [congruence|].
      split; [intros q Hq _; by rewrite lookup_insert_ne|].
      unfold set_task_parent. rewrite called_passes by done. simpl.
      rewrite lookup_insert_eq. simpl. rewrite insert_insert_eq.
      rewrite lookup_insert_eq. simpl.
      rewrite bool_decide_eq_false_2 by (intros Hnot; by apply Hnot). done.
  - rewrite lookup_insert_ne by done.
    destruct (tasks self !! parent_id) as [parent|] eqn:Hparent.
    + case_bool_decide as Hin.
      * eexists. split; [reflexivity|]. simpl.
        split.
        { eexists. rewrite lookup_insert_ne by done.
          by rewrite lookup_insert_eq. }
        split.
        { intros ? [= <-]. eexists. rewrite lookup_insert_eq.
          split; [done|]. simpl. set_solver. }
        split; [done|].
        split.
        { intros q Hq Hq'. by rewrite !lookup_insert_ne. }
        unfold set_task_parent. rewrite called_passes by done. simpl.
        rewrite lookup_insert_ne by done. rewrite lookup_insert_eq. simpl.
        rewrite lookup_insert_ne by done. rewrite lookup_insert_eq.
        rewrite bool_decide_eq_false_2 by set_solver. simpl.
        apply map_eq. intros q.
        destruct (decide (q = task_id)) as [->|Hq].
        { rewrite lookup_insert_eq, lookup_insert_ne by done.
          by rewrite lookup_insert_eq. }
        by rewrite lookup_insert_ne.
      * eexists. split; [reflexivity|]. simpl.
        split; [eexists; by rewrite lookup_insert_eq|].
        split.
        { intros ? [= <-]. eexists. by rewrite lookup_insert_ne. }
        split; [done|].
        split; [intros q Hq _; by rewrite lookup_insert_ne|].
        unfold set_task_parent. rewrite called_passes by done. simpl.
        rewrite lookup_insert_eq. simpl. rewrite insert_insert_eq.
        rewrite lookup_insert_ne by done. rewrite Hparent.
        rewrite bool_decide_eq_false_2 by (intros Hnot; by apply Hnot). done.
    + eexists. split; [reflexivity|]. simpl.
      split; [eexists; by rewrite lookup_insert_eq|].
      split; [done|].
      split; [intros _; by rewrite lookup_insert_ne|].
      split; [intros q Hq _; by rewrite lookup_insert_ne|].
      unfold set_task_parent. rewrite called_passes by done. simpl.
      rewrite lookup_insert_eq. simpl. rewrite insert_insert_eq.
      rewrite lookup_insert_ne by done. by rewrite Hparent.
Qed.


(** [update_task] never creates: for an id the store does not hold it
    raises [TickTickNotFoundError] without reading the clock or touching
    the tasks.  For an id the store holds, the stored task is replaced as a
    whole by the one passed, stamped with the clock reading as its
    modification time; that task is returned, and a [get_task] of the id
    returns it again. *)
Theorem update_task_replaces_or_refuses (task : Task.t) (self : t) :
  _check_failure "update_task" self = None →
  _check_failure "get_task" self = None →
  (tasks self !! Task.id task = None →
   ∃ e after,
     update_task utc_now task self = (Raise e, after) ∧
     exn_class e = "TickTickNotFoundError" ∧
     tasks after = tasks self ∧ clock_reads after = clock_reads self) ∧
  (is_Some (tasks self !! Task.id task) →
   ∃ after,
     let stored :=
       Task.with_modified_time (Some (utc_now (clock_reads self))) task in
     update_task utc_now task self = (Ok stored, after) ∧
     clock_reads after = S (clock_reads self) ∧
     (∀ q, q ≠ Task.id task → tasks after !! q = tasks self !! q) ∧
     ∀ p, fst (get_task (Task.id task) p after) = Ok stored).
Proof.
  intros Hupdate Hget. unfold update_task. rewrite called_passes by done.
  simpl. split.
  - intros ->. by eexists _, _.
  - intros [held ->]. simpl. eexists. split; [reflexivity|]. simpl.
    split; [done|].
    split; [intros q Hq; by rewrite lookup_insert_ne|].
    intros p. unfold get_task. rewrite check_failure_recorded. simpl.
    unfold _check_failure in *. simpl. rewrite Hget.
    by rewrite lookup_insert_eq.
Qed.

(** After [complete_task] of a task, [list_all_tasks] lists every other
    active task of the store and no task under the completed id. *)
Theorem completed_task_leaves_listing
    (task_id project_id : string) (self : t) (task : Task.t) :
  keyed Task.id (tasks self) →
  _check_failure "complete_task" self = None →
  _check_failure "list_all_tasks" self = None →
  tasks self !! task_id = Some task →
  ∃ held listed after,
    complete_task utc_now task_id project_id self = (Ok tt, held) ∧
    list_all_tasks held = (Ok listed, after) ∧
    (∀ x, x ∈ listed ↔
          Task.id x ≠ task_id ∧ Task.status x = ACTIVE ∧
          tasks self !! Task.id x = Some x).
Proof.
  intros Hkeyed Hcomplete Hlist Htask.
  destruct (complete_task_held utc_now task_id project_id self task
              Hcomplete Htask)
    as (held & Hcall & Htasks & _ & _ & _ & Hfail & _).
  exists held. unfold list_all_tasks.
  rewrite called_passes by (unfold _check_failure in *; by rewrite Hfail).
  eexists _, _. split; [done|]. split; [reflexivity|]. simpl.
  intros x. rewrite list_elem_of_filter.
  change (map snd ?l) with (snd <$> l). rewrite list_elem_of_fmap.
  split.
  - intros [Hactive ([k x'] & -> & Hin)]. simpl in *.
    apply elem_of_map_to_list in Hin. rewrite Htasks in Hin.
    apply lookup_insert_Some in Hin as [[<- <-]|[Hne Hin]]; [done|].
    rewrite (Hkeyed _ _ Hin). done.
  - intros (Hne & Hactive & Hheld). split; [done|].
    exists (Task.id x, x). split; [done|].
    apply elem_of_map_to_list. rewrite Htasks.
    by rewrite lookup_insert_ne.
Qed.
End MockTasks.

Lemma set_task_parent_links_once_witness :
  ∃ after,
    MockUnifiedAPI.set_task_parent "t2" "inbox123456789" "t1" family_store
      = (Ok tt, after) ∧
    ∃ parent', MockUnifiedAPI.tasks after !! "t1" = Some parent' ∧
               "t2" ∈ Task.child_ids parent'.
Proof.
  destruct (set_task_parent_links_once "t2" "inbox123456789" "t1"
              family_store _ eq_refl eq_refl)
    as (after & Hcall & _ & Hparent & _).
  exists after. split; [assumption|].
  exact (Hparent _ eq_refl).
Defined.


Lemma update_task_replaces_or_refuses_witness :
  ∃ after,
    MockUnifiedAPI.update_task Z.of_nat sample_task_without_project
      sample_store
      = (Ok (Task.with_modified_time (Some 0%Z) sample_task_without_project),
         after) ∧
    fst (MockUnifiedAPI.get_task "t1" None after) =
      Ok (Task.with_modified_time (Some 0%Z) sample_task_without_project).
Proof.
  destruct (update_task_replaces_or_refuses Z.of_nat
              sample_task_without_project sample_store eq_refl eq_refl)
    as [_ Hreplaces].
  destruct (Hreplaces (mk_is_Some _ _ eq_refl))
    as (after & Hcall & _ & _ & Hget).
  exists after. split; [exact Hcall|]. exact (Hget None).
Defined.

Lemma completed_task_leaves_listing_witness :
  ∃ held listed after,
    MockUnifiedAPI.complete_task Z.of_nat "t1" "p1" sample_store
      = (Ok tt, held) ∧
    MockUnifiedAPI.list_all_tasks held = (Ok listed, after) ∧
    ∀ x, x ∈ listed ↔
         Task.id x ≠ "t1" ∧ Task.status x = ACTIVE ∧
         MockUnifiedAPI.tasks sample_store !! Task.id x = Some x.
Proof.
  apply (completed_task_leaves_listing Z.of_nat "t1" "p1" sample_store _
           (proj1 sample_store_keyed) eq_refl eq_refl eq_refl).
Defined.

(** ** The double: generated ids, projects *)

Section MockProjects.
Import MockUnifiedAPI.
Variable utc_now : nat → datetime.
Variable lower : string → string.

Lemma zeros_cons k :
  String.concat "" (replicate (S k) "0") =
  String "0"%char (String.concat "" (replicate k "0")).
Proof. by destruct k. Qed.

Lemma id_number_zero s : id_number (String "0"%char s) = id_number s.
Proof.
  unfold id_number. simpl.
  by destruct (HexadecimalString.NilEmpty.uint_of_string s).
Qed.

Lemma id_number_zfill width s : id_number (zfill width s) = id_number s.
Proof.
  unfold zfill. induction (width - String.length s) as [|k IH]; [done|].
  rewrite zeros_cons.
  change (String ?c ?z +:+ s) with (String c (z +:+ s)).
  by rewrite id_number_zero.
Qed.

Lemma id_number_hex n : id_number (hex n) = Some n.
Proof.
  unfold id_number, hex.
  rewrite <- (HexadecimalNat.Unsigned.of_to n) at 2.
  destruct (Nat.to_hex_uint n) eqn:Hd; simpl;
    try (rewrite HexadecimalString.NilEmpty.usu; reflexivity).
  reflexivity.
Qed.

Lemma length_zeros k : String.length (String.concat "" (replicate k "0")) = k.
Proof.
  induction k as [|k IH]; [done|]. rewrite zeros_cons. simpl. by rewrite IH.
Qed.

Lemma length_append (a b : string) :
  String.length (a +:+ b) = (String.length a + String.length b)%nat.
Proof. induction a as [|c a IH]; simpl; [done|]. by rewrite IH. Qed.

(** An id of [IDGenerator] without prefix has at least 24 characters and
    reads back, as a hexadecimal number, as the counter after the draw; so
    two draws give the same id only from the same counter. *)
Theorem next_id_reads_back_counter (counter other : nat) :
  snd (next_id "" counter) = S counter ∧
  id_number (fst (next_id "" counter)) = Some (S counter) ∧
  (24 ≤ String.length (fst (next_id "" counter)))%nat ∧
  (fst (next_id "" counter) = fst (next_id "" other) → counter = other).
Proof.
  assert (Hread : ∀ c, id_number (fst (next_id "" c)) = Some (S c)).
  { intros c. unfold next_id. simpl fst.
    change ("" +:+ ?s) with s. by rewrite id_number_zfill, id_number_hex. }
  split; [done|]. split; [apply Hread|]. split.
  - unfold next_id, zfill. simpl fst. change ("" +:+ ?s) with s.
    rewrite length_append, length_zeros. lia.
  - intros Heq. pose proof (Hread counter) as Hc.
    rewrite Heq, Hread in Hc. congruence.
Qed.

(** [create_project] stores the new project under a drawn id no project
    of the store has, so it overwrites nothing; the project has the fields
    passed, is open, and [get_project] of its id returns it.  The group id
    is stored as passed, whether or not such a folder exists. *)
Theorem create_project_draws_fresh_id
    (name : string) (color : option string) (kind view_mode : string)
    (group_id : option string) (counter : nat) (self : t) :
  _check_failure "create_project" self = None →
  _check_failure "get_project" self = None →
  ids_drawn counter self →
  ∃ project after,
    create_project name color kind view_mode group_id counter self =
      (Ok project, (S counter, after)) ∧
    projects self !! Project.id project = None ∧
    projects after = <[Project.id project := project]> (projects self) ∧
    fst (get_project (Project.id project) after) = Ok project ∧
    Project.name project = name ∧ Project.group_id project = group_id ∧
    Project.closed project = false ∧
    tasks after = tasks self ∧ folders after = folders self ∧
    ids_drawn (S counter) after.
Proof.
  intros Hcreate Hget Hdrawn.
  destruct (next_id_reads_back_counter counter counter)
    as (_ & Hread & _ & _).
  assert (Hfresh : projects self !! fst (next_id "" counter) = None).
  { destruct (projects self !! fst (next_id "" counter)) eqn:Hheld; [|done].
    pose proof (Hdrawn _ _ (mk_is_Some _ _ Hheld) Hread). lia. }
  unfold create_project. rewrite check_failure_recorded, Hcreate.
  eexists _, _. split; [reflexivity|]. simpl.
  split; [exact Hfresh|]. split; [done|]. split.
  { unfold get_project. rewrite check_failure_recorded. simpl.
    unfold _check_failure in *. simpl. rewrite Hget.
    by rewrite lookup_insert_eq. }
  repeat split.
  intros k n [x Hx] Hn. simpl in Hx.
  apply lookup_insert_Some in Hx as [[<- _]|[_ Hx]].
  - change (id_number (fst (next_id "" counter)) = Some n) in Hn.
    rewrite Hread in Hn. injection Hn as <-. lia.
  - pose proof (Hdrawn _ _ (mk_is_Some _ _ Hx) Hn). lia.
Qed.

(** [delete_project] removes the project and, with it, exactly the tasks
    whose project id is the deleted one; folders and tags are untouched. *)
Theorem delete_project_takes_its_tasks
    (project_id : string) (self : t) (project : Project.t) :
  _check_failure "delete_project" self = None →
  projects self !! project_id = Some project →
  ∃ after,
    delete_project project_id self = (Ok tt, after) ∧
    projects after = delete project_id (projects self) ∧
    folders after = folders self ∧ tags after = tags self ∧
    ∀ id task,
      tasks after !! id = Some task ↔
      tasks self !! id = Some task ∧ Task.project_id task ≠ project_id.
Proof.
  intros Hok Hproject. unfold delete_project.
  rewrite called_passes by done. simpl. rewrite Hproject.
  eexists. split; [reflexivity|]. simpl. repeat split; try done.
  - by apply map_lookup_filter_Some in H as [? ?].
  - by apply map_lookup_filter_Some in H as [? ?].
  - intros [Hheld Hne]. by apply map_lookup_filter_Some.
Qed.

(** [move_task] sets the project id of the task to the target, without
    looking at the source project passed or asking whether the target
    exists; a task moved out of a project survives the deletion of that
    project. *)
Theorem moved_task_survives_delete_project
    (task_id from_project_id to_project_id stale : string) (self : t)
    (task : Task.t) (project : Project.t) :
  _check_failure "move_task" self = None →
  _check_failure "delete_project" self = None →
  tasks self !! task_id = Some task →
  projects self !! from_project_id = Some project →
  to_project_id ≠ from_project_id →
  ∃ moved after,
    move_task task_id stale to_project_id self = (Ok tt, moved) ∧
    tasks moved =
      <[task_id := Task.with_project_id to_project_id task]> (tasks self) ∧
    delete_project from_project_id moved = (Ok tt, after) ∧
    tasks after !! task_id =
      Some (Task.with_project_id to_project_id task).
Proof.
  intros Hmove Hdelete Htask Hproject Hne. unfold move_task.
  rewrite called_passes by done. simpl. rewrite Htask.
  eexists _, _. split; [reflexivity|]. split; [done|].
  unfold delete_project. rewrite called_passes by done. simpl.
  rewrite Hproject. split; [reflexivity|]. simpl.
  apply map_lookup_filter_Some. split; [by rewrite lookup_insert_eq|done].
Qed.

(** [create_tag] keeps the name passed as the label and stores the tag
    under the lower-cased name with its spaces removed, replacing a tag
    already stored there; [delete_tag] looks under the lower-cased name
    with its spaces kept.  So a tag created under a name whose lower-casing
    has no space is deleted by that name, and one created under a name
    whose lower-casing has a space is not found by it (unless another tag
    is stored there).  This holds whatever [str.lower()] does to the
    name. *)
Theorem create_tag_key_drops_spaces
    (name : string) (color parent : option string) (self : t) :
  _check_failure "create_tag" self = None →
  _check_failure "delete_tag" self = None →
  ∃ tag after,
    create_tag lower name color parent self = (Ok tag, after) ∧
    Tag.label tag = name ∧ Tag.name tag = without_spaces (lower name) ∧
    tags after = <[Tag.name tag := tag]> (tags self) ∧
    tasks after = tasks self ∧
    (without_spaces (lower name) = lower name →
     ∃ later, delete_tag lower name after = (Ok tt, later) ∧
              tags later = delete (lower name) (tags self)) ∧
    (without_spaces (lower name) ≠ lower name →
     tags self !! lower name = None →
     ∃ e later, delete_tag lower name after = (Raise e, later) ∧
                exn_class e = "TickTickNotFoundError" ∧
                tags later !! Tag.name tag = Some tag).
Proof.
  intros Hcreate Hdelete. unfold create_tag.
  rewrite called_passes by done. simpl.
  eexists _, _. split; [reflexivity|]. simpl.
  repeat split.
  - intros Hsame. unfold delete_tag. rewrite called_passes by done. simpl.
    rewrite Hsame, lookup_insert_eq. eexists. split; [reflexivity|]. simpl.
    apply delete_insert_eq.
  - intros Hdiffer Hmissing. unfold delete_tag.
    rewrite called_passes by done. simpl.
    rewrite lookup_insert_ne by done. rewrite Hmissing.
    eexists _, _. split; [reflexivity|]. split; [done|]. simpl.
    by rewrite lookup_insert_eq.
Qed.
End MockProjects.

Lemma sample_store_ids_drawn : ids_drawn 0 sample_store.
Proof.
  intros k n [x Hx] Hn. simpl in Hx.
  apply lookup_singleton_Some in Hx as [<- _]. discriminate.
Qed.

Lemma create_project_draws_fresh_id_witness :
  ∃ project after,
    MockUnifiedAPI.create_project "Garden" None "TASK" "list" (Some "nowhere")
      0 sample_store = (Ok project, (1, after)) ∧
    MockUnifiedAPI.projects sample_store !! Project.id project = None ∧
    fst (MockUnifiedAPI.get_project (Project.id project) after) = Ok project.
Proof.
  destruct (create_project_draws_fresh_id "Garden" None "TASK" "list"
              (Some "nowhere") 0 sample_store eq_refl eq_refl
              sample_store_ids_drawn)
    as (project & after & Hcall & Hfresh & _ & Hget & _).
  exists project, after. repeat split; assumption.
Defined.

Lemma delete_project_takes_its_tasks_witness :
  ∃ after,
    MockUnifiedAPI.delete_project "p1" sample_store = (Ok tt, after) ∧
    MockUnifiedAPI.projects after =
      delete "p1" (MockUnifiedAPI.projects sample_store).
Proof.
  destruct (delete_project_takes_its_tasks "p1" sample_store _
              eq_refl eq_refl) as (after & Hcall & Hprojects & _).
  exists after. split; assumption.
Defined.

Lemma moved_task_survives_delete_project_witness :
  ∃ moved after,
    MockUnifiedAPI.move_task "t1" "elsewhere" "inbox123456789" sample_store
      = (Ok tt, moved) ∧
    MockUnifiedAPI.delete_project "p1" moved = (Ok tt, after) ∧
    is_Some (MockUnifiedAPI.tasks after !! "t1").
Proof.
  destruct (moved_task_survives_delete_project "t1" "p1" "inbox123456789"
              "elsewhere" sample_store _ _ eq_refl eq_refl eq_refl eq_refl)
    as (moved & after & Hmove & _ & Hdelete & Hkept); [discriminate|].
  exists moved, after. split; [assumption|]. split; [assumption|].
  rewrite Hkept. by eexists.
Defined.

Lemma create_tag_key_drops_spaces_witness :
  ∃ tag after e later,
    MockUnifiedAPI.create_tag ascii_lower "Next Week" None None sample_store
      = (Ok tag, after) ∧
    Tag.name tag = "nextweek" ∧
    MockUnifiedAPI.delete_tag ascii_lower "Next Week" after
      = (Raise e, later) ∧
    exn_class e = "TickTickNotFoundError".
Proof.
  destruct (create_tag_key_drops_spaces ascii_lower "Next Week" None None
              sample_store
              eq_refl eq_refl)
    as (tag & after & Hcall & _ & Hname & _ & _ & _ & Hmissing).
  destruct Hmissing as (e & later & Hdelete & Hclass & _);
    [discriminate|reflexivity|].
  exists tag, after, e, later. repeat split; assumption.
Defined.

(** ** Listing projects and tasks on the facade *)

Section MoreListings.
Context `{E : Collaborators}.
Import UnifiedTickTickAPI.

(** [list_projects] asks one upstream, chosen by the router alone.  With
    V2 usable it reads the full state from V2: a failure of that read is
    raised as it is, with no call on V1, and a state that arrives gives one
    converted project per listed profile, in order (none when the state
    lists no profiles).  With V2 unusable and V1 usable it converts what
    V1 lists; with neither usable it raises the unavailable error for
    [list_projects] without any call. *)
Theorem list_projects_reads_one_upstream
    (self : t) (r : APIRouter) (s : env) :
  _initialized self = true →
  wired self r →
  (has_v2 r = true →
   (∀ e w, perform v2_sync_call (fst s) = (Raise e, w) →
      list_projects self s = (Raise e, (w, (snd s ++ [v2_sync_call])%list))) ∧
   (∀ kv w, perform v2_sync_call (fst s) = (Ok (RDict kv), w) →
      (assoc "projectProfiles" kv = None →
       list_projects self s = (Ok [], (w, (snd s ++ [v2_sync_call])%list))) ∧
      (∀ items projects,
         assoc "projectProfiles" kv = Some (RList items) →
         list_projects self s =
           (Ok projects, (w, (snd s ++ [v2_sync_call])%list)) ↔
         Forall2 (λ item project, Project_from_v2 item = Ok project)
           items projects))) ∧
  (has_v2 r = false → has_v1 r = true →
   ∀ items w projects,
     perform v1_get_projects_call (fst s) = (Ok (RList items), w) →
     list_projects self s =
       (Ok projects, (w, (snd s ++ [v1_get_projects_call])%list)) ↔
     Forall2 (λ item project, Project_from_v1 item = Ok project)
       items projects) ∧
  (has_v2 r = false → has_v1 r = false →
   list_projects self s =
     (Raise (TickTickAPIUnavailableError
               "Could not list projects" "list_projects"), s)).
Proof.
  intros Hi Hw. destruct (wired_clients _ _ Hw) as (Hr & Hc1 & Hc2).
  unfold list_projects. rewrite guarded_ok by done.
  erewrite bind_ok by (by apply router_flag_wired).
  split; [|split].
  - intros H2. rewrite H2. split.
    + intros e w Hp. apply bind_raise.
      rewrite on_v2_present by auto. by apply await_performs.
    + intros kv w Hp.
      erewrite bind_ok
        by (rewrite on_v2_present by auto; by apply await_performs).
      unfold bind, lift. simpl. split.
      * by intros ->.
      * intros items projects ->. simpl. rewrite <- for_each_ok.
        split; [by intros [= ->]|by intros ->].
  - intros H2 H1 items w projects Hp. rewrite H2.
    erewrite bind_ok by (by apply router_flag_wired). rewrite H1.
    erewrite bind_ok
      by (rewrite on_v1_present by auto; by apply await_performs).
    unfold bind, lift. simpl. rewrite <- for_each_ok.
    split; [by intros [= ->]|by intros ->].
  - intros H2 H1. rewrite H2.
    erewrite bind_ok by (by apply router_flag_wired). by rewrite H1.
Qed.

(** [list_all_tasks] reads the full state from V2 and converts every
    entry under [syncTaskBean.update], in order and whatever the status of
    the task; a state without [syncTaskBean], or a bean without [update],
    gives the empty list, and a bean that is no mapping makes the call
    raise after the read. *)
Theorem list_all_tasks_converts_update_entries
    (self : t) (s : env) (kv : list (string * raw)) (w : World) :
  _initialized self = true →
  is_Some (_v2_client self) →
  perform v2_sync_call (fst s) = (Ok (RDict kv), w) →
  let s' := (w, (snd s ++ [v2_sync_call])%list) in
  (assoc "syncTaskBean" kv = None → list_all_tasks self s = (Ok [], s')) ∧
  (∀ bean, assoc "syncTaskBean" kv = Some (RDict bean) →
     (assoc "update" bean = None → list_all_tasks self s = (Ok [], s')) ∧
     (∀ items tasks, assoc "update" bean = Some (RList items) →
        list_all_tasks self s = (Ok tasks, s') ↔
        Forall2 (λ item task, Task_from_v2 item = Ok task) items tasks)) ∧
  (∀ items, assoc "syncTaskBean" kv = Some (RList items) →
     ∃ e, list_all_tasks self s = (Raise e, s') ∧
          exn_class e = "AttributeError").
Proof.
  intros Hi Hc Hp s'. unfold list_all_tasks. rewrite guarded_ok by done.
  erewrite bind_ok
    by (rewrite on_v2_present by auto; by apply await_performs).
  fold s'. unfold bind, lift. simpl.
  split; [|split].
  - by intros ->.
  - intros bean ->. simpl. split.
    + by intros ->.
    + intros items tasks ->. simpl. rewrite <- for_each_ok.
      split; [by intros [= ->]|by intros ->].
  - intros items ->. simpl. by eexists.
Qed.
End MoreListings.

Lemma list_projects_reads_one_upstream_witness :
  UnifiedTickTickAPI.list_projects (E := v2_sync_fails) sample_ready fresh =
    (Raise server_error, (tt, [UnifiedTickTickAPI.v2_sync_call])).
Proof.
  destruct (list_projects_reads_one_upstream (E := v2_sync_fails)
              sample_ready _ fresh eq_refl sample_ready_wired)
    as [Hv2 _].
  destruct (Hv2 eq_refl) as [Hfails _].
  exact (Hfails server_error tt eq_refl).
Defined.

Lemma list_all_tasks_converts_update_entries_witness :
  UnifiedTickTickAPI.list_all_tasks (E := v2_empty_state) sample_ready
    (tt, []) = (Ok [], (tt, [UnifiedTickTickAPI.v2_sync_call])).
Proof.
  destruct (list_all_tasks_converts_update_entries (E := v2_empty_state)
              sample_ready (tt, []) [] tt eq_refl ltac:(by eexists) eq_refl)
    as [Hempty _].
  exact (Hempty eq_refl).
Defined.
